(** * Dashboards: the financial and subscription pipelines

    A shallow embedding of the data pipelines of
    [Final/pages/1_Financial_Dashboard.py] and
    [Final/pages/2_Subscription_Dashboard.py].

    Conventions of the model.
    - Text is a [string] of characters with codes below 256.  The classes
      [\s], [\d] and [\w] are Python's on all of them: the blanks are
      the ASCII ones with NEL (133) and NBSP (160), the digits are the ten
      ASCII digits, and the word characters take in the letters and
      numerals above 127.  So is the conversion to lower case.  The
      conversions to upper case and to title case are Python's on the
      ASCII letters; they carry a character above 127 along unchanged, as
      one without case.
    - A data frame cell is a [cell]: a text, or one of the three missing
      markers pandas distinguishes when it prints them ([astype_str]).
    - A finite float stands as the exact rational [Q] of the numeral it
      was read from; [None] is NaN.  Rounding to binary64 is not modelled:
      every comparison the code makes is with zero, and every number it
      stores is copied, never computed.
    - [pd.to_numeric] is modelled on plain decimal numerals (digits, one
      optional point, one optional leading minus sign) of at most 15
      characters.  Their digits are a whole number that a float holds
      exactly, so the float read from one is zero, above zero or below
      zero as the numeral is.  What [pd.to_numeric] makes of any other
      text, a longer numeral among them, which may overflow or underflow,
      is a section variable.  On page 1 the text it is given has only
      digits, points and minus signs, and the result is NaN or finite; on
      page 2 the text may be a word such as [inf], and the result may be
      an infinity ([float64]).  The parsers of dates are section variables
      too: the code only passes their results along.
    - A row of an input file is read through the columns that the code
      resolved for it.
    - The raw sheet of the subscription page is a list of rows of cells,
      each a text or NaN, under the labels 0, 1, ... of [read_csv].  Where
      a label that the code resolved heads several columns the outcome is
      set apart and not followed further. *)

From Stdlib Require Import String Ascii List ZArith QArith Bool Lia.
From Stdlib Require Import Numbers.DecimalString.
From stdpp Require Import gmap strings list.

Open Scope string_scope.

(** ** Python [str] methods and the regular expressions of the sources *)

Module Py.

Definition code (c : ascii) : nat := nat_of_ascii c.

Definition between (lo hi : nat) (c : ascii) : bool :=
  (lo <=? code c)%nat && (code c <=? hi)%nat.

(** [str.isspace] and the class [\s]: TAB..CR, FS..US, SPACE, NEL, NBSP. *)
Definition is_space (c : ascii) : bool :=
  between 9 13 c || between 28 32 c || (code c =? 133)%nat || (code c =? 160)%nat.

(** The class [\d]. *)
Definition is_digit (c : ascii) : bool := between 48 57 c.

Definition is_upper (c : ascii) : bool := between 65 90 c.
Definition is_lower (c : ascii) : bool := between 97 122 c.
Definition is_alpha (c : ascii) : bool := is_upper c || is_lower c.

(** The class [\w] of a text pattern: the letters, digits and numerals of
    Unicode, and the low line.  Above 127 these are the two ordinal
    indicators (170, 186), the micro sign (181), the superscript digits
    (178, 179, 185), the three fractions (188 to 190) and the letters
    from 192 on, without the signs of multiplication (215) and division
    (247). *)
Definition is_word (c : ascii) : bool :=
  is_alpha c || is_digit c || (code c =? 95)%nat
  || (code c =? 170)%nat || (code c =? 181)%nat || (code c =? 186)%nat
  || between 178 179 c || (code c =? 185)%nat || between 188 190 c
  || between 192 214 c || between 216 246 c || between 248 255 c.

(** [c.lower()]: the ASCII capitals and, above 127, the capitals from
    192 to 222 without the sign of multiplication (215) go 32 places up;
    every other character stays. *)
Definition lower_char (c : ascii) : ascii :=
  if is_upper c || between 192 214 c || between 216 222 c
  then ascii_of_nat (code c + 32) else c.

Definition upper_char (c : ascii) : ascii :=
  if is_lower c then ascii_of_nat (code c - 32) else c.

Fixpoint map_chars (f : ascii -> ascii) (s : string) : string :=
  match s with
  | EmptyString => EmptyString
  | String c r => String (f c) (map_chars f r)
  end.

Fixpoint all_chars (p : ascii -> bool) (s : string) : bool :=
  match s with
  | EmptyString => true
  | String c r => p c && all_chars p r
  end.

Fixpoint has_char (p : ascii -> bool) (s : string) : bool :=
  match s with
  | EmptyString => false
  | String c r => p c || has_char p r
  end.

(** [s.lower()], [s.upper()]. *)
Definition lower : string -> string := map_chars lower_char.
Definition upper : string -> string := map_chars upper_char.

(** [s.lstrip()], [s.rstrip()], [s.strip()]. *)
Fixpoint lstrip (s : string) : string :=
  match s with
  | EmptyString => EmptyString
  | String c r => if is_space c then lstrip r else s
  end.

Fixpoint rstrip (s : string) : string :=
  match s with
  | EmptyString => EmptyString
  | String c r =>
      match rstrip r with
      | EmptyString => if is_space c then EmptyString else String c EmptyString
      | r' => String c r'
      end
  end.

Definition strip (s : string) : string := rstrip (lstrip s).

(** [s.title()]: a letter is upper-cased when the character before it is
    not a letter, lower-cased otherwise. *)
Fixpoint title_from (prev_cased : bool) (s : string) : string :=
  match s with
  | EmptyString => EmptyString
  | String c r =>
      if is_alpha c
      then String (if prev_cased then lower_char c else upper_char c) (title_from true r)
      else String c (title_from false r)
  end.

Definition title : string -> string := title_from false.

(** [s.startswith(p)] and [p in s]. *)
Fixpoint startswith (s p : string) : bool :=
  match p, s with
  | EmptyString, _ => true
  | String a p', String b s' => Ascii.eqb a b && startswith s' p'
  | String _ _, EmptyString => false
  end.

Fixpoint contains (p s : string) : bool :=
  startswith s p ||
  match s with
  | EmptyString => false
  | String _ r => contains p r
  end.

(** [s.split(sep)[0]] for a one-character separator. *)
Fixpoint before_first (sep : ascii) (s : string) : string :=
  match s with
  | EmptyString => EmptyString
  | String c r => if Ascii.eqb c sep then EmptyString else String c (before_first sep r)
  end.

(** [re.sub(p, "", s)] for a one-character class [p]. *)
Fixpoint remove_chars (p : ascii -> bool) (s : string) : string :=
  match s with
  | EmptyString => EmptyString
  | String c r => if p c then remove_chars p r else String c (remove_chars p r)
  end.

(** [s.replace(a, b)] for one-character [a] and [b]. *)
Definition replace_char (a b : ascii) : string -> string :=
  map_chars (fun c => if Ascii.eqb c a then b else c).

(** [re.sub(p+, " ", s)] for a one-character class [p]: every maximal run
    of characters of the class becomes one space. *)
Fixpoint sub_runs (p : ascii -> bool) (s : string) : string :=
  match s with
  | EmptyString => EmptyString
  | String c r =>
      if p c
      then match r with
           | String d _ => if p d then sub_runs p r else String " " (sub_runs p r)
           | EmptyString => String " " EmptyString
           end
      else String c (sub_runs p r)
  end.

Definition nbsp : ascii := ascii_of_nat 160.
Definition newline : ascii := ascii_of_nat 10.

End Py.

(** ** pandas: cells, numeric coercion, timestamps *)

Module Pd.

(** A cell of an object column.  [NaN] is numpy's missing float, [NA] is
    [pd.NA], [PyNone] is Python's [None]. *)
Inductive cell : Type :=
| Str (s : string)
| NaN
| NA
| PyNone.

(** [Series.astype(str)]. *)
Definition astype_str (c : cell) : string :=
  match c with
  | Str s => s
  | NaN => "nan"
  | NA => "<NA>"
  | PyNone => "None"
  end.

(** [Series.isna()]. *)
Definition isna (c : cell) : bool :=
  match c with
  | Str _ => false
  | _ => true
  end.

(** A [.str] method: missing cells stay missing. *)
Definition str_method (f : string -> string) (c : cell) : cell :=
  match c with
  | Str s => Str (f s)
  | missing => missing
  end.

(** The value of a run of decimal digits, most significant first. *)
Fixpoint digits_value (acc : Z) (s : string) : Z :=
  match s with
  | EmptyString => acc
  | String c r => digits_value (10 * acc + Z.of_nat (Py.code c - 48)) r
  end.

Fixpoint after_first (sep : ascii) (s : string) : string :=
  match s with
  | EmptyString => EmptyString
  | String c r => if Ascii.eqb c sep then r else after_first sep r
  end.

(** Digits with at most one decimal point and at least one digit. *)
Definition unsigned_decimal (s : string) : option Q :=
  let ip := Py.before_first "." s in
  let fp := after_first "." s in
  if Py.all_chars Py.is_digit ip && Py.all_chars Py.is_digit fp
     && negb (String.eqb (ip ++ fp) "")
  then Some (Qred (Qmake (digits_value 0 (ip ++ fp))
                         (Z.to_pos (10 ^ Z.of_nat (String.length fp)))))
  else None.

(** A plain decimal numeral: an optional minus sign, then
    [unsigned_decimal]. *)
Definition decimal (s : string) : option Q :=
  match s with
  | String "-" r => option_map Qopp (unsigned_decimal r)
  | _ => unsigned_decimal s
  end.

(** The characters of a plain decimal numeral. *)
Definition is_plain (c : ascii) : bool :=
  Py.is_digit c || Ascii.eqb c "." || Ascii.eqb c "-".

(** A text short enough for a float to hold its digits exactly: at most
    15 characters. *)
Definition is_short (s : string) : bool := (String.length s <=? 15)%nat.

Section ToNumeric.

(** What [pd.to_numeric] makes of a text of digits, points and minus
    signs that is longer than 15 characters: NaN, or a finite number.  A
    numeral too large for a float is an error to the parser, which
    [errors="coerce"] turns into NaN. *)
Variable to_numeric_other : string -> option Q.

(** [pd.to_numeric(s, errors="coerce")] on one text of digits, points and
    minus signs, which is all that page 1 gives it; [None] is NaN. *)
Definition to_numeric (s : string) : option Q :=
  if Py.all_chars is_plain s && is_short s then decimal s else to_numeric_other s.

End ToNumeric.

(** A float that is not NaN: a finite number, or one of the two
    infinities. *)
Inductive float64 : Type :=
| finite (q : Q)
| infinite (negative : bool).

Section ToNumericFloat.

(** What [pd.to_numeric] makes of a text that is no short plain numeral:
    a longer numeral, an exponent, a word such as [inf], a stray
    letter. *)
Variable to_numeric_other : string -> option float64.

(** [pd.to_numeric(s, errors="coerce")] on one text, whatever the text;
    [None] is NaN. *)
Definition to_numeric_float (s : string) : option float64 :=
  if Py.all_chars is_plain s && is_short s then option_map finite (decimal s)
  else to_numeric_other s.

End ToNumericFloat.

(** [Series.fillna(0.0)] on a float column. *)
Definition fillna0 (x : option Q) : Q :=
  match x with
  | Some q => q
  | None => 0
  end.

Inductive MonthName : Type :=
| Jan | Feb | Mar | Apr | May | Jun | Jul | Aug | Sep | Oct | Nov | Dec.

(** A naive [Timestamp]. *)
Record Timestamp : Type := mkTimestamp {
  ts_year : Z;
  ts_month : MonthName;
  ts_day : Z;
  ts_nanos : Z
}.

(** [strftime("%b")]. *)
Definition strftime_b (t : Timestamp) : string :=
  match ts_month t with
  | Jan => "Jan" | Feb => "Feb" | Mar => "Mar" | Apr => "Apr"
  | May => "May" | Jun => "Jun" | Jul => "Jul" | Aug => "Aug"
  | Sep => "Sep" | Oct => "Oct" | Nov => "Nov" | Dec => "Dec"
  end.

(** [str(int)]. *)
Definition str_of_Z (z : Z) : string := NilEmpty.string_of_int (Z.to_int z).

(** [.isin(values)]. *)
Definition isin (x : string) (values : list string) : bool :=
  bool_decide (x ∈ values).

End Pd.

(** ** Page 1: the financial dashboard *)

Module Financial.
Import Pd.

(** *** The counterparty pattern

    [r"\bto\s+(.+?)(?=[,;()]+|$)"], searched with [Series.str.extract]:
    the first match from the left, and its group. *)

(** [[,;()]]. *)
Definition is_delim (c : ascii) : bool :=
  Ascii.eqb c "," || Ascii.eqb c ";" || Ascii.eqb c "(" || Ascii.eqb c ")".

(** The lookahead [(?=[,;()]+|$)] on the text that is left: a delimiter
    comes next, or the text ends here, or only its final newline is left. *)
Definition lookahead (rest : string) : bool :=
  match rest with
  | EmptyString => true
  | String c r => is_delim c || (Ascii.eqb c Py.newline && String.eqb r "")
  end.

(** The group [(.+?)] followed by the lookahead: the shortest run of one
    or more characters other than a newline after which the lookahead
    holds. *)
Fixpoint lazy_group (s : string) : option string :=
  match s with
  | EmptyString => None
  | String c r =>
      if Ascii.eqb c Py.newline then None
      else if lookahead r then Some (String c EmptyString)
      else option_map (String c) (lazy_group r)
  end.

(** [\s+] and what follows it: one or more blanks, as many as possible
    first, one fewer each time the rest fails. *)
Fixpoint blanks_then_group (s : string) : option string :=
  match s with
  | EmptyString => None
  | String c r =>
      if Py.is_space c
      then match blanks_then_group r with
           | Some g => Some g
           | None => lazy_group r
           end
      else None
  end.

(** The pattern from [to] on, at a position where [\b] holds. *)
Definition match_here (s : string) : option string :=
  match s with
  | String "t" (String "o" r) => blanks_then_group r
  | _ => None
  end.

(** The search from the left.  [prev_word] tells whether the character
    before the position is a word character: [\b] before a [t] holds
    when it is not. *)
Fixpoint search (prev_word : bool) (s : string) : option string :=
  match s with
  | EmptyString => None
  | String c r =>
      match (if prev_word then None else match_here s) with
      | Some g => Some g
      | None => search (Py.is_word c) r
      end
  end.

(** [Series.str.extract(pattern, expand=False)] on one text. *)
Definition str_extract (s : string) : cell :=
  match search false s with
  | Some g => Str g
  | None => NaN
  end.

(** *** What a match of the pattern is

    The pattern read as a description of texts, to state what the search
    finds. *)

(** [body] is a group at the front of [s]: not empty, without a newline,
    and the lookahead holds on the [rest]. *)
Definition group_at (s body rest : string) : Prop :=
  s = body ++ rest
  /\ body <> ""
  /\ Py.has_char (fun c => Ascii.eqb c Py.newline) body = false
  /\ lookahead rest = true.

(** [s] is one or more blanks [ws], then a group. *)
Definition tail_at (s ws body rest : string) : Prop :=
  exists s', s = ws ++ s'
    /\ ws <> ""
    /\ Py.all_chars Py.is_space ws = true
    /\ group_at s' body rest.

Fixpoint last_char (s : string) : option ascii :=
  match s with
  | EmptyString => None
  | String c EmptyString => Some c
  | String _ r => last_char r
  end.

(** [\b] after [pre], when a [t] follows: the character before is not a
    word character.  [prev_word] stands for the character before [pre]. *)
Definition boundary (prev_word : bool) (pre : string) : Prop :=
  match last_char pre with
  | Some c => Py.is_word c = false
  | None => prev_word = false
  end.

(** An occurrence of the pattern in [s]: after [pre], at a word boundary,
    a lower-case "to", the blanks [ws], the group [body], and the [rest]. *)
Definition occurrence (prev_word : bool) (s pre ws body rest : string) : Prop :=
  exists s', s = pre ++ "to" ++ s'
    /\ boundary prev_word pre
    /\ tail_at s' ws body rest.

(** *** The extraction as the specification words it

    The text after the first whole word "to", in any case, up to the next
    delimiter or the end, trimmed. *)

Fixpoint until_delim (s : string) : string :=
  match s with
  | EmptyString => EmptyString
  | String c r => if is_delim c then EmptyString else String c (until_delim r)
  end.

(** A "to" in any case that ends a word; the text after it. *)
Definition spec_word_to (s : string) : option string :=
  match s with
  | String a (String b r) =>
      if Ascii.eqb (Py.lower_char a) "t" && Ascii.eqb (Py.lower_char b) "o"
         && negb match r with
                 | String d _ => Py.is_word d
                 | EmptyString => false
                 end
      then Some r
      else None
  | _ => None
  end.

Fixpoint spec_search (prev_word : bool) (s : string) : option string :=
  match s with
  | EmptyString => None
  | String c r =>
      match (if prev_word then None else spec_word_to s) with
      | Some after => Some (Py.strip (until_delim after))
      | None => spec_search (Py.is_word c) r
      end
  end.

Definition spec_extract (s : string) : cell :=
  match spec_search false s with
  | Some g => Str g
  | None => NaN
  end.

(** *** Numeric cleaning: [.str.replace(r"[^\d.\-]", "", regex=True)],
    [pd.to_numeric(errors="coerce")], [.fillna(0.0)] *)

Definition not_numeric_char (c : ascii) : bool := negb (is_plain c).

Section Pipeline.

Variable to_numeric_other : string -> option Q.

(** [pd.to_datetime(text, errors="coerce", utc=True).dt.tz_convert(None)]
    on one text; [None] is NaT. *)
Variable to_datetime_utc : string -> option Timestamp.

(** [pd.to_datetime(text, format="%Y-%b-%d", errors="coerce")]. *)
Variable to_datetime_Ybd : string -> option Timestamp.

Definition clean_amount (c : cell) : Q :=
  fillna0 (to_numeric to_numeric_other
             (Py.remove_chars not_numeric_char (astype_str c))).

(** [.dt.date], [.dt.strftime("%b").str.upper()],
    [.dt.year.astype("Int64").astype(str)]. *)
Definition dt_date (t : option Timestamp) : option (Z * MonthName * Z) :=
  option_map (fun t => (ts_year t, ts_month t, ts_day t)) t.

Definition dt_month_upper (t : option Timestamp) : cell :=
  match t with
  | Some t => Str (Py.upper (strftime_b t))
  | None => NaN
  end.

Definition dt_year_str (t : option Timestamp) : string :=
  match t with
  | Some t => str_of_Z (ts_year t)
  | None => "<NA>"
  end.

(** The columns of [final_dataframe]. *)
Record Row : Type := mkRow {
  c_Time : option Timestamp;
  c_Date : option (Z * MonthName * Z);
  c_Month : cell;
  c_Year : string;
  c_Employee : cell;
  c_Transaction_Id : cell;
  c_Amount : Q;
  c_Expense_category : cell;
  c_Expense_status : cell;
  c_Type : string;
  c_Debit_Net_Amount : Q;
  c_Credit_Net_Amount : Q
}.

(** *** The balance activity report *)

(** A row of [balance_file], read through the columns that [_pick]
    resolved. *)
Record BalanceRow : Type := mkBalanceRow {
  fin_type_col : cell;
  time_col : cell;
  desc_col : cell;
  txn_col : cell;
  amount_col : cell
}.

Definition ft (b : BalanceRow) : string :=
  Py.upper (Py.strip (astype_str (fin_type_col b))).

Definition mask (b : BalanceRow) : bool :=
  isin (ft b) ["DEPOSIT"; "CARD_REFUND"; "PAYOUT"; "ADJUSTMENT"].

(** [np.select([Type == "PAYOUT", Type == "ADJUSTMENT"],
    ["Transfers", "Air wallex Expense"], default=pd.NA)]. *)
Definition bf_Expense_category (type : string) : cell :=
  if String.eqb type "PAYOUT" then Str "Transfers"
  else if String.eqb type "ADJUSTMENT" then Str "Air wallex Expense"
  else NA.

(** One row of [balance_filtered]. *)
Definition bf_row (b : BalanceRow) : Row :=
  let type := ft b in
  let amount := clean_amount (amount_col b) in
  let time := to_datetime_utc (astype_str (time_col b)) in
  {| c_Time := time;
     c_Date := dt_date time;
     c_Month := dt_month_upper time;
     c_Year := dt_year_str time;
     c_Employee := str_method Py.strip (str_extract (astype_str (desc_col b)));
     c_Transaction_Id := txn_col b;
     c_Amount := amount;
     c_Expense_category := bf_Expense_category type;
     c_Expense_status := NaN;
     c_Type := type;
     c_Debit_Net_Amount :=
       if isin type ["PAYOUT"; "ADJUSTMENT"] then amount else 0;
     c_Credit_Net_Amount :=
       if isin type ["DEPOSIT"; "CARD_REFUND"] then amount else 0 |}.

Definition balance_filtered (balance_file : list BalanceRow) : list Row :=
  map bf_row (List.filter mask balance_file).

(** *** The expenses export *)

Record ExpenseRow : Type := mkExpenseRow {
  Transaction_timestamp_UTC : cell;
  Employees : cell;
  Billing_amount : cell;
  Expense_category : cell;
  Expense_status : cell;
  Transaction_Id : cell
}.

(** [expense_file]: its rows, and whether it has an "Expense status"
    column at all ([ef.get] gives [None] when it has not). *)
Record ExpenseFile : Type := mkExpenseFile {
  has_Expense_status : bool;
  expense_rows : list ExpenseRow
}.

(** [pd.to_datetime(column, errors="coerce", utc=True)] on a cell. *)
Definition to_datetime_cell (c : cell) : option Timestamp :=
  match c with
  | Str s => to_datetime_utc s
  | _ => None
  end.

(** One row of [expense_filtered]. *)
Definition ef_row (has_status : bool) (e : ExpenseRow) : Row :=
  let time := to_datetime_cell (Transaction_timestamp_UTC e) in
  let amount := clean_amount (Billing_amount e) in
  {| c_Time := time;
     c_Date := dt_date time;
     c_Month := dt_month_upper time;
     c_Year := dt_year_str time;
     c_Employee :=
       Str (Py.strip (Py.before_first "," (astype_str (Employees e))));
     c_Transaction_Id := Transaction_Id e;
     c_Amount := amount;
     c_Expense_category := Str (Py.strip (astype_str (Expense_category e)));
     c_Expense_status := if has_status then Expense_status e else PyNone;
     c_Type := "CARD";
     c_Debit_Net_Amount := amount;
     c_Credit_Net_Amount := 0 |}.

Definition expense_filtered (expense_file : ExpenseFile) : list Row :=
  map (ef_row (has_Expense_status expense_file)) (expense_rows expense_file).

(** [frame["Expense category"] = c] on one row. *)
Definition set_Expense_category (c : cell) (r : Row) : Row :=
  {| c_Time := c_Time r; c_Date := c_Date r; c_Month := c_Month r;
     c_Year := c_Year r; c_Employee := c_Employee r;
     c_Transaction_Id := c_Transaction_Id r; c_Amount := c_Amount r;
     c_Expense_category := c;
     c_Expense_status := c_Expense_status r; c_Type := c_Type r;
     c_Debit_Net_Amount := c_Debit_Net_Amount r;
     c_Credit_Net_Amount := c_Credit_Net_Amount r |}.

(** What [pd.concat] makes of the "Expense category" of the balance rows.
    A column that holds nothing but missing values gives no type to the
    result and is filled in as NaN: where every kept balance row is a
    deposit or a card refund, the [pd.NA] of line 140 comes out as NaN. *)
Definition concat_Expense_category (rows : list Row) : list Row :=
  if forallb (fun r => isna (c_Expense_category r)) rows
  then map (set_Expense_category NaN) rows
  else rows.

(** [pd.concat([expense_filtered, balance_filtered], ignore_index=True)]. *)
Definition final_dataframe (balance_file : list BalanceRow)
    (expense_file : ExpenseFile) : list Row :=
  expense_filtered expense_file
  ++ concat_Expense_category (balance_filtered balance_file).

(** *** The unifier: [df], from [final_dataframe.copy()] on *)

(** The columns the unifier adds to a row. *)
Record Unified : Type := mkUnified {
  base : Row;
  c_User : string;
  c_Category : cell;
  c_MonthYear : option Timestamp;
  c_Final_Amount : Q
}.

Definition type_upper (r : Row) : string := Py.upper (Py.strip (c_Type r)).

(** [df["Employee"].astype(str).str.replace(r"\s+", " ", regex=True)
    .str.replace(u"\xa0", " ", regex=False).str.strip().str.title()]. *)
Definition display_name (employee : cell) : string :=
  Py.title (Py.strip (Py.replace_char Py.nbsp " "
               (Py.sub_runs Py.is_space (astype_str employee)))).

(** [df["Type"].astype(str).str.upper().eq("ADJUSTMENT")], on the
    column already set to [type_upper]. *)
Definition adj_mask (r : Row) : bool :=
  String.eqb (Py.upper (type_upper r)) "ADJUSTMENT".

Definition card_mask (r : Row) : bool := String.eqb (type_upper r) "CARD".

(** [.replace({"": pd.NA, "nan": pd.NA, "None": pd.NA})]. *)
Definition replace_blank (s : string) : cell :=
  if isin s [""; "nan"; "None"] then NA else Str s.

(** "Category" after the ADJUSTMENT rule and the CARD assignment,
    before the Incomplete rule. *)
Definition category_before_incomplete (r : Row) : cell :=
  let category := Str (Py.strip (astype_str (c_Expense_category r))) in
  let category := if adj_mask r then Str "Air wallex Expense" else category in
  if card_mask r
  then replace_blank (Py.strip (astype_str (c_Expense_category r)))
  else category.

Definition incomplete_mask (r : Row) : bool :=
  card_mask r
  && isna (category_before_incomplete r)
  && String.eqb (Py.lower (Py.strip (astype_str (c_Expense_status r))))
       "incomplete".

(** [df["Year"] + "-" + df["Month"] + "-01"], then [to_datetime]. *)
Definition month_year (year : string) (month : cell) : option Timestamp :=
  match month with
  | Str m => to_datetime_Ybd (year ++ "-" ++ m ++ "-01")
  | _ => None
  end.

(** Lines 213 to 254 on one row.  Line 216 writes "Adjustment" into "User"
    for the ADJUSTMENT rows and line 220 assigns the whole column after
    it, so nothing of line 216 is left.  "Time" is a datetime column and
    the three amounts are float columns without NaN: [pd.to_datetime] and
    [pd.to_numeric(...).fillna(0.0)] give them back as they are. *)
Definition rederive_row (r : Row) : Unified :=
  let user := display_name (c_Employee r) in
  let user := if adj_mask r then "Adjustments" else user in
  let category :=
    if incomplete_mask r then Str "Incomplete"
    else category_before_incomplete r in
  let time := c_Time r in
  let month := dt_month_upper time in
  let year := dt_year_str time in
  {| base :=
       {| c_Time := time;
          c_Date := c_Date r;
          c_Month := month;
          c_Year := year;
          c_Employee := c_Employee r;
          c_Transaction_Id := c_Transaction_Id r;
          c_Amount := c_Amount r;
          c_Expense_category := c_Expense_category r;
          c_Expense_status := c_Expense_status r;
          c_Type := type_upper r;
          c_Debit_Net_Amount := c_Debit_Net_Amount r;
          c_Credit_Net_Amount := c_Credit_Net_Amount r |};
     c_User := user;
     c_Category := category;
     c_MonthYear := month_year year month;
     c_Final_Amount := c_Debit_Net_Amount r |}.

(** The fallback of lines 257 to 263. *)
Definition t_upper (u : Unified) : string := Py.upper (c_Type (base u)).

Definition is_zero (q : Q) : bool := Qeq_bool q 0.

Definition missing_mask (u : Unified) : bool :=
  is_zero (c_Debit_Net_Amount (base u)) && is_zero (c_Credit_Net_Amount (base u)).

Definition debit_types : gset string := {[ "CARD"; "PAYOUT"; "ADJUSTMENT" ]}.
Definition credit_types : gset string := {[ "DEPOSIT"; "CARD_REFUND" ]}.

(** [df.loc[rows, "Debit Net Amount"] = q] and the same for the credit,
    on one row. *)
Definition row_set_debit (q : Q) (r : Row) : Row :=
  {| c_Time := c_Time r; c_Date := c_Date r; c_Month := c_Month r;
     c_Year := c_Year r; c_Employee := c_Employee r;
     c_Transaction_Id := c_Transaction_Id r; c_Amount := c_Amount r;
     c_Expense_category := c_Expense_category r;
     c_Expense_status := c_Expense_status r; c_Type := c_Type r;
     c_Debit_Net_Amount := q;
     c_Credit_Net_Amount := c_Credit_Net_Amount r |}.

Definition row_set_credit (q : Q) (r : Row) : Row :=
  {| c_Time := c_Time r; c_Date := c_Date r; c_Month := c_Month r;
     c_Year := c_Year r; c_Employee := c_Employee r;
     c_Transaction_Id := c_Transaction_Id r; c_Amount := c_Amount r;
     c_Expense_category := c_Expense_category r;
     c_Expense_status := c_Expense_status r; c_Type := c_Type r;
     c_Debit_Net_Amount := c_Debit_Net_Amount r;
     c_Credit_Net_Amount := q |}.

Definition set_debit (q : Q) (u : Unified) : Unified :=
  {| base := row_set_debit q (base u);
     c_User := c_User u; c_Category := c_Category u;
     c_MonthYear := c_MonthYear u; c_Final_Amount := c_Final_Amount u |}.

Definition set_credit (q : Q) (u : Unified) : Unified :=
  {| base := row_set_credit q (base u);
     c_User := c_User u; c_Category := c_Category u;
     c_MonthYear := c_MonthYear u; c_Final_Amount := c_Final_Amount u |}.

Definition fallback_row (u : Unified) : Unified :=
  let missing := missing_mask u in
  let t := t_upper u in
  let amount := c_Amount (base u) in
  let u := if missing && bool_decide (t ∈ debit_types)
           then set_debit amount u else u in
  if missing && bool_decide (t ∈ credit_types)
  then set_credit amount u else u.

Definition fallback (rows : list Unified) : list Unified :=
  if existsb missing_mask rows then map fallback_row rows else rows.

(** The re-derivation step: everything the unifier does to the
    concatenated table. *)
Definition rederive (table : list Row) : list Unified :=
  fallback (map rederive_row table).

(** [df], the unified table. *)
Definition df (balance_file : list BalanceRow) (expense_file : ExpenseFile)
    : list Unified :=
  rederive (final_dataframe balance_file expense_file).

End Pipeline.

End Financial.

(** ** Page 1: the missing transaction checker *)

Module Reconcile.
Import Pd.

(** A data frame: its column names and its rows, each row a list of
    cells in the order of the columns.  Column names are distinct, as
    [read_csv] makes them. *)
Record DataFrame : Type := mkDataFrame {
  columns : list string;
  rows : list (list cell)
}.

(** [pd.DataFrame()]. *)
Definition no_frame : DataFrame := {| columns := []; rows := [] |}.

(** [df.empty]: no column or no row. *)
Definition empty (d : DataFrame) : bool :=
  (length (columns d) =? 0)%nat || (length (rows d) =? 0)%nat.

Fixpoint index_of (name : string) (names : list string) : nat :=
  match names with
  | [] => 0
  | n :: rest => if String.eqb n name then 0 else S (index_of name rest)
  end.

(** The cell of a row under a column; a row that is too short reads as
    missing there. *)
Definition cell_at (cols : list string) (name : string) (row : list cell) : cell :=
  nth (index_of name cols) row NaN.

(** [df[name]]. *)
Definition column (d : DataFrame) (name : string) : list cell :=
  map (cell_at (columns d) name) (rows d).

(** [{c.lower().strip(): c for c in df.columns}]: a later column
    replaces an earlier one with the same key. *)
Definition _map_cols (d : DataFrame) : gmap string string :=
  foldl (fun m c => <[Py.strip (Py.lower c) := c]> m) ∅ (columns d).

Fixpoint _pick_name (d : DataFrame) (cmap : gmap string string)
    (candidates : list string) : option string :=
  match candidates with
  | [] => None
  | c :: rest =>
      match cmap !! Py.lower c with
      | Some k => if bool_decide (k ∈ columns d) then Some k
                  else _pick_name d cmap rest
      | None => _pick_name d cmap rest
      end
  end.

Definition _norm_id (s : list cell) : list string :=
  map (fun c => Py.lower (Py.strip (astype_str c))) s.

(** [ids.ne("") & ids.ne("nan") & ids.notna()]; a text is never NA. *)
Definition valid (ids : list string) : list bool :=
  map (fun k => negb (String.eqb k "") && negb (String.eqb k "nan") && true) ids.

(** [series[mask]] and [df.loc[mask]]. *)
Fixpoint select {A : Type} (mask : list bool) (l : list A) : list A :=
  match mask, l with
  | b :: mask', x :: l' => if b then x :: select mask' l' else select mask' l'
  | _, _ => []
  end.

Fixpoint zip_and (a b : list bool) : list bool :=
  match a, b with
  | x :: a', y :: b' => (x && y) :: zip_and a' b'
  | _, _ => []
  end.

(** [list(dict.fromkeys(names))]: the first occurrence of each name, in
    order. *)
Fixpoint dedupe (seen : gset string) (names : list string) : list string :=
  match names with
  | [] => []
  | n :: rest =>
      if bool_decide (n ∈ seen) then dedupe seen rest
      else n :: dedupe ({[ n ]} ∪ seen) rest
  end.

(** [df.loc[:, names]]. *)
Definition loc_columns (d : DataFrame) (names : list string) : DataFrame :=
  {| columns := names;
     rows := map (fun row => map (fun n => cell_at (columns d) n row) names) (rows d) |}.

(** The list [names] of [_nice_subset] as it is first built. *)
Definition nice_names (d : DataFrame) : list (option string) :=
  let m := _map_cols d in
  let col := _pick_name d m in
  [ col ["Transaction Id"; "TransactionID"; "Transaction_Id"];
    col ["Time"; "Created At"; "Transaction timestamp UTC"];
    col ["Type"];
    col ["Financial Transaction Type"; "Financial transaction type"; "Financial_Type"];
    col ["Description"; "Reference"];
    col ["Amount"; "Transaction amount"; "Billing amount"];
    col ["Debit Net Amount"; "Debit Amount"];
    col ["Credit Net Amount"; "Credit Amount"];
    col ["Wallet Currency"; "Transaction Currency"; "Billing currency"; "Currency"];
    col ["Employee(s)"; "User"; "Employee1"];
    col ["Expense category"; "Category"] ].

Definition _nice_subset (d : DataFrame) : DataFrame :=
  let names := nice_names d in
  let names := omap id names in
  let names := dedupe ∅ names in
  match names with
  | [] => d
  | _ => loc_columns d names
  end.

Definition id_candidates : list string :=
  ["Transaction Id"; "TransactionID"; "Transaction_Id"].

Definition both_empty : DataFrame * DataFrame := (no_frame, no_frame).

Definition is_empty_or_none (d : option DataFrame) : bool :=
  match d with
  | None => true
  | Some d => empty d
  end.

(** [_pair_missing(A, nameA, B, nameB)]; the two names are only used by
    the caller's captions. *)
Definition _pair_missing (A B : option DataFrame) : DataFrame * DataFrame :=
  match A, B with
  | Some A, Some B =>
      if empty A || empty B then both_empty
      else
        let ma := _map_cols A in
        let mb := _map_cols B in
        match _pick_name A ma id_candidates, _pick_name B mb id_candidates with
        | Some colA, Some colB =>
            if String.eqb colA "" || String.eqb colB "" then both_empty
            else
              let A_ids := _norm_id (column A colA) in
              let valid_A := valid A_ids in
              let B_ids := _norm_id (column B colB) in
              let valid_B := valid B_ids in
              let setA : gset string := list_to_set (select valid_A A_ids) in
              let setB : gset string := list_to_set (select valid_B B_ids) in
              let A_only_mask :=
                zip_and valid_A (map (fun k => negb (bool_decide (k ∈ setB))) A_ids) in
              let B_only_mask :=
                zip_and valid_B (map (fun k => negb (bool_decide (k ∈ setA))) B_ids) in
              let A_only :=
                _nice_subset {| columns := columns A; rows := select A_only_mask (rows A) |} in
              let B_only :=
                _nice_subset {| columns := columns B; rows := select B_only_mask (rows B) |} in
              (A_only, B_only)
        | _, _ => both_empty
        end
  | _, _ => both_empty
  end.

End Reconcile.


(** ** Page 1: column lookup, the filters and the chart columns *)

Module Dashboard.
Import Pd Financial.

(** [_pick(df, names)], lines 100 to 106: the loop over the names, on the
    dictionary [m] of the lower-cased, trimmed column names. *)
Fixpoint _pick_from (d : Reconcile.DataFrame) (m : gmap string string)
    (names : list string) : option string :=
  match names with
  | [] => None
  | n :: rest =>
      match m !! Py.lower n with
      | Some col =>
          if bool_decide (col ∈ Reconcile.columns d) then Some col
          else _pick_from d m rest
      | None => _pick_from d m rest
      end
  end.

Definition _pick (d : Reconcile.DataFrame) (names : list string) : option string :=
  let m := foldl (fun m c => <[Py.strip (Py.lower c) := c]> m) ∅
             (Reconcile.columns d) in
  _pick_from d m names.

(** Blanks come one at a time and are plain spaces. *)
Fixpoint single_spaced (s : string) : bool :=
  match s with
  | EmptyString => true
  | String c r =>
      (negb (Py.is_space c)
       || (Ascii.eqb c " "
           && match r with
              | EmptyString => true
              | String d _ => negb (Py.is_space d)
              end))
      && single_spaced r
  end.

Definition head_not_space (s : string) : bool :=
  match s with
  | EmptyString => true
  | String d _ => negb (Py.is_space d)
  end.

(** [frame['User'] = user] on one row. *)
Definition set_User (user : string) (u : Unified) : Unified :=
  {| base := base u; c_User := user; c_Category := c_Category u;
     c_MonthYear := c_MonthYear u; c_Final_Amount := c_Final_Amount u |}.

Definition text_of (c : cell) : option string :=
  match c with
  | Str s => Some s
  | _ => None
  end.

(** [sorted(df[column].dropna().unique())], lines 306, 307 and 314, read
    as sets: the order only shows in the side bar.  "Year" and "Type" are
    texts and none is dropped. *)
Definition all_months (df : list Unified) : gset string :=
  list_to_set (omap (fun u => text_of (c_Month (base u))) df).

Definition all_years (df : list Unified) : gset string :=
  list_to_set (map (fun u => c_Year (base u)) df).

Definition all_types (df : list Unified) : gset string :=
  list_to_set (map (fun u => c_Type (base u)) df).

(** Lines 310 and 311: [all if "ALL" in selected else selected]. *)
Definition selected_or_all (all : gset string) (selected : list string)
    : gset string :=
  if bool_decide ("ALL" ∈ selected) then all else list_to_set selected.

(** Line 316: [all if "ALL" in selected or not selected else selected]. *)
Definition selected_or_all_or_none (all : gset string) (selected : list string)
    : gset string :=
  if bool_decide ("ALL" ∈ selected) || (length selected =? 0)%nat
  then all else list_to_set selected.

(** [Series.isin(values)] on a cell of texts: a missing cell is in no
    list of texts. *)
Definition cell_isin (c : cell) (values : gset string) : bool :=
  match c with
  | Str s => bool_decide (s ∈ values)
  | _ => false
  end.

(** Line 327: [base_filtered['User'].astype(str).str.strip().str.title()]. *)
Definition filter_user (user : string) : string := Py.title (Py.strip user).

(** Lines 319 to 327: [base_filtered]. *)
Definition base_filtered (selected_months selected_years selected_types : list string)
    (df : list Unified) : list Unified :=
  let selected_months := selected_or_all (all_months df) selected_months in
  let selected_years := selected_or_all (all_years df) selected_years in
  let selected_types := selected_or_all_or_none (all_types df) selected_types in
  map (fun u => set_User (filter_user (c_User u)) u)
    (List.filter
       (fun u => cell_isin (c_Month (base u)) selected_months
                 && bool_decide (c_Year (base u) ∈ selected_years)
                 && bool_decide (c_Type (base u) ∈ selected_types))
       df).

Definition sales_team_keywords : list string :=
  ["Mohit"; "Adarsh"; "Praveen"; "Shailabh"; "Ameet"; "Jas"; "Hemant"].

(** [any(k.lower() in u.lower() for k in sales_team_keywords)]. *)
Definition is_sales (u : string) : bool :=
  existsb (fun k => Py.contains (Py.lower k) (Py.lower u)) sales_team_keywords.

(** Lines 328 to 342: [filtered_df] for the users picked in the side
    bar. *)
Definition filtered_df (selected_users : list string)
    (base_filtered : list Unified) : list Unified :=
  let unique_users := map c_User base_filtered in
  if bool_decide ("All" ∈ selected_users) || (length selected_users =? 0)%nat
  then base_filtered
  else if bool_decide ("Sales Team" ∈ selected_users)
  then
    let sales_matches := List.filter is_sales unique_users in
    let explicit :=
      List.filter (fun u => negb (isin u ["All"; "Sales Team"])) selected_users in
    let final_users : gset string :=
      list_to_set sales_matches ∪ list_to_set explicit in
    List.filter (fun u => bool_decide (c_User u ∈ final_users)) base_filtered
  else
    List.filter (fun u => isin (c_User u) selected_users) base_filtered.

(** Lines 352 to 357: the "Final_Amount" of the filtered frame,
    [np.select([DEPOSIT, CARD, PAYOUT], [credit, debit, debit],
    default=debit)] on the upper-cased type. *)
Definition Final_Amount (u : Unified) : Q :=
  let t_upper := Py.upper (c_Type (base u)) in
  if String.eqb t_upper "DEPOSIT" then c_Credit_Net_Amount (base u)
  else if String.eqb t_upper "CARD" then c_Debit_Net_Amount (base u)
  else if String.eqb t_upper "PAYOUT" then c_Debit_Net_Amount (base u)
  else c_Debit_Net_Amount (base u).

(** Lines 401 to 407: the rows behind the pie of spend by user;
    [pie_mask_types] and [pie_mask_amt] are [mask_types] and [mask_amt]
    there. *)
Definition pie_mask_types (u : Unified) : bool :=
  negb (isin (Py.upper (Py.strip (c_Type (base u)))) ["DEPOSIT"; "CARD_REFUND"]).

Definition pie_mask_amt (u : Unified) : bool :=
  negb (Qle_bool (c_Debit_Net_Amount (base u)) 0).

Definition pie_source (filtered_df : list Unified) : list Unified :=
  let pie_source := List.filter (fun u => pie_mask_types u && pie_mask_amt u) filtered_df in
  let pie_source := map (fun u => set_User (Py.strip (c_User u)) u) pie_source in
  List.filter (fun u => negb (String.eqb (c_User u) "")) pie_source.

End Dashboard.


(** ** Page 2: the subscription dashboard *)

Module Subscription.
Import Pd.

(** *** Category normalisation *)

Definition TYPE_CANON_DICT : gmap string string :=
  list_to_map
    [ ("tech", "Tech"); ("technology", "Tech"); ("it", "Tech");
      ("software", "Tech"); ("saas", "Tech"); ("cloud", "Tech");
      ("marketing", "Marketing"); ("mkt", "Marketing");
      ("green", "Green"); ("sustainability", "Green");
      ("other", "Others"); ("others", "Others") ].

(** [[^a-z]]. *)
Definition not_az (c : ascii) : bool := negb (Py.is_lower c).

(** [str(val or "").strip().lower()], then
    [re.sub(r"[^a-z]+", " ", s).strip()]. *)
Definition canon_key (val : string) : string :=
  Py.strip (Py.sub_runs not_az (Py.lower (Py.strip val))).

(** The shape of a key: lower-case letters, and single spaces each
    followed by nothing or by a letter. *)
Fixpoint tidy (s : string) : bool :=
  match s with
  | EmptyString => true
  | String c r =>
      (Py.is_lower c
       || (Ascii.eqb c " "
           && match r with
              | EmptyString => true
              | String d _ => Py.is_lower d
              end))
      && tidy r
  end.

(** The four labels of the table. *)
Definition labels : list string := ["Tech"; "Marketing"; "Green"; "Others"].

Definition _canon_type (val : string) : string :=
  let s := canon_key val in
  match TYPE_CANON_DICT !! s with
  | Some v => v
  | None =>
      if Py.startswith s "tech" || Py.contains "technolog" s then "Tech"
      else if Py.contains "market" s then "Marketing"
      else if Py.contains "green" s || Py.contains "sustain" s then "Green"
      else if Py.contains "other" s then "Others"
      else if String.eqb s "" then "Others" else Py.title s
  end.

(** *** [_standardise_columns], from the rebuilt frame on *)

(** A data frame with its index: every row keeps its label through the
    filters. *)
Definition Frame (A : Type) : Type := list (nat * A).

Definition frame_filter {A : Type} (p : A -> bool) (f : Frame A) : Frame A :=
  List.filter (fun ir => p (snd ir)) f.

Definition frame_map {A B : Type} (g : A -> B) (f : Frame A) : Frame B :=
  map (fun ir => (fst ir, g (snd ir))) f.

(** A row of [df] in [_standardise_columns] once the header row is set
    and the blank cells are [pd.NA], read through the columns that
    [_find] resolved. *)
Record SourceRow : Type := mkSourceRow {
  date_col : cell;
  desc_col : cell;
  amt_col : cell;
  type_col : cell
}.

(** The frame, and whether a type column was found. *)
Record Source : Type := mkSource {
  has_type_col : bool;
  source_rows : Frame SourceRow
}.

(** A row of [out]. *)
Record OutRow : Type := mkOutRow {
  o_Source : cell;
  o_Date : cell;
  o_Description : cell;
  o_Debit_AUD : string;
  o_Type : string
}.

(** [[,$()\s]]. *)
Definition is_amount_noise (c : ascii) : bool :=
  Ascii.eqb c "," || Ascii.eqb c "$" || Ascii.eqb c "(" || Ascii.eqb c ")"
  || Py.is_space c.

(** [.astype(str).str.replace(r"[,$()\s]", "", regex=True)
    .str.replace(NBSP, "", regex=False)]. *)
Definition clean_amount_text (c : cell) : string :=
  Py.remove_chars (fun c => Ascii.eqb c Py.nbsp)
    (Py.remove_chars is_amount_noise (astype_str c)).

(** [.fillna("No Category Found")]. *)
Definition fill_type (c : cell) : string :=
  match c with
  | Str s => s
  | _ => "No Category Found"
  end.

Definition out_row (has_type : bool) (r : SourceRow) : OutRow :=
  {| o_Source := NaN;
     o_Date := date_col r;
     o_Description := desc_col r;
     o_Debit_AUD := clean_amount_text (amt_col r);
     o_Type := if has_type then fill_type (type_col r) else "No Category Found" |}.

(** A frame as [_prepare] receives it; [out] has no "Source" column. *)
Record Input : Type := mkInput {
  has_Source : bool;
  input_rows : Frame OutRow
}.

Definition _standardise_columns (src : Source) : Input :=
  {| has_Source := false;
     input_rows := frame_map (out_row (has_type_col src)) (source_rows src) |}.

(** *** [_prepare] *)

Definition month_number (m : MonthName) : nat :=
  match m with
  | Jan => 1 | Feb => 2 | Mar => 3 | Apr => 4 | May => 5 | Jun => 6
  | Jul => 7 | Aug => 8 | Sep => 9 | Oct => 10 | Nov => 11 | Dec => 12
  end.

(** [.dt.to_period("M").astype(str)]. *)
Definition period_M (t : Timestamp) : string :=
  str_of_Z (ts_year t) ++ "-"
  ++ (if (month_number (ts_month t) <? 10)%nat then "0" else "")
  ++ str_of_Z (Z.of_nat (month_number (ts_month t))).

Definition _clean_vendor (v : cell) : string :=
  if isna v then "Unknown"
  else
    let v := Py.strip (astype_str v) in
    if Py.startswith (Py.lower v) "airwallex expenses" then "Airwallex Expenses"
    else Py.strip (Py.before_first "-" v).

(** A row of the prepared frame. *)
Record Record_ : Type := mkRecord {
  p_Date : Timestamp;
  p_Description : cell;
  p_Debit_AUD : float64;
  p_Type : string;
  p_Vendor : string;
  p_Year : Z;
  p_Month : nat;
  p_Month_Name : string;
  p_Month_Year : string
}.

Section Prepare.

(** What [pd.to_numeric] makes of a text that is no short plain
    numeral. *)
Variable to_numeric_other : string -> option float64.

(** [pd.to_datetime(text, dayfirst=True, errors="coerce")]. *)
Variable to_datetime_dayfirst : string -> option Timestamp.

Definition _parse_date (x : cell) : option Timestamp :=
  if isna x then None else to_datetime_dayfirst (astype_str x).

Definition spend_money (r : OutRow) : bool :=
  String.eqb (Py.lower (Py.strip (astype_str (o_Source r)))) "spend money".

Definition keep_spend (has_source : bool) (f : Frame OutRow) : Frame OutRow :=
  if has_source then frame_filter spend_money f else f.

(** The frame between the steps of [_prepare]: the parsed date and the
    coerced amount beside the row. *)
Definition parse_dates (f : Frame OutRow) : Frame (option Timestamp * OutRow) :=
  frame_map (fun r => (_parse_date (o_Date r), r)) f.

Definition dropna_Date {A : Type} (f : Frame (option Timestamp * A))
    : Frame (Timestamp * A) :=
  omap (fun ir =>
          match fst (snd ir) with
          | Some t => Some (fst ir, (t, snd (snd ir)))
          | None => None
          end) f.

Definition coerce_amount (f : Frame (Timestamp * OutRow))
    : Frame (Timestamp * (option float64 * OutRow)) :=
  frame_map (fun tr =>
               (fst tr,
                (to_numeric_float to_numeric_other (o_Debit_AUD (snd tr)), snd tr))) f.

(** [df["Debit(AUD)"] > 0] on one cell: NaN is not greater than zero,
    the infinity above zero is. *)
Definition positive (x : option float64) : bool :=
  match x with
  | Some (finite q) => negb (Qle_bool q 0)
  | Some (infinite negative) => negb negative
  | None => false
  end.

Definition keep_positive (f : Frame (Timestamp * (option float64 * OutRow)))
    : Frame (Timestamp * (float64 * OutRow)) :=
  omap (fun ir =>
          let '(i, (t, (x, r))) := ir in
          match x with
          | Some q => if positive x then Some (i, (t, (q, r))) else None
          | None => None
          end) f.

(** The second [apply(_parse_date)] and [dropna]: a [Timestamp] parses
    to itself. *)
Definition parse_dates_again {A : Type} (f : Frame (Timestamp * A))
    : Frame (option Timestamp * A) :=
  frame_map (fun tr => (Some (fst tr), snd tr)) f.

Definition finish (tqr : Timestamp * (float64 * OutRow)) : Record_ :=
  let '(t, (q, r)) := tqr in
  {| p_Date := t;
     p_Description := o_Description r;
     p_Debit_AUD := q;
     p_Type := _canon_type (o_Type r);
     p_Vendor := _clean_vendor (o_Description r);
     p_Year := ts_year t;
     p_Month := month_number (ts_month t);
     p_Month_Name := strftime_b t;
     p_Month_Year := period_M t |}.

Definition _prepare (df : Input) : Frame Record_ :=
  let f := keep_spend (has_Source df) (input_rows df) in
  let f := keep_spend (has_Source df) f in
  let f := dropna_Date (parse_dates f) in
  let f := keep_positive (coerce_amount f) in
  let f := dropna_Date (parse_dates_again f) in
  frame_map finish f.

(** [_prepare(_standardise_columns(raw))], from the rebuilt frame on. *)
Definition pipeline (src : Source) : Frame Record_ :=
  _prepare (_standardise_columns src).

End Prepare.

End Subscription.


(** *** [_standardise_columns], from the raw frame to the rebuilt one *)

Module Header.
Import Pd Subscription.

(** A cell of [raw], which [_load_csv] reads with [header=None] and
    [dtype=str]: a text, or NaN ([None]).  [raw_str] is [str(x)], and
    [astype(str)], of it. *)
Definition raw_str (x : option string) : string :=
  match x with
  | Some s => s
  | None => "nan"
  end.

(** [[^a-z0-9]]. *)
Definition not_az09 (c : ascii) : bool := negb (Py.is_lower c || Py.is_digit c).

(** [re.sub(r"[^a-z0-9]+", "", str(s or "").strip().lower())]; the empty
    text is the only cell that is false, and [str] of it is empty
    anyway. *)
Definition _norm (s : option string) : string :=
  Py.remove_chars not_az09 (Py.lower (Py.strip (raw_str s))).

Definition description_like : gset string :=
  {[ "description"; "vendor"; "details" ]}.

Definition amount_like : gset string :=
  {[ "debitaud"; "amount"; "amt"; "value"; "debit" ]}.

(** The test of the scan on one row. *)
Definition header_like (row : list (option string)) : bool :=
  let low := map (fun x => _norm (Some (raw_str x))) row in
  bool_decide ("date" ∈ low)
  && negb (bool_decide (description_like ∩ list_to_set low = (∅ : gset string)))
  && negb (bool_decide (amount_like ∩ list_to_set low = (∅ : gset string))).

(** The loop [for i in range(scan_limit)] with its [break]. *)
Fixpoint first_header (i : nat) (rows : list (list (option string))) : option nat :=
  match rows with
  | [] => None
  | row :: rest => if header_like row then Some i else first_header (S i) rest
  end.

Definition header_idx (raw : list (list (option string))) : nat :=
  let scan_limit := Nat.min (length raw) 60 in
  match first_header 0 (firstn scan_limit raw) with
  | Some i => i
  | None => 0%nat
  end.

(** [.replace({"": pd.NA, "nan": pd.NA})] on a cell. *)
Definition blank_to_NA (x : option string) : cell :=
  match x with
  | Some s => if isin s [""; "nan"] then NA else Str s
  | None => NaN
  end.

(** The rows of a frame under the labels [0, 1, ...] that [read_csv]
    gives them. *)
Definition indexed {A : Type} (l : list A) : Frame A :=
  combine (seq 0 (length l)) l.

(** [raw.iloc[header_idx + 1:]], then the replacement of the blank cells
    and [.dropna(how="all")]. *)
Definition rebuilt (raw : list (list (option string))) (header_idx : nat)
    : Frame (list cell) :=
  frame_filter (fun row => negb (forallb isna row))
    (frame_map (map blank_to_NA) (skipn (S header_idx) (indexed raw))).

(** [cols_norm]: the labels with their normal forms, in the order of the
    columns.  In the dictionary a label that comes again falls on its
    first occurrence, with the same value; the list keeps it, behind that
    occurrence, where the loop of [_find] meets it too late to matter. *)
Definition cols_norm (header : list (option string)) : list (option string * string) :=
  map (fun c => (c, _norm c)) header.

(** [_find], called with the candidates: [None] is Python's [None], [Some c] the label [c]. *)
Definition _find (header : list (option string)) (cands : list string)
    : option (option string) :=
  let cand_norm : gset string := list_to_set (map (fun x => _norm (Some x)) cands) in
  fst <$> List.find (fun on => bool_decide (snd on ∈ cand_norm)) (cols_norm header).

(** A label answers the candidates when its normal form is that of one
    of them. *)
Definition answers (cands : list string) (c : option string) : Prop :=
  exists x, In x cands /\ _norm c = _norm (Some x).

Fixpoint positions (label : option string) (header : list (option string))
    (i : nat) : list nat :=
  match header with
  | [] => []
  | c :: rest =>
      if bool_decide (c = label) then i :: positions label rest (S i)
      else positions label rest (S i)
  end.

(** The place of the one column under a label; [df[label]] is a column
    only then. *)
Definition the_column (header : list (option string)) (label : option string)
    : option nat :=
  match positions label header 0 with
  | [p] => Some p
  | _ => None
  end.

Definition date_names : list string := ["Date"; "Txn Date"; "Transaction Date"].
Definition desc_names : list string := ["Description"; "Vendor"; "Details"; "Narration"].
Definition amt_names : list string :=
  ["Debit (AUD)"; "Debit(AUD)"; "Debit AUD"; "Amount"; "Amt"; "Value"; "Debit"].
Definition type_names : list string :=
  ["Type"; "Type of Subs expenses"; "Subscription Type"; "Subs Type";
   "Category"; "Categories"].

(** What a call of [_standardise_columns] comes to. *)
Inductive Outcome : Type :=
| IndexError
| Stopped (missing : list string)
| Several_columns
| Standardised (out : Input).

(** [_standardise_columns(raw)].  [raw.iloc[0]] raises on a frame without
    rows.  The message of [st.error] lists [missing]; [st.stop()] ends
    the run.  When a label that [_find] gave heads several columns,
    [df[label]] is a frame and not a column: that case is set apart and
    not followed further.  A row reads as missing beyond its end. *)
Definition _standardise_columns (raw : list (list (option string))) : Outcome :=
  match raw with
  | [] => IndexError
  | _ :: _ =>
      let header_idx := header_idx raw in
      let header := nth header_idx raw [] in
      let df := rebuilt raw header_idx in
      let date_col := _find header date_names in
      let desc_col := _find header desc_names in
      let amt_col := _find header amt_names in
      let type_col := _find header type_names in
      let missing :=
        (match date_col with None => ["Date"] | Some _ => [] end
         ++ match desc_col with None => ["Description"] | Some _ => [] end
         ++ match amt_col with None => ["Debit(AUD)"] | Some _ => [] end)%list in
      match missing with
      | _ :: _ => Stopped missing
      | [] =>
          match date_col ≫= the_column header,
                desc_col ≫= the_column header,
                amt_col ≫= the_column header with
          | Some d, Some e, Some a =>
              match type_col with
              | None =>
                  Standardised
                    (Subscription._standardise_columns
                       (mkSource false
                          (frame_map
                             (fun row => mkSourceRow (nth d row NaN) (nth e row NaN)
                                           (nth a row NaN) NaN) df)))
              | Some label =>
                  match the_column header label with
                  | Some t =>
                      Standardised
                        (Subscription._standardise_columns
                           (mkSource true
                              (frame_map
                                 (fun row => mkSourceRow (nth d row NaN) (nth e row NaN)
                                               (nth a row NaN) (nth t row NaN)) df)))
                  | None => Several_columns
                  end
              end
          | _, _, _ => Several_columns
          end
      end
  end.

End Header.

(** *** [_prepare], row by row *)

Module Rowwise.
Import Pd Subscription.

Section Row.

Variable to_numeric_other : string -> option float64.
Variable to_datetime_dayfirst : string -> option Timestamp.

(** What the steps of [_prepare] make of one row with its label: the
    record, or nothing when one of the filters drops the row. *)
Definition prepare_row (has_source : bool) (ir : nat * OutRow) : option (nat * Record_) :=
  let '(i, r) := ir in
  if has_source && negb (spend_money r) then None
  else
    match _parse_date to_datetime_dayfirst (o_Date r),
          to_numeric_float to_numeric_other (o_Debit_AUD r) with
    | Some t, Some x =>
        if positive (Some x) then Some (i, finish (t, (x, r))) else None
    | _, _ => None
    end.

End Row.

End Rowwise.


(** *** The filters of page 2 *)

Module Sidebar.
Import Pd Subscription.

Definition MONTH_ORDER : list string :=
  ["Jan"; "Feb"; "Mar"; "Apr"; "May"; "Jun";
   "Jul"; "Aug"; "Sep"; "Oct"; "Nov"; "Dec"].

(** [all if ("ALL" in sel or not sel) else sel], for the lists of
    texts. *)
Definition all_or (all sel : list string) : list string :=
  if bool_decide ("ALL" ∈ sel) || (length sel =? 0)%nat then all else sel.

(** The same for the years, which are numbers: in [sel_years] the choice
    "ALL" is [None] and a year [y] is [Some y]. *)
Definition all_years_or (all : list Z) (sel_years : list (option Z)) : list Z :=
  if bool_decide (None ∈ sel_years) || (length sel_years =? 0)%nat then all
  else omap id sel_years.

(** Lines 275 to 301: [filtered].  The lists of all years, types and
    vendors are kept as the columns give them: sorting them and dropping
    the repetitions changes no membership. *)
Definition filtered (sel_years : list (option Z))
    (sel_months_lbl sel_types sel_vendors : list string)
    (df : Frame Record_) : Frame Record_ :=
  let all_years := map (fun ir => p_Year (snd ir)) df in
  let years := all_years_or all_years sel_years in
  let months := all_or MONTH_ORDER sel_months_lbl in
  let all_types := map (fun ir => p_Type (snd ir)) df in
  let types := all_or all_types sel_types in
  let all_vendors := map (fun ir => p_Vendor (snd ir)) df in
  let vendors := all_or all_vendors sel_vendors in
  frame_filter
    (fun p => bool_decide (p_Year p ∈ years)
              && isin (p_Month_Name p) months
              && isin (p_Type p) types
              && isin (p_Vendor p) vendors)
    df.

End Sidebar.


(** ** Stand-ins for the library parsers on the inputs of the examples *)

Module Sample.
Import Pd.

(** No text with another character is a number. *)
Definition other_is_nan (s : string) : option Q := None.

(** On page 2 the word "inf" reads as the infinity above zero, and no
    other text is a number. *)
Definition other_float (s : string) : option float64 :=
  if String.eqb s "inf" then Some (infinite false) else None.

(** The one timestamp of the examples. *)
Definition to_datetime_utc (s : string) : option Timestamp :=
  if String.eqb s "2024-03-01T10:00:00Z"
  then Some (mkTimestamp 2024 Mar 1 36000000000000)
  else None.

Definition to_datetime_Ybd (s : string) : option Timestamp :=
  if String.eqb s "2024-MAR-01" then Some (mkTimestamp 2024 Mar 1 0) else None.

Definition to_datetime_dayfirst (s : string) : option Timestamp :=
  if String.eqb s "02 Jan 2025" then Some (mkTimestamp 2025 Jan 2 0) else None.

(** The unified table of the examples. *)
Definition df : list Financial.BalanceRow -> Financial.ExpenseFile -> list Financial.Unified :=
  Financial.df other_is_nan to_datetime_utc to_datetime_Ybd.

(** An expenses export with one card expense. *)
Definition one_expense : Financial.ExpenseFile :=
  Financial.mkExpenseFile true
    [ Financial.mkExpenseRow (Str "2024-03-01T10:00:00Z") (Str "Jo Bloggs, Ann Lee")
        (Str "12.50") (Str "Travel") (Str "Complete") (Str "T-9") ].

(** A payout whose amount is written with a minus sign. *)
Definition negative_payout : Financial.BalanceRow :=
  Financial.mkBalanceRow (Str "PAYOUT") (Str "2024-03-01T10:00:00Z")
    (Str "payout to Mr James Brook") (Str "T-1") (Str "-50.00").

(** The payout of the end-to-end scenario. *)
Definition scenario_payout : Financial.BalanceRow :=
  Financial.mkBalanceRow (Str "payout") (Str "2024-03-01T10:00:00Z")
    (Str "payout to Mr James Brook") (Str "T-1") (Str "$1,200.00").

(** An adjustment that comes in with a counterparty and a category of
    its own. *)
Definition adjustment_row : Financial.Row :=
  Financial.mkRow None None NaN "<NA>" (Str "Finance Team") (Str "T-2") 10
    (Str "Travel") NaN " adjustment" 10 0.

(** A card expense with no category, still incomplete. *)
Definition incomplete_card_row : Financial.Row :=
  Financial.mkRow None None NaN "<NA>" (Str "Jo Bloggs") (Str "T-3") 25
    (Str "nan") (Str " Incomplete ") "CARD" 25 0.

(** Two frames for the missing transaction checker: a balance report
    with a blank and a missing id, and an expenses export. *)
Definition balance_frame : Reconcile.DataFrame :=
  Reconcile.mkDataFrame [" transaction id "; "Amount"; "Zed"]
    [ [Str "T1"; Str "5"; Str "z"];
      [Str " t2"; Str "6"; Str "z"];
      [NaN; Str "7"; Str "z"];
      [Str ""; Str "8"; Str "z"] ].

Definition expense_frame : Reconcile.DataFrame :=
  Reconcile.mkDataFrame ["X"; "Transaction ID"]
    [ [Str "T1"; Str "t1 "]; [Str "q"; Str "T9"] ].

(** Subscription rows. *)
Definition subscription_row (amount : string) : Subscription.SourceRow :=
  Subscription.mkSourceRow (Str "02 Jan 2025") (Str "Microsoft - 365")
    (Str amount) (Str "SaaS ").

Definition subscriptions : Subscription.Source -> Subscription.Frame Subscription.Record_ :=
  Subscription.pipeline other_float to_datetime_dayfirst.


(** A deposit whose description names no counterparty. *)
Definition top_up : Financial.BalanceRow :=
  Financial.mkBalanceRow (Str "deposit") (Str "2024-03-01T10:00:00Z")
    (Str "Top up") (Str "T-5") (Str "100").

(** An export of subscriptions with a title row above the header, a row
    of data and a blank row. *)
Definition raw_sheet : list (list (option string)) :=
  [ [Some "Report"; None; None];
    [Some "Date"; Some " Vendor"; Some "Amount"];
    [Some "02 Jan 2025"; Some "Microsoft - 365"; Some "12.50"];
    [None; Some ""; None] ].

End Sample.

(** * Properties *)

(** ** Characters and texts *)

Module PyFacts.
Import Py.

Ltac each_char c := destruct c as [[] [] [] [] [] [] [] []]; vm_compute; try reflexivity; try discriminate.

Lemma is_space_upper_char (c : ascii) : is_space (upper_char c) = is_space c.
Proof. each_char c. Qed.

Lemma upper_char_idem (c : ascii) : upper_char (upper_char c) = upper_char c.
Proof. each_char c. Qed.

Lemma lower_char_idem (c : ascii) : lower_char (lower_char c) = lower_char c.
Proof. each_char c. Qed.

Lemma map_chars_idem (f : ascii -> ascii) (s : string) :
  (forall c, f (f c) = f c) -> map_chars f (map_chars f s) = map_chars f s.
Proof.
  intros Hf. induction s as [|c r IH]; simpl; [reflexivity|].
  now rewrite Hf, IH.
Qed.

Lemma upper_idem (s : string) : upper (upper s) = upper s.
Proof. apply map_chars_idem, upper_char_idem. Qed.

Lemma lower_idem (s : string) : lower (lower s) = lower s.
Proof. apply map_chars_idem, lower_char_idem. Qed.

(** Stripping commutes with a character map that keeps blanks blank and
    the others not. *)
Lemma lstrip_map_chars (f : ascii -> ascii) (s : string) :
  (forall c, is_space (f c) = is_space c) ->
  lstrip (map_chars f s) = map_chars f (lstrip s).
Proof.
  intros Hf. induction s as [|c r IH]; simpl; [reflexivity|].
  rewrite Hf. destruct (is_space c); [exact IH | reflexivity].
Qed.

Lemma rstrip_map_chars (f : ascii -> ascii) (s : string) :
  (forall c, is_space (f c) = is_space c) ->
  rstrip (map_chars f s) = map_chars f (rstrip s).
Proof.
  intros Hf. induction s as [|c r IH]; simpl; [reflexivity|].
  rewrite IH, Hf.
  destruct (rstrip r) as [|d r']; simpl; [|reflexivity].
  destruct (is_space c); reflexivity.
Qed.

Lemma strip_map_chars (f : ascii -> ascii) (s : string) :
  (forall c, is_space (f c) = is_space c) ->
  strip (map_chars f s) = map_chars f (strip s).
Proof.
  intros Hf. unfold strip.
  now rewrite lstrip_map_chars, rstrip_map_chars.
Qed.

Lemma strip_upper (s : string) : strip (upper s) = upper (strip s).
Proof. apply strip_map_chars, is_space_upper_char. Qed.

(** A text that [rstrip] leaves alone, cut at the front, is left alone. *)
Lemma rstrip_fixed_tail (c : ascii) (r : string) :
  rstrip (String c r) = String c r -> rstrip r = r.
Proof.
  simpl. destruct (rstrip r) as [|d r'] eqn:E.
  - destruct (is_space c); intros H; inversion H; reflexivity.
  - intros H; inversion H; reflexivity.
Qed.

Lemma rstrip_idem (s : string) : rstrip (rstrip s) = rstrip s.
Proof.
  induction s as [|c r IH]; simpl; [reflexivity|].
  destruct (rstrip r) as [|d r'] eqn:E.
  - destruct (is_space c) eqn:Ec; simpl; [reflexivity|]. now rewrite Ec.
  - simpl in *. now rewrite IH.
Qed.

Lemma lstrip_rstrip (s : string) : lstrip (rstrip s) = rstrip (lstrip s).
Proof.
  induction s as [|c r IH]; [reflexivity|].
  cbn [rstrip lstrip].
  destruct (rstrip r) as [|d r'] eqn:E; destruct (is_space c) eqn:Ec;
    cbn [lstrip]; rewrite ?Ec; try (rewrite <- IH; reflexivity).
  - cbn [rstrip]. rewrite E, Ec. reflexivity.
  - cbn [rstrip]. rewrite E. reflexivity.
Qed.

Lemma lstrip_idem (s : string) : lstrip (lstrip s) = lstrip s.
Proof.
  induction s as [|c r IH]; simpl; [reflexivity|].
  destruct (is_space c) eqn:Ec; [exact IH|]. simpl. now rewrite Ec.
Qed.

Lemma strip_idem (s : string) : strip (strip s) = strip s.
Proof.
  unfold strip. rewrite lstrip_rstrip, lstrip_idem. apply rstrip_idem.
Qed.

End PyFacts.


(** ** The unifier *)

Section UnifierFacts.
Import Pd Financial.

Variable to_numeric_other : string -> option Q.
Variable to_datetime_utc : string -> option Timestamp.
Variable to_datetime_Ybd : string -> option Timestamp.

Abbreviation rederive_row := (Financial.rederive_row to_datetime_Ybd).
Abbreviation rederive := (Financial.rederive to_datetime_Ybd).
Abbreviation bf_row := (Financial.bf_row to_numeric_other to_datetime_utc).
Abbreviation ef_row := (Financial.ef_row to_numeric_other to_datetime_utc).
Abbreviation final_dataframe := (Financial.final_dataframe to_numeric_other to_datetime_utc).
Abbreviation df := (Financial.df to_numeric_other to_datetime_utc to_datetime_Ybd).

(** The fallback never needs its test on the whole table: a row that is
    not missing is left as it is. *)
Lemma fallback_row_not_missing (u : Unified) :
  missing_mask u = false -> fallback_row u = u.
Proof. intros H. unfold fallback_row. rewrite H. reflexivity. Qed.

Lemma fallback_map (rows : list Unified) : fallback rows = map fallback_row rows.
Proof.
  unfold fallback. destruct (existsb missing_mask rows) eqn:E; [reflexivity|].
  symmetry. rewrite <- (map_id rows) at 2. apply map_ext_in.
  intros u Hu. apply fallback_row_not_missing.
  destruct (missing_mask u) eqn:Em; [|reflexivity].
  assert (existsb missing_mask rows = true) by (apply existsb_exists; eauto).
  congruence.
Qed.

Lemma rederive_map (table : list Row) :
  rederive table = map (fun r => fallback_row (rederive_row r)) table.
Proof. unfold Financial.rederive. rewrite fallback_map, map_map. reflexivity. Qed.

Lemma rederive_lookup (table : list Row) (i : nat) :
  rederive table !! i = (fun r => fallback_row (rederive_row r)) <$> table !! i.
Proof. rewrite rederive_map. apply list_lookup_fmap. Qed.

Lemma In_rederive (table : list Row) (u : Unified) :
  In u (rederive table) <-> exists r, In r table /\ u = fallback_row (rederive_row r).
Proof.
  rewrite rederive_map, in_map_iff. split; intros (r & H1 & H2); eauto.
Qed.

(** What the fallback leaves alone. *)
Lemma fallback_row_keeps (u : Unified) :
  c_Type (base (fallback_row u)) = c_Type (base u)
  /\ c_Amount (base (fallback_row u)) = c_Amount (base u)
  /\ c_User (fallback_row u) = c_User u
  /\ c_Category (fallback_row u) = c_Category u.
Proof.
  unfold fallback_row.
  destruct (missing_mask u && bool_decide (t_upper u ∈ debit_types));
    destruct (missing_mask _ && bool_decide (t_upper u ∈ credit_types));
    repeat split; reflexivity.
Qed.

Lemma type_upper_fixed (r : Row) :
  Py.upper (Py.strip (type_upper r)) = type_upper r.
Proof.
  unfold type_upper.
  now rewrite PyFacts.strip_upper, PyFacts.strip_idem, PyFacts.upper_idem.
Qed.

(** C5. Every row of the unifier's output whose Type is ADJUSTMENT has
    User "Adjustments" and Category "Air wallex Expense", whatever
    employee and expense category the row came in with: the table is any
    table at all. *)
Theorem adjustment_rows_are_overridden (table : list Row) (u : Unified) :
  In u (rederive table) ->
  c_Type (base u) = "ADJUSTMENT" ->
  c_User u = "Adjustments" /\ c_Category u = Str "Air wallex Expense".
Proof.
  intros Hin Htype.
  apply In_rederive in Hin as (r & _ & ->).
  destruct (fallback_row_keeps (rederive_row r)) as (Ht & _ & Hu & Hc).
  rewrite Ht in Htype. rewrite Hu, Hc. clear Ht Hu Hc.
  cbn [Financial.rederive_row base c_Type c_User c_Category] in *.
  assert (Hadj : adj_mask r = true).
  { unfold adj_mask. rewrite Htype. reflexivity. }
  assert (Hcard : card_mask r = false).
  { unfold card_mask. rewrite Htype. reflexivity. }
  unfold incomplete_mask, category_before_incomplete.
  rewrite Hadj, Hcard. split; reflexivity.
Qed.

(** C6. The row of the unifier's output that stands at the place of a row
    [r] of the concatenated table has the Type [type_upper r], and:
    when that Type is CARD, the category is missing and the expense
    status, trimmed and lower-cased, is "incomplete", its Category is
    "Incomplete"; when one of the three fails, its Category is the one it
    had before the rule.  For a CARD row the category is missing exactly
    when the trimmed expense category is empty, "nan" or "None". *)
Theorem incomplete_rule (table : list Row) (i : nat) (r : Row) :
  table !! i = Some r ->
  exists u,
    rederive table !! i = Some u
    /\ c_Type (base u) = type_upper r
    /\ (type_upper r = "CARD"
        /\ isna (category_before_incomplete r) = true
        /\ Py.lower (Py.strip (astype_str (c_Expense_status r))) = "incomplete"
        -> c_Category u = Str "Incomplete")
    /\ (~ (type_upper r = "CARD"
           /\ isna (category_before_incomplete r) = true
           /\ Py.lower (Py.strip (astype_str (c_Expense_status r))) = "incomplete")
        -> c_Category u = category_before_incomplete r)
    /\ (type_upper r = "CARD" ->
        (isna (category_before_incomplete r) = true
         <-> In (Py.strip (astype_str (c_Expense_category r))) [""; "nan"; "None"])).
Proof.
  intros Hr. exists (fallback_row (rederive_row r)). split.
  { rewrite rederive_lookup, Hr. reflexivity. }
  destruct (fallback_row_keeps (rederive_row r)) as (Ht & _ & _ & Hc).
  rewrite Ht, Hc. clear Ht Hc.
  cbn [Financial.rederive_row base c_Type c_Category].
  split; [reflexivity|].
  assert (Hmask : incomplete_mask r = true <->
                  type_upper r = "CARD"
                  /\ isna (category_before_incomplete r) = true
                  /\ Py.lower (Py.strip (astype_str (c_Expense_status r))) = "incomplete").
  { unfold incomplete_mask, card_mask.
    rewrite !andb_true_iff, !String.eqb_eq. tauto. }
  split; [|split].
  - intros H. apply Hmask in H. rewrite H. reflexivity.
  - intros H. destruct (incomplete_mask r) eqn:E; [|reflexivity].
    exfalso. apply H, Hmask. reflexivity.
  - intros Hcard. unfold category_before_incomplete, card_mask.
    rewrite Hcard. cbn [String.eqb Ascii.eqb Bool.eqb].
    unfold replace_blank, isin.
    set (c := Py.strip (astype_str (c_Expense_category r))).
    rewrite <- list_elem_of_In.
    destruct (bool_decide (c ∈ [""; "nan"; "None"])) eqn:E.
    + apply bool_decide_eq_true in E. split; [intros _; exact E | reflexivity].
    + apply bool_decide_eq_false in E. split; [discriminate | contradiction].
Qed.

(** *** The rows of the concatenated table *)

Lemma mask_types (b : BalanceRow) :
  mask b = true ->
  ft b = "DEPOSIT" \/ ft b = "CARD_REFUND" \/ ft b = "PAYOUT" \/ ft b = "ADJUSTMENT".
Proof.
  unfold mask, isin. intros H. apply bool_decide_eq_true in H.
  rewrite !elem_of_cons in H.
  destruct H as [H|[H|[H|[H|H]]]]; auto.
  inversion H.
Qed.

(** The concatenation leaves the balance rows as they are, or puts NaN
    for the category of each of them. *)
Lemma concat_Expense_category_map (rows : list Row) :
  exists f : Row -> Row,
    concat_Expense_category rows = map f rows
    /\ ((forall r, f r = r) \/ (forall r, f r = set_Expense_category NaN r)).
Proof.
  unfold concat_Expense_category.
  destruct (forallb _ rows).
  - exists (set_Expense_category NaN). split; [reflexivity | now right].
  - exists (fun r => r). split; [now rewrite map_id | now left].
Qed.

Lemma In_concat_Expense_category (rows : list Row) (r : Row) :
  In r (concat_Expense_category rows) ->
  exists r0, In r0 rows /\ (r = r0 \/ r = set_Expense_category NaN r0).
Proof.
  destruct (concat_Expense_category_map rows) as (f & -> & Hf).
  intros (r0 & <- & Hr0)%in_map_iff. exists r0. split; [exact Hr0|].
  destruct Hf as [Hf | Hf]; rewrite Hf; auto.
Qed.

(** Every row of the concatenated table is a debit row whose debit is its
    amount and whose credit is zero, or a credit row the other way round. *)
Lemma final_dataframe_rows (balance_file : list BalanceRow)
    (expense_file : ExpenseFile) (r : Row) :
  In r (final_dataframe balance_file expense_file) ->
  ((c_Type r = "CARD" \/ c_Type r = "PAYOUT" \/ c_Type r = "ADJUSTMENT")
   /\ c_Debit_Net_Amount r = c_Amount r /\ c_Credit_Net_Amount r = 0%Q)
  \/ ((c_Type r = "DEPOSIT" \/ c_Type r = "CARD_REFUND")
      /\ c_Debit_Net_Amount r = 0%Q /\ c_Credit_Net_Amount r = c_Amount r).
Proof.
  unfold Financial.final_dataframe. rewrite in_app_iff.
  intros [Hr | Hr].
  - unfold expense_filtered in Hr. apply in_map_iff in Hr as (e & <- & _).
    left. cbn. auto.
  - apply In_concat_Expense_category in Hr as (r0 & Hr0 & Hr).
    unfold balance_filtered in Hr0. apply in_map_iff in Hr0 as (b & <- & Hb).
    apply filter_In in Hb as [_ Hm]. apply mask_types in Hm.
    assert (H0 : ((c_Type (bf_row b) = "CARD" \/ c_Type (bf_row b) = "PAYOUT"
                   \/ c_Type (bf_row b) = "ADJUSTMENT")
                  /\ c_Debit_Net_Amount (bf_row b) = c_Amount (bf_row b)
                  /\ c_Credit_Net_Amount (bf_row b) = 0%Q)
                 \/ ((c_Type (bf_row b) = "DEPOSIT" \/ c_Type (bf_row b) = "CARD_REFUND")
                     /\ c_Debit_Net_Amount (bf_row b) = 0%Q
                     /\ c_Credit_Net_Amount (bf_row b) = c_Amount (bf_row b))).
    { unfold Financial.bf_row.
      cbn [c_Type c_Debit_Net_Amount c_Credit_Net_Amount c_Amount].
      destruct Hm as [H|[H|[H|H]]]; rewrite H.
      + right. auto.
      + right. auto.
      + left. auto.
      + left. auto. }
    destruct Hr as [-> | ->]; exact H0.
Qed.

Lemma set_debit_same (u : Unified) (q : Q) :
  c_Debit_Net_Amount (base u) = q -> set_debit q u = u.
Proof. destruct u as [[] ? ? ? ?]. cbn. intros <-. reflexivity. Qed.

Lemma set_credit_same (u : Unified) (q : Q) :
  c_Credit_Net_Amount (base u) = q -> set_credit q u = u.
Proof. destruct u as [[] ? ? ? ?]. cbn. intros <-. reflexivity. Qed.

Lemma debit_types_members :
  bool_decide ("CARD" ∈ debit_types) = true
  /\ bool_decide ("PAYOUT" ∈ debit_types) = true
  /\ bool_decide ("ADJUSTMENT" ∈ debit_types) = true
  /\ bool_decide ("DEPOSIT" ∈ debit_types) = false
  /\ bool_decide ("CARD_REFUND" ∈ debit_types) = false.
Proof. vm_compute. repeat split; reflexivity. Qed.

Lemma credit_types_members :
  bool_decide ("CARD" ∈ credit_types) = false
  /\ bool_decide ("PAYOUT" ∈ credit_types) = false
  /\ bool_decide ("ADJUSTMENT" ∈ credit_types) = false
  /\ bool_decide ("DEPOSIT" ∈ credit_types) = true
  /\ bool_decide ("CARD_REFUND" ∈ credit_types) = true.
Proof. vm_compute. repeat split; reflexivity. Qed.

(** The five types are written as the unifier writes them. *)
Lemma t_upper_of_type (r : Row) (t : string) :
  c_Type r = t ->
  In t ["CARD"; "PAYOUT"; "ADJUSTMENT"; "DEPOSIT"; "CARD_REFUND"] ->
  type_upper r = t /\ t_upper (rederive_row r) = t.
Proof.
  intros Ht Hin. unfold t_upper. cbn [Financial.rederive_row base c_Type].
  unfold type_upper. rewrite Ht.
  cbn [In] in Hin.
  destruct Hin as [<-|[<-|[<-|[<-|[<-|[]]]]]]; split; reflexivity.
Qed.

(** On such a row the fallback has nothing to do. *)
Lemma fallback_row_settled (r : Row) :
  ((c_Type r = "CARD" \/ c_Type r = "PAYOUT" \/ c_Type r = "ADJUSTMENT")
   /\ c_Debit_Net_Amount r = c_Amount r /\ c_Credit_Net_Amount r = 0%Q)
  \/ ((c_Type r = "DEPOSIT" \/ c_Type r = "CARD_REFUND")
      /\ c_Debit_Net_Amount r = 0%Q /\ c_Credit_Net_Amount r = c_Amount r) ->
  fallback_row (rederive_row r) = rederive_row r.
Proof.
  intros H.
  destruct (missing_mask (rederive_row r)) eqn:Em;
    [|now apply fallback_row_not_missing].
  destruct debit_types_members as (D1 & D2 & D3 & D4 & D5).
  destruct credit_types_members as (C1 & C2 & C3 & C4 & C5).
  unfold fallback_row. rewrite Em. cbn [andb].
  destruct H as [([H|[H|H]] & HD & HC) | ([H|H] & HD & HC)];
    (eapply t_upper_of_type in H as [_ ->]; [|cbn [In]; tauto]);
    rewrite ?D1, ?D2, ?D3, ?D4, ?D5, ?C1, ?C2, ?C3, ?C4, ?C5;
    first [ apply set_debit_same | apply set_credit_same ];
    cbn [Financial.rederive_row base c_Debit_Net_Amount c_Credit_Net_Amount c_Amount];
    assumption.
Qed.

(** The re-derivation of one row reads nothing that it has changed. *)
Lemma rederive_row_again (r : Row) :
  rederive_row (base (rederive_row r)) = rederive_row r.
Proof.
  unfold Financial.rederive_row at 1 3.
  cbn [base c_Type c_Amount c_Time c_Date c_Month c_Year
       c_Employee c_Transaction_Id c_Expense_category c_Expense_status
       c_Debit_Net_Amount c_Credit_Net_Amount].
  assert (Ht : type_upper (base (rederive_row r)) = type_upper r)
    by apply type_upper_fixed.
  assert (Ha : adj_mask (base (rederive_row r)) = adj_mask r)
    by (unfold adj_mask; now rewrite Ht).
  assert (Hc : card_mask (base (rederive_row r)) = card_mask r)
    by (unfold card_mask; now rewrite Ht).
  assert (Hb : category_before_incomplete (base (rederive_row r))
               = category_before_incomplete r)
    by (unfold category_before_incomplete; now rewrite Ha, Hc).
  assert (Hi : incomplete_mask (base (rederive_row r)) = incomplete_mask r)
    by (unfold incomplete_mask; now rewrite Hc, Hb).
  rewrite Ht, Ha, Hi, Hb. reflexivity.
Qed.

Lemma debit_credit_disjoint (t : string) :
  bool_decide (t ∈ debit_types) = true -> bool_decide (t ∈ credit_types) = false.
Proof.
  intros H. apply bool_decide_eq_true in H. apply bool_decide_eq_false.
  unfold debit_types, credit_types in *.
  rewrite !elem_of_union, !elem_of_singleton in H.
  rewrite !elem_of_union, !elem_of_singleton.
  destruct H as [[-> | ->] | ->]; intros [H | H]; discriminate H.
Qed.

Lemma fallback_row_cases (u : Unified) :
  fallback_row u
  = if missing_mask u && bool_decide (t_upper u ∈ debit_types)
    then set_debit (c_Amount (base u)) u
    else if missing_mask u && bool_decide (t_upper u ∈ credit_types)
         then set_credit (c_Amount (base u)) u
         else u.
Proof.
  unfold fallback_row.
  destruct (missing_mask u); cbn [andb]; [|reflexivity].
  destruct (bool_decide (t_upper u ∈ debit_types)) eqn:Ed; [|reflexivity].
  now rewrite (debit_credit_disjoint _ Ed).
Qed.

Lemma rederive_row_set_debit (q : Q) (x : Row) :
  rederive_row (row_set_debit q x)
  = {| base := row_set_debit q (base (rederive_row x));
       c_User := c_User (rederive_row x);
       c_Category := c_Category (rederive_row x);
       c_MonthYear := c_MonthYear (rederive_row x);
       c_Final_Amount := q |}.
Proof. reflexivity. Qed.

Lemma rederive_row_set_credit (q : Q) (x : Row) :
  rederive_row (row_set_credit q x)
  = {| base := row_set_credit q (base (rederive_row x));
       c_User := c_User (rederive_row x);
       c_Category := c_Category (rederive_row x);
       c_MonthYear := c_MonthYear (rederive_row x);
       c_Final_Amount := c_Debit_Net_Amount x |}.
Proof. reflexivity. Qed.

(** A second pass over any table at all gives every column of the first
    again, but for "Final_Amount", which is copied from the debit before
    the fallback fills it. *)
Lemma second_pass_row (r : Row) :
  let u1 := fallback_row (rederive_row r) in
  let u2 := fallback_row (rederive_row (base u1)) in
  base u2 = base u1 /\ c_User u2 = c_User u1 /\ c_Category u2 = c_Category u1
  /\ c_MonthYear u2 = c_MonthYear u1.
Proof.
  cbn zeta. set (u0 := rederive_row r).
  assert (F1 : rederive_row (base u0) = u0) by apply rederive_row_again.
  rewrite (fallback_row_cases u0).
  destruct (missing_mask u0 && bool_decide (t_upper u0 ∈ debit_types)) eqn:E1.
  - apply andb_true_iff in E1 as [Em Ed].
    change (base (set_debit (c_Amount (base u0)) u0))
      with (row_set_debit (c_Amount (base u0)) (base u0)).
    rewrite rederive_row_set_debit, F1, fallback_row_cases.
    change (t_upper _) with (t_upper u0). rewrite Ed, (debit_credit_disjoint _ Ed).
    rewrite andb_true_r, andb_false_r.
    destruct (missing_mask (mkUnified _ _ _ _ _)); repeat split.
  - destruct (missing_mask u0 && bool_decide (t_upper u0 ∈ credit_types)) eqn:E2.
    + apply andb_true_iff in E2 as [Em Ec].
      change (base (set_credit (c_Amount (base u0)) u0))
        with (row_set_credit (c_Amount (base u0)) (base u0)).
      rewrite rederive_row_set_credit, F1, fallback_row_cases.
      change (t_upper _) with (t_upper u0). rewrite Ec.
      assert (Ed : bool_decide (t_upper u0 ∈ debit_types) = false).
      { destruct (bool_decide (t_upper u0 ∈ debit_types)) eqn:Ed; [|reflexivity].
        rewrite (debit_credit_disjoint _ Ed) in Ec. discriminate. }
      rewrite Ed, andb_true_r, andb_false_r.
      destruct (missing_mask (mkUnified _ _ _ _ _)); repeat split.
    + rewrite F1, fallback_row_cases, E1, E2. repeat split.
Qed.

Lemma second_pass_any_table (table : list Row) :
  map (fun u => (base u, c_User u, c_Category u, c_MonthYear u))
    (rederive (map base (rederive table)))
  = map (fun u => (base u, c_User u, c_Category u, c_MonthYear u))
      (rederive table).
Proof.
  rewrite !rederive_map, !map_map. apply map_ext. intros r.
  destruct (second_pass_row r) as (H1 & H2 & H3 & H4).
  cbn zeta in H1, H2, H3, H4. now rewrite H1, H2, H3, H4.
Qed.

(** C9. Fed with its own output, the re-derivation step of the unifier
    gives that output back, column for column: month, year and month-year,
    the ADJUSTMENT override, the Incomplete rule and the both-zero
    fallback are all at their fixed point on the unified table of any two
    input files.  On any table at all, a second pass gives every column of
    the first pass again but for "Final_Amount", the chart column that is
    copied from the debit before the fallback runs. *)
Theorem rederive_fixes_unified_table :
  (forall (balance_file : list BalanceRow) (expense_file : ExpenseFile),
     rederive (map base (df balance_file expense_file))
     = df balance_file expense_file)
  /\ (forall table : list Row,
        map (fun u => (base u, c_User u, c_Category u, c_MonthYear u))
          (rederive (map base (rederive table)))
        = map (fun u => (base u, c_User u, c_Category u, c_MonthYear u))
            (rederive table)).
Proof.
  split; [|exact second_pass_any_table].
  intros balance_file expense_file.
  unfold Financial.df. rewrite !rederive_map, !map_map.
  apply map_ext_in. intros r Hr.
  apply final_dataframe_rows in Hr.
  rewrite (fallback_row_settled r Hr), rederive_row_again.
  exact (fallback_row_settled r Hr).
Qed.

(** C1, as the code has it.  In no row of the unified table are the debit
    and the credit both positive.  In every row one of the two is the
    amount and the other is zero, and the type of the row says which: the
    debit for CARD, PAYOUT and ADJUSTMENT, the credit for DEPOSIT and
    CARD_REFUND.  So exactly one is positive when the amount is positive,
    and both are zero when the amount is zero.  The amount keeps its
    sign: when it is negative neither is positive. *)
Theorem debit_credit_never_both_positive (balance_file : list BalanceRow)
    (expense_file : ExpenseFile) (u : Unified) :
  In u (df balance_file expense_file) ->
  ~ (0 < c_Debit_Net_Amount (base u) /\ 0 < c_Credit_Net_Amount (base u))%Q
  /\ (((c_Type (base u) = "CARD" \/ c_Type (base u) = "PAYOUT"
        \/ c_Type (base u) = "ADJUSTMENT")
       /\ c_Debit_Net_Amount (base u) = c_Amount (base u)
       /\ c_Credit_Net_Amount (base u) = 0%Q)
      \/ ((c_Type (base u) = "DEPOSIT" \/ c_Type (base u) = "CARD_REFUND")
          /\ c_Debit_Net_Amount (base u) = 0%Q
          /\ c_Credit_Net_Amount (base u) = c_Amount (base u)))
  /\ ((0 < c_Amount (base u))%Q ->
      (0 < c_Debit_Net_Amount (base u) /\ ~ 0 < c_Credit_Net_Amount (base u))%Q
      \/ (~ 0 < c_Debit_Net_Amount (base u) /\ 0 < c_Credit_Net_Amount (base u))%Q)
  /\ ((c_Amount (base u) == 0)%Q ->
      (c_Debit_Net_Amount (base u) == 0 /\ c_Credit_Net_Amount (base u) == 0)%Q)
  /\ ((c_Amount (base u) < 0)%Q ->
      ~ (0 < c_Debit_Net_Amount (base u))%Q /\ ~ (0 < c_Credit_Net_Amount (base u))%Q).
Proof.
  intros Hin. apply In_rederive in Hin as (r & Hr & ->).
  apply final_dataframe_rows in Hr.
  rewrite (fallback_row_settled r Hr).
  cbn [Financial.rederive_row base c_Debit_Net_Amount c_Credit_Net_Amount
         c_Amount c_Type].
  assert (Hz : ~ (0 < 0)%Q) by apply Qlt_irrefl.
  assert (Hneg : forall q : Q, (q < 0)%Q -> ~ (0 < q)%Q).
  { intros q H1 H2. apply (Qlt_irrefl 0). now apply Qlt_trans with q. }
  assert (Htype : type_upper r = c_Type r).
  { unfold type_upper.
    destruct Hr as [([E | [E | E]] & _) | ([E | E] & _)]; rewrite E; reflexivity. }
  rewrite Htype.
  destruct Hr as [(Ht & HD & HC) | (Ht & HD & HC)]; rewrite HD, HC.
  - split; [tauto|]. split; [left; auto|]. split; [tauto|]. split.
    + intros H. split; [exact H | apply Qeq_refl].
    + intros H. split; [now apply Hneg | exact Hz].
  - split; [tauto|]. split; [right; auto|]. split; [tauto|]. split.
    + intros H. split; [apply Qeq_refl | exact H].
    + intros H. split; [exact Hz | now apply Hneg].
Qed.

End UnifierFacts.

(** ** Amounts *)

Section AmountFacts.
Import Pd Financial.

Variable to_numeric_other : string -> option Q.
Variable to_datetime_utc : string -> option Timestamp.
Variable to_datetime_Ybd : string -> option Timestamp.

Abbreviation clean_amount := (Financial.clean_amount to_numeric_other).
Abbreviation final_dataframe := (Financial.final_dataframe to_numeric_other to_datetime_utc).
Abbreviation df := (Financial.df to_numeric_other to_datetime_utc to_datetime_Ybd).

Lemma digits_value_nonneg (s : string) (acc : Z) :
  (0 <= acc)%Z -> (0 <= digits_value acc s)%Z.
Proof.
  revert acc. induction s as [|c r IH]; intros acc H; cbn [digits_value]; [exact H|].
  apply IH. lia.
Qed.

Lemma unsigned_decimal_nonneg (s : string) (q : Q) :
  unsigned_decimal s = Some q -> (0 <= q)%Q.
Proof.
  unfold unsigned_decimal.
  destruct (_ && _ && _); [|discriminate].
  intros [= <-]. rewrite Qred_correct.
  unfold Qle. cbn [Qnum Qden]. rewrite Z.mul_1_r. cbn [Z.mul].
  apply digits_value_nonneg. lia.
Qed.

(** Without a minus sign in front, a numeral is read as it stands. *)
Lemma decimal_without_minus (s : string) :
  Py.has_char (Ascii.eqb "-") s = false -> decimal s = unsigned_decimal s.
Proof.
  destruct s as [|c r]; [reflexivity|].
  cbn [Py.has_char]. intros H. apply orb_false_iff in H as [H _].
  destruct c as [[] [] [] [] [] [] [] []]; try reflexivity; discriminate H.
Qed.

(** What the cleaning leaves is made of digits, points and minus signs, and
    has a minus sign only if the text had one. *)
Lemma cleaned_is_plain (s : string) :
  Py.all_chars is_plain (Py.remove_chars not_numeric_char s) = true.
Proof.
  induction s as [|c r IH]; [reflexivity|].
  cbn [Py.remove_chars]. unfold not_numeric_char at 1.
  destruct (is_plain c) eqn:E; cbn [negb]; [|exact IH].
  cbn [Py.all_chars]. now rewrite E, IH.
Qed.

Lemma cleaned_keeps_no_minus (s : string) :
  Py.has_char (Ascii.eqb "-") s = false ->
  Py.has_char (Ascii.eqb "-") (Py.remove_chars not_numeric_char s) = false.
Proof.
  induction s as [|c r IH]; [reflexivity|].
  cbn [Py.has_char Py.remove_chars]. intros H.
  apply orb_false_iff in H as [Hc Hr].
  destruct (not_numeric_char c); [now apply IH|].
  cbn [Py.has_char]. now rewrite Hc, IH.
Qed.

(** The cleaned amount is the numeral that is left, with its sign, when
    that is short; a longer text is left to the library. *)
Lemma clean_amount_decimal (c : cell) :
  is_short (Py.remove_chars not_numeric_char (astype_str c)) = true ->
  clean_amount c
  = fillna0 (decimal (Py.remove_chars not_numeric_char (astype_str c))).
Proof.
  intros H. unfold Financial.clean_amount, to_numeric.
  now rewrite cleaned_is_plain, H.
Qed.

Lemma clean_amount_nonneg (c : cell) :
  Py.has_char (Ascii.eqb "-") (astype_str c) = false ->
  is_short (Py.remove_chars not_numeric_char (astype_str c)) = true ->
  (0 <= clean_amount c)%Q.
Proof.
  intros H Hs. rewrite clean_amount_decimal by exact Hs.
  rewrite decimal_without_minus by now apply cleaned_keeps_no_minus.
  destruct (unsigned_decimal _) as [q|] eqn:E; cbn [fillna0].
  - eapply unsigned_decimal_nonneg, E.
  - apply Qle_refl.
Qed.

Lemma clean_amount_nonneg_long (c : cell) :
  (forall s q,
     Py.all_chars is_plain s = true ->
     Py.has_char (Ascii.eqb "-") s = false ->
     to_numeric_other s = Some q -> (0 <= q)%Q) ->
  Py.has_char (Ascii.eqb "-") (astype_str c) = false ->
  (0 <= clean_amount c)%Q.
Proof.
  intros Hlib H.
  destruct (is_short (Py.remove_chars not_numeric_char (astype_str c))) eqn:Hs;
    [now apply clean_amount_nonneg|].
  unfold Financial.clean_amount, to_numeric.
  rewrite cleaned_is_plain, Hs. cbn [andb].
  destruct (to_numeric_other _) as [q|] eqn:E; cbn [fillna0]; [|apply Qle_refl].
  apply (Hlib (Py.remove_chars not_numeric_char (astype_str c)) q);
    [apply cleaned_is_plain | now apply cleaned_keeps_no_minus | exact E].
Qed.

(** The rows of the unified table stand in the order of their source
    rows: the expenses, then the kept rows of the balance report. *)
Lemma df_lookup_expense (balance_file : list BalanceRow)
    (expense_file : ExpenseFile) (i : nat) (e : ExpenseRow) :
  expense_rows expense_file !! i = Some e ->
  df balance_file expense_file !! i
  = Some (fallback_row
            (Financial.rederive_row to_datetime_Ybd
               (Financial.ef_row to_numeric_other to_datetime_utc
                  (has_Expense_status expense_file) e))).
Proof.
  intros He. unfold Financial.df. rewrite rederive_lookup.
  unfold Financial.final_dataframe, expense_filtered.
  rewrite lookup_app_l.
  2:{ rewrite length_map. eapply lookup_lt_Some, He. }
  rewrite list_lookup_fmap, He. reflexivity.
Qed.

Lemma df_lookup_balance (balance_file : list BalanceRow)
    (expense_file : ExpenseFile) (j : nat) (b : BalanceRow) :
  List.filter mask balance_file !! j = Some b ->
  exists r,
    df balance_file expense_file !! (length (expense_rows expense_file) + j)%nat
    = Some (fallback_row (Financial.rederive_row to_datetime_Ybd r))
    /\ (r = Financial.bf_row to_numeric_other to_datetime_utc b
        \/ r = set_Expense_category NaN
                 (Financial.bf_row to_numeric_other to_datetime_utc b)).
Proof.
  intros Hb. unfold Financial.df. rewrite rederive_lookup.
  unfold Financial.final_dataframe, expense_filtered, balance_filtered.
  rewrite lookup_app_r by (rewrite length_map; lia).
  rewrite length_map.
  replace (length (expense_rows expense_file) + j
           - length (expense_rows expense_file))%nat with j by lia.
  destruct (concat_Expense_category_map
              (map (Financial.bf_row to_numeric_other to_datetime_utc)
                 (List.filter mask balance_file))) as (f & -> & Hf).
  rewrite !list_lookup_fmap, Hb. cbn [fmap option_fmap option_map].
  eexists. split; [reflexivity|].
  destruct Hf as [Hf | Hf]; rewrite Hf; auto.
Qed.

(** C3, as the code has it.  The rows of the unified table stand for the
    rows of the two files one for one and in order: the expenses first,
    then the rows of the balance report of the four kept types.  The
    Amount of a row is the number that [pd.to_numeric] reads from the
    amount text of its own source row (the "Billing amount" of the
    expense, the "Amount" of the balance row) once every character but
    digits, points and minus signs is gone, zero when it reads none.
    Where at most 15 characters are left, that number is the numeral as
    written, with its sign, and zero when the text is no numeral.  The
    minus sign is kept and no absolute value is taken.  The Amount is
    not negative when the source text has no minus sign and at most 15
    characters are left; for a longer text it is not negative as long as
    [pd.to_numeric] reads no negative number from a text without a minus
    sign. *)
Theorem amount_is_signed_value (balance_file : list BalanceRow)
    (expense_file : ExpenseFile) :
  let own_amount (u : Unified) (amount : cell) : Prop :=
    let text := Py.remove_chars not_numeric_char (astype_str amount) in
    c_Amount (base u) = fillna0 (Pd.to_numeric to_numeric_other text)
    /\ (is_short text = true -> c_Amount (base u) = fillna0 (decimal text))
    /\ (Py.has_char (Ascii.eqb "-") (astype_str amount) = false ->
        is_short text = true -> (0 <= c_Amount (base u))%Q)
    /\ ((forall s q,
           Py.all_chars is_plain s = true ->
           Py.has_char (Ascii.eqb "-") s = false ->
           to_numeric_other s = Some q -> (0 <= q)%Q) ->
        Py.has_char (Ascii.eqb "-") (astype_str amount) = false ->
        (0 <= c_Amount (base u))%Q) in
  length (df balance_file expense_file)
  = (length (expense_rows expense_file)
     + length (List.filter mask balance_file))%nat
  /\ (forall i e,
        expense_rows expense_file !! i = Some e ->
        exists u,
          df balance_file expense_file !! i = Some u
          /\ c_Transaction_Id (base u) = Transaction_Id e
          /\ own_amount u (Billing_amount e))
  /\ (forall j b,
        List.filter mask balance_file !! j = Some b ->
        exists u,
          df balance_file expense_file
            !! (length (expense_rows expense_file) + j)%nat = Some u
          /\ c_Transaction_Id (base u) = txn_col b
          /\ own_amount u (amount_col b)).
Proof.
  cbn zeta.
  assert (Hown : forall amount : cell,
            clean_amount amount
            = fillna0 (Pd.to_numeric to_numeric_other
                         (Py.remove_chars not_numeric_char (astype_str amount)))
            /\ (is_short (Py.remove_chars not_numeric_char (astype_str amount)) = true ->
                clean_amount amount
                = fillna0 (decimal (Py.remove_chars not_numeric_char
                                      (astype_str amount))))
            /\ (Py.has_char (Ascii.eqb "-") (astype_str amount) = false ->
                is_short (Py.remove_chars not_numeric_char (astype_str amount)) = true ->
                (0 <= clean_amount amount)%Q)
            /\ ((forall s q,
                   Py.all_chars is_plain s = true ->
                   Py.has_char (Ascii.eqb "-") s = false ->
                   to_numeric_other s = Some q -> (0 <= q)%Q) ->
                Py.has_char (Ascii.eqb "-") (astype_str amount) = false ->
                (0 <= clean_amount amount)%Q)).
  { intros amount. split; [reflexivity|].
    split; [apply clean_amount_decimal|].
    split; [apply clean_amount_nonneg | apply clean_amount_nonneg_long]. }
  split; [|split].
  - unfold Financial.df. rewrite rederive_map, length_map.
    unfold Financial.final_dataframe, expense_filtered, balance_filtered.
    rewrite length_app, length_map. f_equal.
    destruct (concat_Expense_category_map
                (map (Financial.bf_row to_numeric_other to_datetime_utc)
                   (List.filter mask balance_file))) as (f & -> & _).
    now rewrite !length_map.
  - intros i e He. eexists. split; [apply df_lookup_expense, He|].
    destruct (fallback_row_keeps
                (Financial.rederive_row to_datetime_Ybd
                   (Financial.ef_row to_numeric_other to_datetime_utc
                      (has_Expense_status expense_file) e)))
      as (_ & Ha & _).
    rewrite Ha.
    split; [|exact (Hown (Billing_amount e))].
    unfold fallback_row.
    destruct (_ && _); destruct (_ && _); reflexivity.
  - intros j b Hb.
    destruct (df_lookup_balance balance_file expense_file j b Hb) as (r & Hu & Hr).
    eexists. split; [exact Hu|].
    destruct (fallback_row_keeps (Financial.rederive_row to_datetime_Ybd r))
      as (_ & Ha & _).
    rewrite Ha.
    assert (Hid : c_Transaction_Id
                    (base (fallback_row (Financial.rederive_row to_datetime_Ybd r)))
                  = c_Transaction_Id r).
    { unfold fallback_row. destruct (_ && _); destruct (_ && _); reflexivity. }
    rewrite Hid.
    destruct Hr as [-> | ->]; (split; [reflexivity | exact (Hown (amount_col b))]).
Qed.

(** C2.  The payout of the end-to-end scenario, alone in the balance
    report, gives one unified row: Type PAYOUT, Debit 1200, Credit 0,
    Category "Transfers".  Its User is "Mr James Brook": the honorific is
    part of the name, and no step removes it. *)
Theorem scenario_payout_row (has_status : bool) :
  exists u,
    df [Sample.scenario_payout] (mkExpenseFile has_status []) = [u]
    /\ c_Type (base u) = "PAYOUT"
    /\ c_Amount (base u) = 1200%Q
    /\ c_Debit_Net_Amount (base u) = 1200%Q
    /\ c_Credit_Net_Amount (base u) = 0%Q
    /\ c_Category u = Str "Transfers"
    /\ c_Employee (base u) = Str "Mr James Brook"
    /\ c_User u = "Mr James Brook"
    /\ c_User u <> "James Brook".
Proof.
  eexists. split; [vm_compute; reflexivity|].
  cbn [base c_Type c_Amount c_Debit_Net_Amount c_Credit_Net_Amount c_Category
       c_Employee c_User].
  repeat split. discriminate.
Qed.

End AmountFacts.

(** ** The unifier on the examples *)

Module UnifierExamples.
Import Pd Financial.

Lemma adjustment_rows_are_overridden_witness :
  exists u,
    In u (rederive Sample.to_datetime_Ybd [Sample.adjustment_row])
    /\ c_Type (base u) = "ADJUSTMENT"
    /\ c_User u = "Adjustments"
    /\ c_Category u = Str "Air wallex Expense".
Proof.
  set (u := fallback_row (rederive_row Sample.to_datetime_Ybd Sample.adjustment_row)).
  assert (Hin : In u (rederive Sample.to_datetime_Ybd [Sample.adjustment_row])).
  { vm_compute. left. reflexivity. }
  assert (Ht : c_Type (base u) = "ADJUSTMENT") by reflexivity.
  exists u. split; [exact Hin|]. split; [exact Ht|].
  exact (adjustment_rows_are_overridden Sample.to_datetime_Ybd _ u Hin Ht).
Defined.

Lemma incomplete_rule_witness :
  exists u,
    rederive Sample.to_datetime_Ybd [Sample.incomplete_card_row] !! 0%nat = Some u
    /\ c_Type (base u) = "CARD"
    /\ c_Category u = Str "Incomplete".
Proof.
  destruct (incomplete_rule Sample.to_datetime_Ybd
              [Sample.incomplete_card_row] 0 Sample.incomplete_card_row eq_refl)
    as (u & Hu & Ht & Hyes & _).
  exists u. split; [exact Hu|]. split; [exact Ht|].
  apply Hyes. repeat split; reflexivity.
Defined.

Lemma debit_credit_never_both_positive_witness :
  exists u,
    In u (Sample.df [Sample.scenario_payout] Sample.one_expense)
    /\ (0 < c_Debit_Net_Amount (base u))%Q
    /\ ~ (0 < c_Credit_Net_Amount (base u))%Q.
Proof.
  set (u := fallback_row (rederive_row Sample.to_datetime_Ybd
              (bf_row Sample.other_is_nan Sample.to_datetime_utc Sample.scenario_payout))).
  assert (Hin : In u (Sample.df [Sample.scenario_payout] Sample.one_expense)).
  { vm_compute. right. left. reflexivity. }
  exists u. split; [exact Hin|].
  destruct (debit_credit_never_both_positive _ _ _ _ _ u Hin)
    as (_ & _ & Hpos & _).
  destruct Hpos as [H|[H _]]; [reflexivity | exact H |].
  exfalso. apply H. reflexivity.
Defined.

(** C1 as the specification states it does not hold.  A payout of
    "-50.00" has the debit -50 and the credit 0: neither is positive, and
    they are not both zero. *)
Lemma negative_payout_debit_credit :
  exists u,
    In u (Sample.df [Sample.negative_payout] Sample.one_expense)
    /\ c_Amount (base u) = (-50)%Q
    /\ c_Debit_Net_Amount (base u) = (-50)%Q
    /\ c_Credit_Net_Amount (base u) = 0%Q
    /\ ~ (((0 < c_Debit_Net_Amount (base u))%Q /\ ~ (0 < c_Credit_Net_Amount (base u))%Q)
          \/ (~ (0 < c_Debit_Net_Amount (base u))%Q /\ (0 < c_Credit_Net_Amount (base u))%Q)
          \/ ((c_Debit_Net_Amount (base u) == 0)%Q /\ (c_Credit_Net_Amount (base u) == 0)%Q)).
Proof.
  eexists. split; [vm_compute; right; left; reflexivity|].
  cbn [base c_Amount c_Debit_Net_Amount c_Credit_Net_Amount].
  repeat split.
  intros [[H _] | [[_ H] | [H _]]]; revert H; unfold Qlt, Qeq; cbn; lia.
Qed.

Lemma amount_is_signed_value_witness :
  exists u,
    Sample.df [Sample.scenario_payout] Sample.one_expense !! 1%nat = Some u
    /\ c_Transaction_Id (base u) = Str "T-1"
    /\ c_Amount (base u) = 1200%Q
    /\ (0 <= c_Amount (base u))%Q.
Proof.
  destruct (amount_is_signed_value Sample.other_is_nan Sample.to_datetime_utc
              Sample.to_datetime_Ybd [Sample.scenario_payout] Sample.one_expense)
    as (_ & _ & H).
  destruct (H 0%nat Sample.scenario_payout eq_refl)
    as (u & Hu & Hid & _ & Hdec & Hpos & _).
  exists u. split; [exact Hu|]. split; [exact Hid|].
  split; [rewrite Hdec; reflexivity | apply Hpos; reflexivity].
Defined.

(** C3 as the specification states it does not hold.  The unified row of
    a payout of "-50.00" has the Amount -50. *)
Lemma negative_payout_amount :
  exists u,
    In u (Sample.df [Sample.negative_payout] Sample.one_expense)
    /\ c_Amount (base u) = (-50)%Q
    /\ ~ (0 <= c_Amount (base u))%Q.
Proof.
  eexists. split; [vm_compute; right; left; reflexivity|].
  cbn [base c_Amount]. split; [reflexivity|].
  unfold Qle; cbn; lia.
Qed.

End UnifierExamples.

(** ** The missing transaction checker *)

Module ReconcileFacts.
Import Pd Reconcile.

Lemma select_map {A : Type} (p : A -> bool) (l : list A) :
  select (map p l) l = List.filter p l.
Proof.
  induction l as [|x l IH]; [reflexivity|].
  cbn [map select List.filter]. now rewrite IH.
Qed.

Lemma zip_and_map {A : Type} (p q : A -> bool) (l : list A) :
  zip_and (map p l) (map q l) = map (fun x => p x && q x) l.
Proof.
  induction l as [|x l IH]; [reflexivity|].
  cbn [map zip_and]. now rewrite IH.
Qed.

(** The normalized key of a row under a column. *)
Lemma norm_id_column (d : DataFrame) (name : string) :
  _norm_id (column d name)
  = map (fun row => Py.lower (Py.strip (astype_str (cell_at (columns d) name row))))
      (rows d).
Proof. unfold _norm_id, column. now rewrite map_map. Qed.

(** The rows that a mask of valid keys, met with any other mask on the
    keys, selects: rows of the frame whose key is neither empty nor
    "nan". *)
Lemma selected_rows_valid (d : DataFrame) (name : string)
    (other : string -> bool) (row : list cell) :
  let ids := _norm_id (column d name) in
  In row (select (zip_and (valid ids) (map other ids)) (rows d)) ->
  In row (rows d)
  /\ Py.lower (Py.strip (astype_str (cell_at (columns d) name row))) <> ""
  /\ Py.lower (Py.strip (astype_str (cell_at (columns d) name row))) <> "nan"
  /\ other (Py.lower (Py.strip (astype_str (cell_at (columns d) name row)))) = true.
Proof.
  cbn zeta. unfold valid. rewrite norm_id_column, !map_map, zip_and_map, select_map.
  intros H. apply filter_In in H as [Hin H].
  split; [exact Hin|].
  apply andb_true_iff in H as [H Ho].
  apply andb_true_iff in H as [H _].
  apply andb_true_iff in H as [H1 H2].
  apply negb_true_iff, String.eqb_neq in H1.
  apply negb_true_iff, String.eqb_neq in H2.
  auto.
Qed.

Lemma index_of_head (name : string) (names : list string) :
  index_of name (name :: names) = 0%nat.
Proof. cbn [index_of]. now rewrite String.eqb_refl. Qed.

(** The friendly subset keeps the transaction id column, cell for cell. *)
Lemma nice_subset_keeps_id (d : DataFrame) (name : string) (row : list cell) :
  _pick_name d (_map_cols d) id_candidates = Some name ->
  In row (rows (_nice_subset d)) ->
  exists r, In r (rows d)
    /\ cell_at (columns (_nice_subset d)) name row = cell_at (columns d) name r.
Proof.
  intros Hpick. unfold _nice_subset.
  assert (Hnames : exists rest, nice_names d = Some name :: rest).
  { unfold nice_names. cbn zeta. unfold id_candidates in Hpick. rewrite Hpick. eauto. }
  destruct Hnames as (rest & ->).
  cbn [omap list_omap id dedupe].
  rewrite bool_decide_eq_false_2 by set_solver.
  unfold loc_columns. cbn [rows columns].
  rewrite in_map_iff. intros (r & <- & Hr).
  exists r. split; [exact Hr|].
  unfold cell_at at 1. rewrite index_of_head. reflexivity.
Qed.

(** C7.  When either frame is absent or empty, or the transaction id
    column of either cannot be resolved, both outputs are the empty frame.
    Otherwise every row of an output is the friendly subset of a row of
    its input that has the same cell under the id column, and the
    normalized key of that cell (trimmed, lower-cased) is neither the
    empty text nor "nan". *)
Theorem pair_missing_degraded_and_valid (A B : option DataFrame) :
  (is_empty_or_none A = true \/ is_empty_or_none B = true ->
   _pair_missing A B = (no_frame, no_frame))
  /\ (forall a b, A = Some a -> B = Some b ->
      _pick_name a (_map_cols a) id_candidates = None
      \/ _pick_name b (_map_cols b) id_candidates = None ->
      _pair_missing A B = (no_frame, no_frame))
  /\ (forall a b colA colB, A = Some a -> B = Some b ->
      _pick_name a (_map_cols a) id_candidates = Some colA ->
      _pick_name b (_map_cols b) id_candidates = Some colB ->
      (forall row, In row (rows (fst (_pair_missing A B))) ->
         exists r, In r (rows a)
           /\ cell_at (columns (fst (_pair_missing A B))) colA row
              = cell_at (columns a) colA r
           /\ Py.lower (Py.strip (astype_str (cell_at (columns a) colA r))) <> ""
           /\ Py.lower (Py.strip (astype_str (cell_at (columns a) colA r))) <> "nan")
      /\ (forall row, In row (rows (snd (_pair_missing A B))) ->
         exists r, In r (rows b)
           /\ cell_at (columns (snd (_pair_missing A B))) colB row
              = cell_at (columns b) colB r
           /\ Py.lower (Py.strip (astype_str (cell_at (columns b) colB r))) <> ""
           /\ Py.lower (Py.strip (astype_str (cell_at (columns b) colB r))) <> "nan")).
Proof.
  split; [|split].
  - unfold _pair_missing, is_empty_or_none, both_empty.
    destruct A as [a|], B as [b|]; try reflexivity.
    intros [-> | ->]; [reflexivity|]. now rewrite orb_true_r.
  - intros a b -> -> H. unfold _pair_missing, both_empty.
    destruct (empty a || empty b); [reflexivity|].
    destruct H as [-> | ->]; [reflexivity|].
    destruct (_pick_name a _ _); reflexivity.
  - intros a b colA colB -> -> HA HB. unfold _pair_missing.
    destruct (empty a || empty b);
      [split; intros row []|].
    rewrite HA, HB.
    destruct (String.eqb colA "" || String.eqb colB "");
      [split; intros row []|].
    cbn zeta. cbn [fst snd]. split; intros row Hrow.
    + apply nice_subset_keeps_id with (name := colA) in Hrow as (r & Hr & Hcell);
        [|exact HA].
      cbn [rows columns] in Hr, Hcell.
      apply selected_rows_valid in Hr as (Hin & H1 & H2 & _).
      exists r. auto.
    + apply nice_subset_keeps_id with (name := colB) in Hrow as (r & Hr & Hcell);
        [|exact HB].
      cbn [rows columns] in Hr, Hcell.
      apply selected_rows_valid in Hr as (Hin & H1 & H2 & _).
      exists r. auto.
Qed.

End ReconcileFacts.

(** ** The category canonicalizer *)

Module CanonFacts.
Import Py PyFacts Subscription.

Lemma is_space_lower_char (c : ascii) : is_space (lower_char c) = is_space c.
Proof. each_char c. Qed.

Lemma lower_upper_char (c : ascii) : lower_char (upper_char c) = lower_char c.
Proof. each_char c. Qed.

Lemma is_lower_fixed (c : ascii) : is_lower c = true -> lower_char c = c.
Proof. each_char c. Qed.

Lemma is_lower_not_space (c : ascii) : is_lower c = true -> is_space c = false.
Proof. each_char c. Qed.

Lemma strip_lower (s : string) : strip (lower s) = lower (strip s).
Proof. apply strip_map_chars, is_space_lower_char. Qed.

Lemma lower_title_from (b : bool) (s : string) : lower (title_from b s) = lower s.
Proof.
  revert b. induction s as [|c r IH]; intros b; [reflexivity|].
  cbn [title_from]. destruct (is_alpha c); cbn [lower map_chars].
  - fold lower. rewrite IH. destruct b.
    + now rewrite lower_char_idem.
    + now rewrite lower_upper_char.
  - fold lower. now rewrite IH.
Qed.

(** The key of a title-cased text is the key of the text. *)
Lemma canon_key_title (v : string) : canon_key (title v) = canon_key v.
Proof.
  unfold canon_key, title.
  now rewrite <- !strip_lower, lower_title_from.
Qed.

Lemma tidy_tail (c : ascii) (r : string) : tidy (String c r) = true -> tidy r = true.
Proof. cbn [tidy]. intros H. now apply andb_true_iff in H. Qed.

(** A character of a tidy text is a lower-case letter, or a space before a
    letter or before the end. *)
Lemma tidy_head (c : ascii) (r : string) :
  tidy (String c r) = true ->
  is_lower c = true
  \/ (is_lower c = false /\ c = " "%char
      /\ match r with
         | EmptyString => True
         | String d _ => is_lower d = true
         end).
Proof.
  cbn [tidy]. intros H. apply andb_true_iff in H as [H _].
  destruct (is_lower c); [now left|]. right.
  cbn [orb] in H. apply andb_true_iff in H as [H1 H2].
  apply Ascii.eqb_eq in H1. repeat split; [exact H1|].
  destruct r; [exact I | exact H2].
Qed.

Lemma tidy_sub_runs (w : string) : tidy (sub_runs not_az w) = true.
Proof.
  induction w as [|c r IH]; [reflexivity|].
  cbn [sub_runs]. unfold not_az at 1.
  destruct (is_lower c) eqn:Ec; cbn [negb].
  - cbn [tidy]. now rewrite Ec, IH.
  - destruct r as [|d r0]; [reflexivity|].
    unfold not_az at 1. destruct (is_lower d) eqn:Ed; cbn [negb]; [|exact IH].
    cbn [tidy]. rewrite IH.
    cbn [sub_runs]. unfold not_az at 1. rewrite Ed. cbn [negb].
    now rewrite Ed.
Qed.

Lemma tidy_lower (s : string) : tidy s = true -> lower s = s.
Proof.
  induction s as [|c r IH]; [reflexivity|].
  intros H. cbn [lower map_chars]. fold lower.
  rewrite (IH (tidy_tail _ _ H)). f_equal.
  destruct (tidy_head _ _ H) as [Hc | (_ & -> & _)];
    [now apply is_lower_fixed | reflexivity].
Qed.

Lemma tidy_sub_runs_fixed (s : string) :
  tidy s = true -> sub_runs not_az s = s.
Proof.
  induction s as [|c r IH]; [reflexivity|].
  intros H. pose proof (IH (tidy_tail _ _ H)) as IHr.
  cbn [sub_runs]. unfold not_az at 1.
  destruct (tidy_head _ _ H) as [Hc | (Hc & -> & Hnext)]; rewrite Hc; cbn [negb].
  - now rewrite IHr.
  - destruct r as [|d r0]; [reflexivity|].
    unfold not_az at 1. rewrite Hnext. cbn [negb]. now rewrite IHr.
Qed.

Lemma tidy_lstrip (s : string) : tidy s = true -> tidy (lstrip s) = true.
Proof.
  induction s as [|c r IH]; [reflexivity|].
  intros H. cbn [lstrip].
  destruct (is_space c); [apply IH, (tidy_tail _ _ H) | exact H].
Qed.

Lemma rstrip_head (d : ascii) (r : string) :
  is_space d = false -> exists r', rstrip (String d r) = String d r'.
Proof.
  intros Hd. cbn [rstrip]. destruct (rstrip r); [rewrite Hd|]; eauto.
Qed.

Lemma tidy_rstrip (s : string) : tidy s = true -> tidy (rstrip s) = true.
Proof.
  induction s as [|c r IH]; [reflexivity|].
  intros H. pose proof (IH (tidy_tail _ _ H)) as IHr.
  cbn [rstrip].
  destruct (rstrip r) as [|d r'] eqn:E.
  - destruct (is_space c) eqn:Ec; [reflexivity|].
    destruct (tidy_head _ _ H) as [Hc | (_ & -> & _)]; [|discriminate Ec].
    cbn [tidy]. now rewrite Hc.
  - cbn [tidy]. cbn [tidy] in IHr. rewrite IHr, andb_true_r.
    destruct (tidy_head _ _ H) as [Hc | (Hc & -> & Hnext)]; [now rewrite Hc|].
    rewrite Hc. cbn [orb Ascii.eqb Bool.eqb andb].
    destruct r as [|d0 r0]; [discriminate E|].
    destruct (rstrip_head d0 r0 (is_lower_not_space _ Hnext)) as (r1 & E1).
    rewrite E1 in E. injection E as -> _. exact Hnext.
Qed.

Lemma tidy_canon_key (val : string) : tidy (canon_key val) = true.
Proof. apply tidy_rstrip, tidy_lstrip, tidy_sub_runs. Qed.

(** A key is its own key. *)
Lemma canon_key_idem (val : string) : canon_key (canon_key val) = canon_key val.
Proof.
  pose proof (tidy_canon_key val) as Ht.
  assert (Hs : strip (canon_key val) = canon_key val)
    by (unfold canon_key; apply strip_idem).
  unfold canon_key at 1.
  now rewrite Hs, (tidy_lower _ Ht), (tidy_sub_runs_fixed _ Ht).
Qed.

Lemma canon_type_depends_on_key (v w : string) :
  canon_key v = canon_key w -> _canon_type v = _canon_type w.
Proof. unfold _canon_type. now intros ->. Qed.

Lemma dict_values (k v : string) :
  TYPE_CANON_DICT !! k = Some v -> In v labels.
Proof.
  intros H. apply elem_of_list_to_map_2 in H.
  rewrite !elem_of_cons in H.
  repeat (destruct H as [H|H]; [injection H as _ ->; cbn; tauto|]).
  inversion H.
Qed.

(** The result is a label of the table, or the title-cased key when the
    key is not empty. *)
Lemma canon_type_cases (val : string) :
  In (_canon_type val) labels
  \/ (_canon_type val = title (canon_key val) /\ canon_key val <> "").
Proof.
  unfold _canon_type.
  destruct (TYPE_CANON_DICT !! canon_key val) as [v|] eqn:E;
    [left; eapply dict_values, E|].
  destruct (_ || _); [left; cbn; tauto|].
  destruct (contains "market" _); [left; cbn; tauto|].
  destruct (_ || _); [left; cbn; tauto|].
  destruct (contains "other" _); [left; cbn; tauto|].
  destruct (String.eqb_spec (canon_key val) ""); [left; cbn; tauto|].
  right. auto.
Qed.

Lemma title_from_nonempty (b : bool) (s : string) : s <> "" -> title_from b s <> "".
Proof. destruct s as [|c r]; [congruence|]. cbn. destruct (is_alpha c); discriminate. Qed.

Lemma has_char_lstrip (p : ascii -> bool) (s : string) :
  has_char p s = false -> has_char p (lstrip s) = false.
Proof.
  induction s as [|c r IH]; [reflexivity|].
  intros H. cbn [lstrip]. destruct (is_space c); [|exact H].
  cbn [has_char] in H. apply orb_false_iff in H as [_ H]. now apply IH.
Qed.

Lemma has_char_rstrip (p : ascii -> bool) (s : string) :
  has_char p s = false -> has_char p (rstrip s) = false.
Proof.
  induction s as [|c r IH]; [reflexivity|].
  cbn [has_char]. intros H. apply orb_false_iff in H as [Hc Hr].
  cbn [rstrip]. specialize (IH Hr).
  destruct (rstrip r) as [|d r'].
  - destruct (is_space c); [reflexivity|]. cbn [has_char]. now rewrite Hc.
  - cbn [has_char] in *. now rewrite Hc, IH.
Qed.

Lemma no_letter_lower_char (c : ascii) :
  is_alpha c = false -> not_az (lower_char c) = true.
Proof. unfold not_az. each_char c. Qed.

Lemma no_letter_lower (s : string) :
  has_char is_alpha s = false -> all_chars not_az (lower s) = true.
Proof.
  induction s as [|c r IH]; [reflexivity|].
  cbn [has_char]. intros H. apply orb_false_iff in H as [Hc Hr].
  cbn [lower map_chars all_chars]. fold lower.
  now rewrite (no_letter_lower_char _ Hc), IH.
Qed.

(** A text of one run becomes nothing or one space. *)
Lemma sub_runs_one_run (p : ascii -> bool) (s : string) :
  all_chars p s = true -> sub_runs p s = "" \/ sub_runs p s = " ".
Proof.
  induction s as [|c r IH]; [now left|].
  cbn [all_chars]. intros H. apply andb_true_iff in H as [Hc Hr].
  cbn [sub_runs]. rewrite Hc.
  destruct r as [|d r0]; [now right|].
  cbn [all_chars] in Hr. pose proof Hr as Hr'.
  apply andb_true_iff in Hr' as [Hd _]. rewrite Hd.
  apply IH. exact Hr.
Qed.

Lemma canon_key_no_letter (val : string) :
  has_char is_alpha val = false -> canon_key val = "".
Proof.
  intros H. unfold canon_key.
  assert (H1 : has_char is_alpha (strip val) = false)
    by now apply has_char_rstrip, has_char_lstrip.
  destruct (sub_runs_one_run not_az _ (no_letter_lower _ H1)) as [-> | ->];
    reflexivity.
Qed.

(** C10.  Canonicalizing a canonical label changes nothing, and the result
    is never the empty text; a text with no letter at all, the empty text
    among them, gives "Others". *)
Theorem canon_type_idempotent_nonempty (val : string) :
  _canon_type (_canon_type val) = _canon_type val
  /\ _canon_type val <> ""
  /\ (has_char is_alpha val = false -> _canon_type val = "Others").
Proof.
  split; [|split].
  - destruct (canon_type_cases val) as [H | [H Hne]].
    + cbn [In labels] in H.
      destruct H as [<-|[<-|[<-|[<-|[]]]]]; vm_compute; reflexivity.
    + rewrite H at 1. rewrite (canon_type_depends_on_key _ val); [reflexivity|].
      rewrite canon_key_title. apply canon_key_idem.
  - destruct (canon_type_cases val) as [H | [H Hne]].
    + cbn [In labels] in H.
      destruct H as [<-|[<-|[<-|[<-|[]]]]]; discriminate.
    + rewrite H. now apply title_from_nonempty.
  - intros Hno.
    unfold _canon_type. rewrite (canon_key_no_letter _ Hno). reflexivity.
Qed.

End CanonFacts.

(** ** The subscription amounts *)

Section PrepareFacts.
Import Pd Subscription.

Variable to_numeric_other : string -> option float64.
Variable to_datetime_dayfirst : string -> option Timestamp.

Abbreviation to_numeric_float := (Pd.to_numeric_float to_numeric_other).
Abbreviation _parse_date := (Subscription._parse_date to_datetime_dayfirst).
Abbreviation pipeline := (Subscription.pipeline to_numeric_other to_datetime_dayfirst).

(** The rows go through the steps one by one. *)
Lemma pipeline_app (has_type : bool) (f g : Frame SourceRow) :
  pipeline (mkSource has_type (f ++ g)%list)
  = (pipeline (mkSource has_type f) ++ pipeline (mkSource has_type g))%list.
Proof.
  unfold Subscription.pipeline, _prepare, _standardise_columns.
  cbn [has_Source input_rows has_type_col source_rows keep_spend].
  unfold parse_dates, dropna_Date, coerce_amount, keep_positive,
    parse_dates_again, frame_map.
  now rewrite !map_app, !omap_app, !map_app, !omap_app, !map_app, !omap_app, !map_app.
Qed.

(** The fate of one row. *)
Lemma pipeline_single (has_type : bool) (i : nat) (r : SourceRow) :
  pipeline (mkSource has_type [(i, r)])
  = match _parse_date (date_col r),
          to_numeric_float (clean_amount_text (amt_col r)) with
    | Some t, Some x =>
        if positive (Some x)
        then [(i, finish (t, (x, out_row has_type r)))]
        else []
    | _, _ => []
    end.
Proof.
  unfold Subscription.pipeline, _prepare, _standardise_columns.
  cbn [has_Source input_rows has_type_col source_rows keep_spend].
  unfold parse_dates, dropna_Date, coerce_amount, keep_positive,
    parse_dates_again, frame_map.
  cbn [map omap list_omap fst snd out_row o_Date o_Debit_AUD].
  destruct (Subscription._parse_date _ (date_col r)) as [t|]; [|reflexivity].
  cbn [map omap list_omap fst snd out_row o_Date o_Debit_AUD].
  destruct (Pd.to_numeric_float _ _) as [x|]; [|reflexivity].
  destruct (positive (Some x)); reflexivity.
Qed.

Lemma positive_not_le (q : Q) : (0 < q)%Q -> Qle_bool q 0 = false.
Proof.
  intros H. destruct (Qle_bool q 0) eqn:E; [|reflexivity].
  apply Qle_bool_iff in E. exfalso. now apply (Qlt_not_le 0 q).
Qed.

Lemma not_le_positive (q : Q) : Qle_bool q 0 = false -> (0 < q)%Q.
Proof.
  intros H. apply Qnot_le_lt. intros Hle.
  apply Qle_bool_iff in Hle. congruence.
Qed.

(** A float is above zero when it is a finite number above zero or the
    infinity above zero. *)
Lemma positive_iff (x : float64) :
  positive (Some x) = true
  <-> (exists q, x = finite q /\ (0 < q)%Q) \/ x = infinite false.
Proof.
  destruct x as [q | [|]]; cbn [positive negb].
  - rewrite negb_true_iff. split.
    + intros H. left. exists q. split; [reflexivity | now apply not_le_positive].
    + intros [(q' & [= <-] & H) | H]; [now apply positive_not_le | discriminate H].
  - split; [discriminate|]. intros [(q & H & _) | H]; discriminate H.
  - split; [now right | reflexivity].
Qed.

Lemma not_positive_iff (x : option float64) :
  positive x = false
  <-> x = None
      \/ (exists q, x = Some (finite q) /\ (q <= 0)%Q)
      \/ x = Some (infinite true).
Proof.
  destruct x as [[q | [|]]|]; cbn [positive negb].
  - rewrite negb_false_iff, Qle_bool_iff. split.
    + intros H. right. left. eauto.
    + intros [H | [(q' & [= <-] & H) | H]]; [discriminate H | exact H | discriminate H].
  - split; [auto | reflexivity].
  - split; [discriminate|]. intros [H | [(q & H & _) | H]]; discriminate H.
  - split; [auto | reflexivity].
Qed.

(** C8.  Every record the subscription pipeline gives out stands for a row
    of its input with the same index label; its amount is the number that
    [pd.to_numeric] reads from that row's amount text with commas, dollar
    signs, brackets and blanks removed, and it is above zero: a finite
    number above zero, or the infinity above zero.  Where the cleaned
    text has only digits, points and minus signs and at most 15
    characters, the number read is the numeral as written, with its
    sign.  Rows fare independently of one another.  A row whose cleaned
    amount is no number, is a finite number not above zero, or is the
    infinity below zero, is dropped; a row with a date and an amount
    above zero stays, with that amount.  So a row with amount "-50.00"
    is dropped, and a row with amount "1,234.56" and a date yields
    1234.56. *)
Theorem subscription_amounts_keep_sign (has_type : bool) :
  (forall f i p,
     In (i, p) (pipeline (mkSource has_type f)) ->
     exists r, In (i, r) f
       /\ to_numeric_float (clean_amount_text (amt_col r)) = Some (p_Debit_AUD p)
       /\ ((exists q, p_Debit_AUD p = finite q /\ (0 < q)%Q)
           \/ p_Debit_AUD p = infinite false))
  /\ (forall c : cell,
        Py.all_chars is_plain (clean_amount_text c) = true ->
        is_short (clean_amount_text c) = true ->
        to_numeric_float (clean_amount_text c)
        = option_map finite (decimal (clean_amount_text c)))
  /\ (forall f g,
        pipeline (mkSource has_type (f ++ g)%list)
        = (pipeline (mkSource has_type f) ++ pipeline (mkSource has_type g))%list)
  /\ (forall i r,
        to_numeric_float (clean_amount_text (amt_col r)) = None
        \/ (exists q, to_numeric_float (clean_amount_text (amt_col r)) = Some (finite q)
                      /\ (q <= 0)%Q)
        \/ to_numeric_float (clean_amount_text (amt_col r)) = Some (infinite true) ->
        pipeline (mkSource has_type [(i, r)]) = [])
  /\ (forall i r t x,
        _parse_date (date_col r) = Some t ->
        to_numeric_float (clean_amount_text (amt_col r)) = Some x ->
        (exists q, x = finite q /\ (0 < q)%Q) \/ x = infinite false ->
        exists p, pipeline (mkSource has_type [(i, r)]) = [(i, p)]
                  /\ p_Debit_AUD p = x)
  /\ (forall i date desc type,
        pipeline (mkSource has_type [(i, mkSourceRow date desc (Str "-50.00") type)]) = [])
  /\ (forall i date desc type t,
        _parse_date date = Some t ->
        exists p q,
          pipeline (mkSource has_type [(i, mkSourceRow date desc (Str "1,234.56") type)])
          = [(i, p)]
          /\ p_Debit_AUD p = finite q
          /\ (q == 1234.56)%Q).
Proof.
  assert (Hdrop : forall i r,
            to_numeric_float (clean_amount_text (amt_col r)) = None
            \/ (exists q, to_numeric_float (clean_amount_text (amt_col r))
                          = Some (finite q) /\ (q <= 0)%Q)
            \/ to_numeric_float (clean_amount_text (amt_col r)) = Some (infinite true) ->
            pipeline (mkSource has_type [(i, r)]) = []).
  { intros i r H. rewrite pipeline_single.
    destruct (_parse_date (date_col r)); [|reflexivity].
    apply not_positive_iff in H.
    destruct (to_numeric_float (clean_amount_text (amt_col r))) as [x|];
      [|reflexivity].
    now rewrite H. }
  assert (Hkeep : forall i r t x,
            _parse_date (date_col r) = Some t ->
            to_numeric_float (clean_amount_text (amt_col r)) = Some x ->
            (exists q, x = finite q /\ (0 < q)%Q) \/ x = infinite false ->
            exists p, pipeline (mkSource has_type [(i, r)]) = [(i, p)]
                      /\ p_Debit_AUD p = x).
  { intros i r t x Ht Hx Hpos. rewrite pipeline_single, Ht, Hx.
    apply positive_iff in Hpos. rewrite Hpos. eexists. split; reflexivity. }
  split; [|split; [|split; [|split; [|split; [|split]]]]].
  - induction f as [|[j r] f IH]; intros i p Hin; [destruct Hin|].
    change ((j, r) :: f) with ([(j, r)] ++ f)%list in Hin.
    rewrite pipeline_app in Hin. apply in_app_iff in Hin as [Hin | Hin].
    + rewrite pipeline_single in Hin.
      destruct (_parse_date (date_col r)) as [t|]; [|destruct Hin].
      destruct (to_numeric_float (clean_amount_text (amt_col r))) as [x|] eqn:Ex;
        [|destruct Hin].
      destruct (positive (Some x)) eqn:Ep; [|destruct Hin].
      destruct Hin as [[= <- <-] | []].
      exists r. cbn [finish p_Debit_AUD]. split; [now left|]. split; [exact Ex|].
      now apply positive_iff.
    + destruct (IH i p Hin) as (r' & Hr' & H). exists r'. split; [now right | exact H].
  - intros c Hp Hs. unfold Pd.to_numeric_float. now rewrite Hp, Hs.
  - apply pipeline_app.
  - exact Hdrop.
  - exact Hkeep.
  - intros i date desc type. apply Hdrop. right. left. exists (-50)%Q.
    split; [vm_compute; reflexivity | discriminate].
  - intros i date desc type t Ht.
    destruct (Hkeep i (mkSourceRow date desc (Str "1,234.56") type) t
                (finite (30864 # 25)))
      as (p & Hp & Hq); [exact Ht | vm_compute; reflexivity | |].
    { left. exists (30864 # 25)%Q. split; reflexivity. }
    exists p, (30864 # 25)%Q. split; [exact Hp|]. split; [exact Hq | reflexivity].
Qed.

End PrepareFacts.

(** ** The counterparty pattern *)

Module ExtractFacts.
Import Pd Financial.

Lemma append_cons (c : ascii) (a b : string) : String c a ++ b = String c (a ++ b).
Proof. reflexivity. Qed.

Lemma append_nil (b : string) : "" ++ b = b.
Proof. reflexivity. Qed.

Ltac push_append := rewrite ?append_cons, ?append_nil in *.

Lemma append_cons_inv (c : ascii) (r a b : string) :
  String c r = a ++ b -> a <> "" -> exists a0, a = String c a0 /\ r = a0 ++ b.
Proof.
  destruct a as [|d a0]; [congruence|].
  rewrite append_cons. intros [= -> ->] _. eauto.
Qed.

Lemma tail_at_intro (ws s' body rest : string) :
  ws <> "" -> Py.all_chars Py.is_space ws = true -> group_at s' body rest ->
  tail_at (ws ++ s') ws body rest.
Proof. intros H1 H2 H3. exists s'. auto. Qed.

(** *** The group *)

Lemma lazy_group_sound (s g : string) :
  lazy_group s = Some g -> exists rest, group_at s g rest.
Proof.
  revert g. induction s as [|c r IH]; intros g; [discriminate|].
  cbn [lazy_group].
  destruct (Ascii.eqb c Py.newline) eqn:Enl; [discriminate|].
  destruct (lookahead r) eqn:El.
  - intros [= <-]. exists r. unfold group_at. rewrite append_cons, append_nil.
    cbn [Py.has_char]. rewrite Enl.
    split; [reflexivity|]. split; [discriminate|]. split; [reflexivity | exact El].
  - destruct (lazy_group r) as [g0|]; [|discriminate].
    intros [= <-]. destruct (IH g0 eq_refl) as (rest & -> & _ & Hnl & Hl).
    exists rest. unfold group_at. rewrite append_cons.
    cbn [Py.has_char]. rewrite Enl, Hnl.
    split; [reflexivity|]. split; [discriminate|]. split; [reflexivity | exact Hl].
Qed.

Lemma lazy_group_complete (s body rest : string) :
  group_at s body rest -> exists g, lazy_group s = Some g.
Proof.
  revert s rest. induction body as [|c body IH]; intros s rest (-> & Hne & Hnl & Hl);
    [congruence|].
  rewrite append_cons. cbn [lazy_group]. cbn [Py.has_char] in Hnl.
  apply orb_false_iff in Hnl as [Hc Hnl]. rewrite Hc.
  destruct (lookahead (body ++ rest)) eqn:El; [eauto|].
  destruct body as [|d body'].
  - rewrite append_nil in El. congruence.
  - destruct (IH (String d body' ++ rest) rest) as (g & ->); [|cbn; eauto].
    split; [reflexivity|]. split; [discriminate|]. split; [exact Hnl | exact Hl].
Qed.

(** The group is the shortest one. *)
Lemma lazy_group_shortest (s g body rest : string) :
  lazy_group s = Some g ->
  s = body ++ rest -> body <> "" -> lookahead rest = true ->
  (String.length g <= String.length body)%nat.
Proof.
  revert g body. induction s as [|c r IH]; intros g body; [discriminate|].
  cbn [lazy_group].
  destruct (Ascii.eqb c Py.newline); [discriminate|].
  intros Hg Hs Hne Hl.
  apply append_cons_inv in Hs as (b0 & -> & ->); [|exact Hne].
  destruct (lookahead (b0 ++ rest)) eqn:El.
  - injection Hg as <-. cbn [String.length]. lia.
  - destruct (lazy_group (b0 ++ rest)) as [g0|] eqn:Eg; [|discriminate].
    injection Hg as <-. cbn [String.length].
    apply le_n_S. apply (IH g0 b0); [reflexivity | reflexivity | | exact Hl].
    intros ->. rewrite append_nil in El. congruence.
Qed.

(** *** The blanks and the group *)

Lemma blanks_then_group_complete (s ws body rest : string) :
  tail_at s ws body rest -> exists g, blanks_then_group s = Some g.
Proof.
  revert s. induction ws as [|c ws IH]; intros s (s' & -> & Hne & Hsp & Hg);
    [congruence|].
  rewrite append_cons. cbn [blanks_then_group]. cbn [Py.all_chars] in Hsp.
  apply andb_true_iff in Hsp as [Hc Hsp]. rewrite Hc.
  destruct ws as [|d ws'].
  - rewrite append_nil. destruct (blanks_then_group s'); [eauto|].
    eapply lazy_group_complete, Hg.
  - destruct (IH (String d ws' ++ s')) as (g & ->); [|eauto].
    apply tail_at_intro; [discriminate | exact Hsp | exact Hg].
Qed.

(** The blanks are as many as can be, and the group the shortest after
    them. *)
Lemma blanks_then_group_sound (s g : string) :
  blanks_then_group s = Some g ->
  exists ws rest,
    tail_at s ws g rest
    /\ forall ws' g' rest',
         tail_at s ws' g' rest' ->
         (String.length ws' <= String.length ws)%nat
         /\ (String.length ws' = String.length ws ->
             (String.length g <= String.length g')%nat).
Proof.
  revert g. induction s as [|c r IH]; intros g; [discriminate|].
  cbn [blanks_then_group].
  destruct (Py.is_space c) eqn:Ec; [|discriminate].
  destruct (blanks_then_group r) as [g0|] eqn:Eb.
  - intros [= <-].
    destruct (IH g0 eq_refl) as (ws & rest & (s' & -> & Hne & Hsp & Hg) & Hpref).
    exists (String c ws), rest. split.
    + rewrite <- append_cons. apply tail_at_intro; [discriminate | | exact Hg].
      cbn [Py.all_chars]. now rewrite Ec, Hsp.
    + intros ws' g' rest' (s2 & Hs & Hne' & Hsp' & Hg').
      apply append_cons_inv in Hs as (w0 & -> & Hs); [|exact Hne'].
      cbn [Py.all_chars] in Hsp'. apply andb_true_iff in Hsp' as [_ Hsp'].
      cbn [String.length].
      destruct w0 as [|d w0'].
      * destruct ws; [congruence|]. cbn [String.length]. split; [lia | intros; lia].
      * destruct (Hpref (String d w0') g' rest') as [H1 H2].
        { rewrite Hs. apply tail_at_intro; [discriminate | exact Hsp' | exact Hg']. }
        split; [lia | intros H; apply H2; lia].
  - intros Hl. destruct (lazy_group_sound r g Hl) as (rest & Hg).
    exists (String c ""), rest. split.
    + change (String c r) with (String c "" ++ r).
      apply tail_at_intro; [discriminate | | exact Hg].
      cbn [Py.all_chars]. now rewrite Ec.
    + intros ws' g' rest' (s2 & Hs & Hne' & Hsp' & Hg').
      apply append_cons_inv in Hs as (w0 & -> & Hs); [|exact Hne'].
      cbn [Py.all_chars] in Hsp'. apply andb_true_iff in Hsp' as [_ Hsp'].
      destruct w0 as [|d w0'].
      * rewrite append_nil in Hs. subst s2. cbn [String.length]. split; [lia|]. intros _.
        destruct Hg' as (Hs2 & Hne2 & _ & Hl2).
        eapply lazy_group_shortest; eauto.
      * exfalso.
        destruct (blanks_then_group_complete r (String d w0') g' rest') as (x & Hx).
        { rewrite Hs. apply tail_at_intro; [discriminate | exact Hsp' | exact Hg']. }
        congruence.
Qed.

(** *** The search *)

Lemma match_here_to (r : string) :
  match_here (String "t" (String "o" r)) = blanks_then_group r.
Proof. reflexivity. Qed.

Lemma match_here_not_t (a : ascii) (r : string) :
  a <> "t"%char -> match_here (String a r) = None.
Proof.
  intros H. destruct a as [[] [] [] [] [] [] [] []]; try reflexivity.
  congruence.
Qed.

Lemma match_here_not_o (b : ascii) (r : string) :
  b <> "o"%char -> match_here (String "t" (String b r)) = None.
Proof.
  intros H. destruct b as [[] [] [] [] [] [] [] []]; try reflexivity.
  congruence.
Qed.

Lemma match_here_some (s g : string) :
  match_here s = Some g -> exists r, s = "to" ++ r /\ blanks_then_group r = Some g.
Proof.
  destruct s as [|a [|b r]]; [discriminate| |].
  - destruct (ascii_dec a "t") as [->|Ha]; [discriminate|].
    now rewrite match_here_not_t.
  - destruct (ascii_dec a "t") as [->|Ha]; [|now rewrite match_here_not_t].
    destruct (ascii_dec b "o") as [->|Hb]; [|now rewrite match_here_not_o].
    rewrite match_here_to. eauto.
Qed.

Lemma boundary_cons (prev_word : bool) (c : ascii) (pre : string) :
  boundary prev_word (String c pre) <-> boundary (Py.is_word c) pre.
Proof.
  unfold boundary. destruct pre as [|d p]; [reflexivity|].
  change (last_char (String c (String d p))) with (last_char (String d p)).
  destruct (last_char (String d p)) eqn:E; [reflexivity|].
  exfalso. clear -E. revert d E.
  induction p as [|e p IH]; intros d E; [discriminate|].
  apply (IH e). exact E.
Qed.

Lemma occurrence_nil (prev_word : bool) (s ws body rest : string) :
  occurrence prev_word s "" ws body rest <->
  prev_word = false /\ exists s', s = "to" ++ s' /\ tail_at s' ws body rest.
Proof.
  unfold occurrence, boundary. cbn [last_char].
  split.
  - intros (s' & Hs & Hb & Ht). rewrite append_nil in Hs. eauto.
  - intros (Hb & s' & Hs & Ht). exists s'. rewrite append_nil. auto.
Qed.

Lemma occurrence_cons (prev_word : bool) (c : ascii) (r pre ws body rest : string) :
  occurrence prev_word (String c r) (String c pre) ws body rest <->
  occurrence (Py.is_word c) r pre ws body rest.
Proof.
  unfold occurrence. split.
  - intros (s' & Hs & Hb & Ht). exists s'. rewrite append_cons in Hs.
    injection Hs as Hs. apply boundary_cons in Hb. auto.
  - intros (s' & Hs & Hb & Ht). exists s'. rewrite append_cons, <- Hs.
    split; [reflexivity|]. split; [now apply boundary_cons | exact Ht].
Qed.

(** An occurrence starts at the front or further on. *)
Lemma occurrence_split (prev_word : bool) (c : ascii) (r pre ws body rest : string) :
  occurrence prev_word (String c r) pre ws body rest ->
  (pre = "" /\ prev_word = false
   /\ exists s', String c r = "to" ++ s' /\ tail_at s' ws body rest)
  \/ (exists pre0, pre = String c pre0
        /\ occurrence (Py.is_word c) r pre0 ws body rest).
Proof.
  destruct pre as [|d pre0]; intros H.
  - left. apply occurrence_nil in H. tauto.
  - right. exists pre0.
    assert (d = c) as ->.
    { destruct H as (s' & Hs & _). rewrite append_cons in Hs. congruence. }
    split; [reflexivity|]. now apply occurrence_cons in H.
Qed.

Lemma search_complete (prev_word : bool) (s pre ws body rest : string) :
  occurrence prev_word s pre ws body rest -> exists g, search prev_word s = Some g.
Proof.
  revert prev_word s. induction pre as [|c pre IH]; intros prev_word s H.
  - apply occurrence_nil in H as (-> & s' & -> & Ht).
    change ("to" ++ s') with (String "t" (String "o" s')).
    cbn [search]. rewrite match_here_to.
    destruct (blanks_then_group_complete _ _ _ _ Ht) as (g & ->). eauto.
  - assert (exists r, s = String c r) as (r & ->).
    { destruct H as (s' & -> & _). rewrite append_cons. eauto. }
    apply occurrence_cons in H. cbn [search].
    destruct (if prev_word then None else match_here (String c r)); [eauto|].
    now apply IH.
Qed.

(** The search finds the occurrence that starts first; there, the one with
    the most blanks; there, the one with the shortest group. *)
Lemma search_sound (prev_word : bool) (s g : string) :
  search prev_word s = Some g ->
  exists pre ws rest,
    occurrence prev_word s pre ws g rest
    /\ forall pre' ws' g' rest',
         occurrence prev_word s pre' ws' g' rest' ->
         (String.length pre <= String.length pre')%nat
         /\ (String.length pre' = String.length pre ->
             (String.length ws' <= String.length ws)%nat
             /\ (String.length ws' = String.length ws ->
                 (String.length g <= String.length g')%nat)).
Proof.
  revert prev_word g. induction s as [|c r IH]; intros prev_word g; [discriminate|].
  cbn [search].
  destruct (if prev_word then None else match_here (String c r)) as [g0|] eqn:Em.
  - intros [= <-].
    destruct prev_word; [discriminate|].
    apply match_here_some in Em as (s' & Hs & Hb).
    destruct (blanks_then_group_sound _ _ Hb) as (ws & rest & Ht & Hpref).
    exists "", ws, rest. split.
    + apply occurrence_nil. eauto.
    + intros pre' ws' g' rest' Hocc. cbn [String.length]. split; [lia|].
      intros Hlen. destruct pre'; [|discriminate Hlen].
      apply occurrence_nil in Hocc as (_ & s2 & Hs2 & Ht2).
      rewrite Hs in Hs2. rewrite !append_cons, !append_nil in Hs2.
      injection Hs2 as <-. exact (Hpref _ _ _ Ht2).
  - intros Hsearch.
    destruct (IH _ _ Hsearch) as (pre & ws & rest & Hocc & Hpref).
    exists (String c pre), ws, rest. split.
    + now apply occurrence_cons.
    + intros pre' ws' g' rest' Hocc'.
      apply occurrence_split in Hocc' as [(-> & -> & s' & Hs & Ht) | (pre0 & -> & Hocc')].
      * exfalso. rewrite Hs in Em.
        change ("to" ++ s') with (String "t" (String "o" s')) in Em.
        rewrite match_here_to in Em.
        destruct (blanks_then_group_complete _ _ _ _ Ht) as (x & Hx). congruence.
      * destruct (Hpref _ _ _ _ Hocc') as [H1 H2]. cbn [String.length].
        split; [lia|]. intros Hlen. apply H2. lia.
Qed.

(** C4, as the code has it.  The counterparty of a balance row is the
    trimmed group of [str_extract] on its description.  The pattern is
    case-sensitive: an occurrence is a lower-case "to" at a word boundary,
    one or more blanks, and a group of one or more characters other than
    a newline that ends before one of [,;()], at the end of the text or
    before its final newline.  With no occurrence the counterparty is
    absent, and the unifier shows it as "Nan".  Otherwise it is the
    trimmed group of the occurrence that starts first and, there, has the
    most blanks and then the shortest group. *)
Theorem counterparty_is_first_match (desc : string) :
  ((~ exists pre ws body rest, occurrence false desc pre ws body rest) ->
   str_method Py.strip (str_extract desc) = NaN)
  /\ ((exists pre ws body rest, occurrence false desc pre ws body rest) ->
      exists pre ws g rest,
        occurrence false desc pre ws g rest
        /\ (forall pre' ws' g' rest',
              occurrence false desc pre' ws' g' rest' ->
              (String.length pre <= String.length pre')%nat
              /\ (String.length pre' = String.length pre ->
                  (String.length ws' <= String.length ws)%nat
                  /\ (String.length ws' = String.length ws ->
                      (String.length g <= String.length g')%nat)))
        /\ str_method Py.strip (str_extract desc) = Str (Py.strip g))
  /\ (forall to_numeric_other to_datetime_utc (b : BalanceRow),
        astype_str (desc_col b) = desc ->
        c_Employee (bf_row to_numeric_other to_datetime_utc b)
        = str_method Py.strip (str_extract desc))
  /\ display_name NaN = "Nan".
Proof.
  split; [|split; [|split; [|reflexivity]]].
  - intros Hno. unfold str_extract.
    destruct (search false desc) as [g|] eqn:E; [|reflexivity].
    exfalso. apply Hno.
    destruct (search_sound _ _ _ E) as (pre & ws & rest & Hocc & _). eauto.
  - intros (pre & ws & body & rest & Hocc).
    destruct (search_complete _ _ _ _ _ _ Hocc) as (g & Hg).
    destruct (search_sound _ _ _ Hg) as (pre0 & ws0 & rest0 & Hocc0 & Hpref).
    exists pre0, ws0, g, rest0. split; [exact Hocc0|]. split; [exact Hpref|].
    unfold str_extract. rewrite Hg. reflexivity.
  - intros to_numeric_other to_datetime_utc b <-. reflexivity.
Qed.

Lemma counterparty_is_first_match_witness :
  (exists pre ws g rest,
     occurrence false "payout to Mr James Brook" pre ws g rest
     /\ Py.strip g = "Mr James Brook")
  /\ c_Employee (bf_row Sample.other_is_nan Sample.to_datetime_utc Sample.scenario_payout)
     = Str "Mr James Brook".
Proof.
  assert (Hocc : occurrence false "payout to Mr James Brook"
                   "payout " " " "Mr James Brook" "").
  { exists " Mr James Brook". split; [reflexivity|]. split; [reflexivity|].
    exists "Mr James Brook". split; [reflexivity|]. split; [discriminate|].
    split; [reflexivity|]. split; [reflexivity|]. split; [discriminate|].
    split; reflexivity. }
  destruct (counterparty_is_first_match "payout to Mr James Brook")
    as (_ & Hsome & Hrow & _).
  split.
  - destruct Hsome as (pre & ws & g & rest & Hg & _ & Hstrip); [eauto 6|].
    exists pre, ws, g, rest. split; [exact Hg|].
    assert (E : str_method Py.strip (str_extract "payout to Mr James Brook")
                = Str "Mr James Brook") by reflexivity.
    rewrite E in Hstrip. now injection Hstrip.
  - rewrite (Hrow Sample.other_is_nan Sample.to_datetime_utc Sample.scenario_payout eq_refl).
    reflexivity.
Defined.

(** C4 as the specification states it does not hold.  An upper-case "TO"
    is a whole word "to" when case is ignored, and the text after it up to
    the end is "JAMES BROOK"; the pattern of the code does not match it,
    and the counterparty is absent. *)
Lemma upper_case_to_is_not_matched :
  str_method Py.strip (str_extract "PAYOUT TO JAMES BROOK") = NaN
  /\ spec_extract "PAYOUT TO JAMES BROOK" = Str "JAMES BROOK"
  /\ str_method Py.strip (str_extract "PAYOUT TO JAMES BROOK")
     <> spec_extract "PAYOUT TO JAMES BROOK".
Proof. vm_compute. repeat split. discriminate. Qed.

End ExtractFacts.

(** ** The checker, the subscriptions and the canonicalizer on the examples *)

Module MoreExamples.
Import Pd.

Lemma pair_missing_degraded_and_valid_witness :
  Reconcile._pair_missing None (Some Sample.expense_frame)
  = (Reconcile.no_frame, Reconcile.no_frame)
  /\ (forall row,
        In row (Reconcile.rows
                  (fst (Reconcile._pair_missing (Some Sample.balance_frame)
                          (Some Sample.expense_frame)))) ->
        exists r,
          In r (Reconcile.rows Sample.balance_frame)
          /\ Py.lower (Py.strip (astype_str
               (Reconcile.cell_at (Reconcile.columns Sample.balance_frame)
                  " transaction id " r))) <> ""
          /\ Py.lower (Py.strip (astype_str
               (Reconcile.cell_at (Reconcile.columns Sample.balance_frame)
                  " transaction id " r))) <> "nan").
Proof.
  split.
  - apply (ReconcileFacts.pair_missing_degraded_and_valid None (Some Sample.expense_frame)).
    left. reflexivity.
  - intros row Hrow.
    destruct (ReconcileFacts.pair_missing_degraded_and_valid
                (Some Sample.balance_frame) (Some Sample.expense_frame))
      as (_ & _ & H).
    destruct (H Sample.balance_frame Sample.expense_frame
                " transaction id " "Transaction ID" eq_refl eq_refl)
      as (HA & _); [vm_compute; reflexivity | vm_compute; reflexivity |].
    destruct (HA row Hrow) as (r & Hr & _ & H1 & H2).
    exists r. auto.
Defined.

Lemma subscription_amounts_keep_sign_witness :
  (exists p q,
     Sample.subscriptions
       (Subscription.mkSource true [(7%nat, Sample.subscription_row "1,234.56")])
     = [(7%nat, p)]
     /\ Subscription.p_Debit_AUD p = finite q
     /\ (q == 1234.56)%Q)
  /\ Sample.subscriptions
       (Subscription.mkSource true [(8%nat, Sample.subscription_row "n/a")]) = []
  /\ (exists p,
        Sample.subscriptions
          (Subscription.mkSource true [(9%nat, Sample.subscription_row "inf")])
        = [(9%nat, p)]
        /\ Subscription.p_Debit_AUD p = infinite false).
Proof.
  destruct (subscription_amounts_keep_sign Sample.other_float
              Sample.to_datetime_dayfirst true)
    as (_ & _ & _ & Hdrop & Hkeep & _ & Hyield).
  split; [|split].
  - apply (Hyield 7%nat (Str "02 Jan 2025") (Str "Microsoft - 365") (Str "SaaS ")
             (mkTimestamp 2025 Jan 2 0)).
    reflexivity.
  - apply (Hdrop 8%nat (Sample.subscription_row "n/a")). left. reflexivity.
  - apply (Hkeep 9%nat (Sample.subscription_row "inf") (mkTimestamp 2025 Jan 2 0));
      [reflexivity | reflexivity | right; reflexivity].
Defined.

Lemma canon_type_idempotent_nonempty_witness :
  Subscription._canon_type "12-34" = "Others".
Proof.
  apply (CanonFacts.canon_type_idempotent_nonempty "12-34"). reflexivity.
Defined.

End MoreExamples.

(** ** The functions on small inputs *)

Module Examples.
Import Pd.

Example strip_blanks : Py.strip "  a b  " = "a b".
Proof. reflexivity. Qed.

Example title_words : Py.title "mr james o'neil 3m" = "Mr James O'Neil 3M".
Proof. reflexivity. Qed.

Example display_name_double_space :
  Financial.display_name (Str "christine  thomas ") = "Christine Thomas".
Proof. reflexivity. Qed.

Example decimal_values :
  map decimal ["1200.00"; "-50.00"; "5."; ".5"; "-.5"; "007"]
  = [Some 1200%Q; Some (-50)%Q; Some 5%Q; Some (1 # 2)%Q; Some (-1 # 2)%Q; Some 7%Q].
Proof. reflexivity. Qed.

Example decimal_failures :
  map decimal [""; "-"; "."; "-."; "1.2.3"; "--1"; "5-"; "1-2"]
  = [None; None; None; None; None; None; None; None].
Proof. reflexivity. Qed.

Example clean_amount_currency :
  Financial.clean_amount Sample.other_is_nan (Str "AUD $1,200.00") = 1200%Q.
Proof. reflexivity. Qed.

Example clean_amount_missing :
  Financial.clean_amount Sample.other_is_nan NaN = 0%Q.
Proof. reflexivity. Qed.

Example extract_stops_at_delimiter :
  Financial.str_extract "transfer to Ann Lee (ref 12), urgent" = Str "Ann Lee ".
Proof. reflexivity. Qed.

Example extract_needs_a_word_boundary :
  Financial.str_extract "pay into savings" = NaN.
Proof. reflexivity. Qed.

(** A letter above 127 is a word character: there is no word boundary
    between it and the "to" that follows. *)
Example extract_after_accented_letter :
  Financial.str_extract (String (ascii_of_nat 233) "to Ann") = NaN
  /\ Financial.str_extract (String (ascii_of_nat 215) "to Ann") = Str "Ann".
Proof. split; reflexivity. Qed.

Example extract_needs_a_blank :
  Financial.str_extract "refund to,Ann" = NaN.
Proof. reflexivity. Qed.

Example extract_takes_one_character_at_least :
  Financial.str_extract "paid to ,Ann" = Str ",Ann".
Proof. reflexivity. Qed.

Example extract_gives_back_a_blank :
  Financial.str_extract "paid to  " = Str " ".
Proof. reflexivity. Qed.

Example canon_type_table : Subscription._canon_type "SaaS " = "Tech".
Proof. vm_compute. reflexivity. Qed.

Example canon_type_empty : Subscription._canon_type "" = "Others".
Proof. vm_compute. reflexivity. Qed.

Example canon_type_new_category :
  Subscription._canon_type "random xyz" = "Random Xyz".
Proof. vm_compute. reflexivity. Qed.

Example canon_type_heuristic : Subscription._canon_type "Bio-Technology" = "Tech".
Proof. vm_compute. reflexivity. Qed.

Example pair_missing_sample :
  Reconcile._pair_missing (Some Sample.balance_frame) (Some Sample.expense_frame)
  = (Reconcile.mkDataFrame [" transaction id "; "Amount"] [[Str " t2"; Str "6"]],
     Reconcile.mkDataFrame ["Transaction ID"] [[Str "T9"]]).
Proof. vm_compute. reflexivity. Qed.

Example subscription_refund_dropped :
  Sample.subscriptions
    (Subscription.mkSource true
       [(0%nat, Sample.subscription_row "691.84");
        (1%nat, Sample.subscription_row "-50.00")])
  = [(0%nat,
      Subscription.mkRecord (mkTimestamp 2025 Jan 2 0) (Str "Microsoft - 365")
        (finite (17296 # 25)) "Tech" "Microsoft" 2025 1 "Jan" "2025-01")].
Proof. vm_compute. reflexivity. Qed.

End Examples.


(** ** The resolution of column names *)

Module ResolverFacts.
Import Pd Reconcile.

(** The dictionary of [_map_cols], built column by column. *)
Lemma map_cols_snoc (cols : list string) (c : string) (rws : list (list cell)) :
  _map_cols (mkDataFrame (cols ++ [c])%list rws)
  = <[Py.strip (Py.lower c) := c]> (_map_cols (mkDataFrame cols rws)).
Proof. unfold _map_cols. cbn [columns]. now rewrite foldl_app. Qed.

(** A key of the dictionary leads to the last column that has it. *)
Lemma map_cols_lookup (d : DataFrame) (k c : string) :
  _map_cols d !! k = Some c <->
  exists before after,
    columns d = (before ++ c :: after)%list
    /\ Py.strip (Py.lower c) = k
    /\ forall c', In c' after -> Py.strip (Py.lower c') <> k.
Proof.
  destruct d as [cols rws]. cbn [columns].
  induction cols as [|x cols IH] using rev_ind.
  - unfold _map_cols. cbn. rewrite lookup_empty. split; [discriminate|].
    intros (b & a & H & _). destruct b; discriminate.
  - rewrite map_cols_snoc.
    destruct (decide (Py.strip (Py.lower x) = k)) as [Hk|Hk].
    + rewrite <- Hk, lookup_insert_eq. split.
      * intros [= <-]. exists cols, []. split; [reflexivity|]. split; [reflexivity|].
        intros c' [].
      * intros (b & a & H & Hc & Hafter).
        destruct a as [|y a] using rev_ind.
        -- apply app_inj_tail in H as [_ ->]. reflexivity.
        -- clear IHa. rewrite app_comm_cons, app_assoc in H.
           apply app_inj_tail in H as [_ ->].
           exfalso. apply (Hafter y); [|reflexivity].
           apply in_or_app. right. now left.
    + rewrite lookup_insert_ne by exact Hk. rewrite IH. split.
      * intros (b & a & -> & Hc & Hafter).
        exists b, (a ++ [x])%list. split; [now rewrite <- app_assoc|].
        split; [exact Hc|]. intros c' Hin. apply in_app_or in Hin as [Hin|[<-|[]]]; auto.
      * intros (b & a & H & Hc & Hafter).
        destruct a as [|y a] using rev_ind.
        -- apply app_inj_tail in H as [_ ->]. congruence.
        -- clear IHa. rewrite app_comm_cons, app_assoc in H.
           apply app_inj_tail in H as [-> ->].
           exists b, a. split; [reflexivity|]. split; [exact Hc|].
           intros c' Hin. apply Hafter. apply in_or_app. now left.
Qed.

Lemma map_cols_lookup_none (d : DataFrame) (k : string) :
  _map_cols d !! k = None <-> forall c, In c (columns d) -> Py.strip (Py.lower c) <> k.
Proof.
  destruct d as [cols rws]. cbn [columns].
  induction cols as [|x cols IH] using rev_ind.
  - unfold _map_cols. cbn. rewrite lookup_empty. split; [intros _ c []|reflexivity].
  - rewrite map_cols_snoc.
    destruct (decide (Py.strip (Py.lower x) = k)) as [Hk|Hk].
    + rewrite <- Hk, lookup_insert_eq. split; [discriminate|].
      intros H. exfalso. apply (H x); [|reflexivity]. apply in_or_app. right. now left.
    + rewrite lookup_insert_ne by exact Hk. rewrite IH. split.
      * intros H c Hin. apply in_app_or in Hin as [Hin|[<-|[]]]; auto.
      * intros H c Hin. apply H. apply in_or_app. now left.
Qed.

(** The resolver gives the column of the first candidate, in the caller's
    order, that some column answers to, and among the columns that answer
    to it the last one. *)
Lemma pick_name_spec (d : DataFrame) (cands : list string) :
  (forall k, _pick_name d (_map_cols d) cands = Some k ->
     exists earlier c later before after,
       cands = (earlier ++ c :: later)%list
       /\ (forall c' col, In c' earlier -> In col (columns d) ->
             Py.strip (Py.lower col) <> Py.lower c')
       /\ columns d = (before ++ k :: after)%list
       /\ Py.strip (Py.lower k) = Py.lower c
       /\ (forall col, In col after -> Py.strip (Py.lower col) <> Py.lower c))
  /\ (_pick_name d (_map_cols d) cands = None <->
      forall c col, In c cands -> In col (columns d) ->
        Py.strip (Py.lower col) <> Py.lower c).
Proof.
  induction cands as [|c cands [IHs IHn]].
  - split; [discriminate|]. split; [intros _ c col []|reflexivity].
  - cbn [_pick_name].
    destruct (_map_cols d !! Py.lower c) as [k0|] eqn:E.
    + pose proof E as E'. apply map_cols_lookup in E' as (before & after & Hcols & Hkey & Hafter).
      assert (Hin : k0 ∈ columns d).
      { rewrite Hcols. apply list_elem_of_In, in_or_app. right. now left. }
      rewrite (bool_decide_eq_true_2 _ Hin). split.
      * intros k [= <-]. exists [], c, cands, before, after.
        split; [reflexivity|]. split; [intros c' col []|]. auto.
      * split; [discriminate|]. intros H. exfalso.
        apply (H c k0); [now left | | exact Hkey].
        now apply list_elem_of_In.
    + pose proof E as E'. rewrite map_cols_lookup_none in E'. split.
      * intros k Hk. destruct (IHs k Hk) as (earlier & c1 & later & before & after & -> & Hearly & Hrest).
        exists (c :: earlier), c1, later, before, after.
        split; [reflexivity|]. split; [|exact Hrest].
        intros c' col [<-|Hc'] Hcol; [now apply E' | now apply (Hearly c' col)].
      * rewrite IHn. split.
        -- intros H c' col [<-|Hc'] Hcol; [now apply E' | now apply H].
        -- intros H c' col Hc' Hcol. apply H; [now right | exact Hcol].
Qed.

(** The id column that the checker resolves is never the empty text. *)
Lemma pick_name_nonempty (d : DataFrame) (k : string) :
  _pick_name d (_map_cols d) id_candidates = Some k -> k <> "".
Proof.
  intros H. destruct (pick_name_spec d id_candidates) as [Hs _].
  destruct (Hs k H) as (earlier & c & later & _ & _ & Hc & _ & _ & Hkey & _).
  intros ->.
  assert (Hin : In c id_candidates) by (rewrite Hc; apply in_or_app; right; now left).
  cbn in Hin. destruct Hin as [<-|[<-|[<-|[]]]]; discriminate Hkey.
Qed.

Lemma pick_from_pick_name (d : DataFrame) (m : gmap string string)
    (names : list string) :
  Dashboard._pick_from d m names = _pick_name d m names.
Proof.
  induction names as [|n rest IH]; [reflexivity|].
  cbn [Dashboard._pick_from _pick_name]. rewrite IH. reflexivity.
Qed.

(** X1. [_pick] of the normalizers and [_pick_name] on [_map_cols] of the
    checker are one function.  It gives the column of the first
    candidate, in the caller's order, that some column answers to when
    case and the blanks around the column name are set aside; among the
    columns that answer to that candidate it gives the last one.  It
    gives nothing exactly when no column answers to any candidate. *)
Theorem pick_gives_first_candidate (d : DataFrame) (cands : list string) :
  Dashboard._pick d cands = _pick_name d (_map_cols d) cands
  /\ (forall k, Dashboard._pick d cands = Some k ->
        exists earlier c later before after,
          cands = (earlier ++ c :: later)%list
          /\ (forall c' col, In c' earlier -> In col (columns d) ->
                Py.strip (Py.lower col) <> Py.lower c')
          /\ columns d = (before ++ k :: after)%list
          /\ Py.strip (Py.lower k) = Py.lower c
          /\ (forall col, In col after -> Py.strip (Py.lower col) <> Py.lower c))
  /\ (Dashboard._pick d cands = None <->
      forall c col, In c cands -> In col (columns d) ->
        Py.strip (Py.lower col) <> Py.lower c).
Proof.
  assert (E : Dashboard._pick d cands = _pick_name d (_map_cols d) cands).
  { unfold Dashboard._pick. apply pick_from_pick_name. }
  rewrite E. split; [reflexivity|]. apply pick_name_spec.
Qed.

End ResolverFacts.


(** ** The missing transaction checker, row by row *)

Module CheckerFacts.
Import Pd Reconcile.

(** X2. The checker treats its two inputs alike: with the two frames
    swapped, the two outputs are swapped and nothing else changes. *)
Theorem pair_missing_symmetric (A B : option DataFrame) :
  _pair_missing B A = (snd (_pair_missing A B), fst (_pair_missing A B)).
Proof.
  unfold _pair_missing, both_empty.
  destruct A as [a|], B as [b|]; try reflexivity.
  rewrite (orb_comm (empty b)).
  destruct (empty a || empty b); [reflexivity|].
  destruct (_pick_name a (_map_cols a) id_candidates) as [colA|],
           (_pick_name b (_map_cols b) id_candidates) as [colB|]; try reflexivity.
  rewrite (orb_comm (String.eqb colB "")).
  destruct (String.eqb colA "" || String.eqb colB ""); reflexivity.
Qed.

Lemma pick_name_is_column (d : DataFrame) (m : gmap string string)
    (cands : list string) (k : string) :
  _pick_name d m cands = Some k -> In k (columns d).
Proof.
  induction cands as [|c cands IH]; [discriminate|].
  cbn [_pick_name]. destruct (m !! Py.lower c) as [k0|]; [|exact IH].
  destruct (bool_decide (k0 ∈ columns d)) eqn:E; [|exact IH].
  intros [= <-]. apply bool_decide_eq_true in E. now apply list_elem_of_In.
Qed.

Lemma dedupe_spec (seen : gset string) (names : list string) :
  NoDup (dedupe seen names)
  /\ (forall n, n ∈ dedupe seen names <-> n ∈ names /\ n ∉ seen).
Proof.
  revert seen. induction names as [|x names IH]; intros seen; cbn [dedupe].
  - split; [constructor|]. intros n. rewrite elem_of_nil. tauto.
  - destruct (bool_decide (x ∈ seen)) eqn:E.
    + apply bool_decide_eq_true in E. destruct (IH seen) as [H1 H2].
      split; [exact H1|]. intros n. rewrite H2, elem_of_cons. split; [tauto|].
      intros [[->|H] Hn]; [contradiction | tauto].
    + apply bool_decide_eq_false in E. destruct (IH ({[x]} ∪ seen)) as [H1 H2].
      assert (Hseen : forall n, n ∉ {[x]} ∪ seen <-> n <> x /\ n ∉ seen).
      { intros n. rewrite elem_of_union, elem_of_singleton. tauto. }
      split.
      * constructor; [|exact H1]. rewrite H2, Hseen. tauto.
      * intros n. rewrite !elem_of_cons, H2, Hseen.
        destruct (decide (n = x)) as [->|Hne]; tauto.
Qed.

Lemma nice_names_are_columns (d : DataFrame) (k : string) :
  k ∈ omap id (nice_names d) -> In k (columns d).
Proof.
  rewrite list_elem_of_omap. intros (o & Ho & Hk). cbn in Hk. subst o.
  unfold nice_names in Ho. cbn zeta in Ho.
  rewrite !elem_of_cons, elem_of_nil in Ho.
  repeat (destruct Ho as [Ho|Ho]; [symmetry in Ho; eapply pick_name_is_column, Ho|]).
  destruct Ho.
Qed.

(** X3. The friendly subset keeps every row.  Its columns are columns
    of the frame.  When none of the eleven names resolves it is the frame
    itself; otherwise its columns are the resolved names, each of them
    once, and every row has one cell for each column. *)
Theorem nice_subset_shape (d : DataFrame) :
  length (rows (_nice_subset d)) = length (rows d)
  /\ (forall n, In n (columns (_nice_subset d)) -> In n (columns d))
  /\ (omap id (nice_names d) = [] -> _nice_subset d = d)
  /\ (omap id (nice_names d) <> [] ->
      NoDup (columns (_nice_subset d))
      /\ (forall n, In n (columns (_nice_subset d)) <-> n ∈ omap id (nice_names d))
      /\ forall row, In row (rows (_nice_subset d)) ->
           length row = length (columns (_nice_subset d))).
Proof.
  unfold _nice_subset. cbn zeta.
  destruct (dedupe_spec ∅ (omap id (nice_names d))) as [Hnd Hmem].
  assert (Hnil : dedupe ∅ (omap id (nice_names d)) = [] -> omap id (nice_names d) = []).
  { intros H. destruct (omap id (nice_names d)) as [|x l] eqn:E; [reflexivity|].
    exfalso. assert (Hx : x ∈ dedupe ∅ (x :: l)).
    { apply Hmem. split; [apply elem_of_cons; now left | apply not_elem_of_empty]. }
    rewrite H in Hx. inversion Hx. }
  destruct (dedupe ∅ (omap id (nice_names d))) as [|n0 names] eqn:E.
  - split; [reflexivity|]. split; [auto|]. split; [reflexivity|].
    intros H. exfalso. apply H, Hnil. reflexivity.
  - unfold loc_columns. cbn [rows columns]. rewrite length_map.
    split; [reflexivity|]. split.
    { intros n Hn. apply nice_names_are_columns. apply Hmem.
      now apply list_elem_of_In. }
    split.
    { intros H. rewrite H in E. discriminate E. }
    intros _. split; [exact Hnd|]. split.
    { intros n. rewrite <- list_elem_of_In, Hmem. split; [tauto|].
      intros H. split; [exact H | apply not_elem_of_empty]. }
    intros row Hrow. apply in_map_iff in Hrow as (r & <- & _). now rewrite length_map.
Qed.

(** The rows of the friendly subset are the rows of the frame, each cut
    down to the kept columns, and the id cell stays where the id column
    is. *)
Lemma nice_subset_rows (d : DataFrame) (name : string) :
  _pick_name d (_map_cols d) id_candidates = Some name ->
  exists f,
    rows (_nice_subset d) = map f (rows d)
    /\ forall r, cell_at (columns (_nice_subset d)) name (f r)
                 = cell_at (columns d) name r.
Proof.
  intros Hpick. unfold _nice_subset.
  assert (Hnames : exists rest, nice_names d = Some name :: rest).
  { unfold nice_names. cbn zeta. unfold id_candidates in Hpick. rewrite Hpick. eauto. }
  destruct Hnames as (rest & ->).
  cbn [omap list_omap id dedupe].
  rewrite bool_decide_eq_false_2 by apply not_elem_of_empty.
  unfold loc_columns. cbn [rows columns].
  eexists. split; [reflexivity|].
  intros r. unfold cell_at at 1. rewrite ReconcileFacts.index_of_head. reflexivity.
Qed.

(** The set of valid keys of a frame. *)
Lemma valid_key_set (d : DataFrame) (name k : string) :
  let ids := _norm_id (column d name) in
  k ∈ (list_to_set (select (valid ids) ids) : gset string) <->
  k <> "" /\ k <> "nan"
  /\ exists r, In r (rows d)
       /\ Py.lower (Py.strip (astype_str (cell_at (columns d) name r))) = k.
Proof.
  cbn zeta. rewrite elem_of_list_to_set. unfold valid.
  rewrite ReconcileFacts.select_map, list_elem_of_In, filter_In.
  rewrite ReconcileFacts.norm_id_column, in_map_iff.
  rewrite !andb_true_iff, !negb_true_iff, !String.eqb_neq.
  split.
  - intros ((r & <- & Hr) & (H1 & H2) & _). eauto.
  - intros (H1 & H2 & r & Hr & <-). split; [exists r; auto | auto].
Qed.

Lemma selected_rows_iff (d : DataFrame) (name : string)
    (other : string -> bool) (row : list cell) :
  let ids := _norm_id (column d name) in
  let key := Py.lower (Py.strip (astype_str (cell_at (columns d) name row))) in
  In row (select (zip_and (valid ids) (map other ids)) (rows d)) <->
  In row (rows d) /\ key <> "" /\ key <> "nan" /\ other key = true.
Proof.
  cbn zeta. unfold valid.
  rewrite ReconcileFacts.norm_id_column, !map_map, ReconcileFacts.zip_and_map,
    ReconcileFacts.select_map, filter_In.
  rewrite !andb_true_iff, !negb_true_iff, !String.eqb_neq. tauto.
Qed.

(** X4. Between two frames that are not empty and have an id column, the
    first output holds exactly the rows of the first frame whose key is
    valid and is the key of no row of the second. *)
Theorem pair_missing_exact (a b : DataFrame) (colA colB : string) :
  empty a = false -> empty b = false ->
  _pick_name a (_map_cols a) id_candidates = Some colA ->
  _pick_name b (_map_cols b) id_candidates = Some colB ->
  let key_a r := Py.lower (Py.strip (astype_str (cell_at (columns a) colA r))) in
  let key_b r := Py.lower (Py.strip (astype_str (cell_at (columns b) colB r))) in
  let A_only := fst (_pair_missing (Some a) (Some b)) in
  (forall row, In row (rows A_only) ->
     exists r, In r (rows a)
       /\ cell_at (columns A_only) colA row = cell_at (columns a) colA r
       /\ key_a r <> "" /\ key_a r <> "nan"
       /\ forall r', In r' (rows b) -> key_b r' <> key_a r)
  /\ (forall r, In r (rows a) ->
        key_a r <> "" -> key_a r <> "nan" ->
        (forall r', In r' (rows b) -> key_b r' <> key_a r) ->
        exists row, In row (rows A_only)
          /\ cell_at (columns A_only) colA row = cell_at (columns a) colA r).
Proof.
  intros Ha Hb HA HB. cbn zeta.
  unfold _pair_missing. rewrite Ha, Hb, HA, HB. cbn [orb].
  rewrite (proj2 (String.eqb_neq _ _) (ResolverFacts.pick_name_nonempty _ _ HA)).
  rewrite (proj2 (String.eqb_neq _ _) (ResolverFacts.pick_name_nonempty _ _ HB)).
  cbn [orb fst].
  set (dA := {| columns := columns a; rows := _ |}).
  destruct (nice_subset_rows dA colA HA) as (f & Hrows & Hcell).
  rewrite Hrows. split.
  - intros row Hrow. apply in_map_iff in Hrow as (r & <- & Hr).
    subst dA. cbn [rows columns] in Hr, Hcell.
    apply selected_rows_iff in Hr as (Hin & H1 & H2 & Hother).
    exists r. split; [exact Hin|]. split; [apply Hcell|]. split; [exact H1|].
    split; [exact H2|]. intros r' Hr' Heq.
    apply negb_true_iff, bool_decide_eq_false in Hother. apply Hother.
    apply valid_key_set. rewrite <- Heq in H1, H2. rewrite <- Heq. eauto.
  - intros r Hr H1 H2 Hnone. exists (f r). split; [|apply Hcell].
    apply in_map. subst dA. cbn [rows columns].
    apply selected_rows_iff. split; [exact Hr|]. split; [exact H1|]. split; [exact H2|].
    apply negb_true_iff, bool_decide_eq_false. intros Hin.
    apply valid_key_set in Hin as (_ & _ & r' & Hr' & Heq).
    now apply (Hnone r').
Qed.

End CheckerFacts.


(** ** Names in normal form *)

Module NameFacts.
Import Py Pd Dashboard.
Import PyFacts.

Lemma title_char_space (b : bool) (c : ascii) :
  is_alpha c = true ->
  is_space (if b then lower_char c else upper_char c) = false
  /\ is_alpha (if b then lower_char c else upper_char c) = true.
Proof. destruct b; each_char c; split; reflexivity. Qed.

Lemma alpha_not_space (c : ascii) : is_space c = true -> is_alpha c = false.
Proof. each_char c. Qed.

Lemma title_char_idem (b : bool) (c : ascii) :
  (if b then lower_char (if b then lower_char c else upper_char c)
   else upper_char (if b then lower_char c else upper_char c))
  = (if b then lower_char c else upper_char c).
Proof. destruct b; [apply lower_char_idem | apply upper_char_idem]. Qed.

Lemma title_from_idem (b : bool) (s : string) :
  title_from b (title_from b s) = title_from b s.
Proof.
  revert b. induction s as [|c r IH]; intros b; [reflexivity|].
  cbn [title_from]. destruct (is_alpha c) eqn:Ec; cbn [title_from].
  - destruct (title_char_space b c Ec) as [_ ->].
    now rewrite title_char_idem, IH.
  - now rewrite Ec, IH.
Qed.

Lemma lstrip_title (s : string) : lstrip (title s) = title (lstrip s).
Proof.
  unfold title. induction s as [|c r IH]; [reflexivity|].
  cbn [title_from lstrip]. destruct (is_space c) eqn:Es.
  - rewrite (alpha_not_space c Es). cbn [lstrip]. now rewrite Es.
  - destruct (is_alpha c) eqn:Ea; cbn [lstrip].
    + destruct (title_char_space false c Ea) as [H _]. cbn in H.
      rewrite H. cbn [title_from]. now rewrite Ea.
    + rewrite Es. cbn [title_from]. now rewrite Ea.
Qed.

Lemma rstrip_title_from (b : bool) (s : string) :
  rstrip (title_from b s) = title_from b (rstrip s).
Proof.
  revert b. induction s as [|c r IH]; intros b; [reflexivity|].
  cbn [title_from rstrip]. destruct (is_alpha c) eqn:Ea; cbn [rstrip]; rewrite IH.
  - destruct (title_char_space b c Ea) as [Hs _].
    assert (Hc : is_space c = false).
    { destruct (is_space c) eqn:E; [|reflexivity].
      apply alpha_not_space in E. congruence. }
    destruct (rstrip r) as [|d r']; cbn [title_from].
    + rewrite Hs, Hc. cbn [title_from]. now rewrite Ea.
    + destruct (is_alpha d); now rewrite Ea.
  - destruct (rstrip r) as [|d r']; cbn [title_from].
    + destruct (is_space c); [reflexivity|]. cbn [title_from]. now rewrite Ea.
    + destruct (is_alpha d); now rewrite Ea.
Qed.

Lemma strip_title (s : string) : strip (title s) = title (strip s).
Proof. unfold strip. rewrite lstrip_title. apply rstrip_title_from. Qed.

(** What line 327 does to a name that is already trimmed and in title
    case. *)
Lemma filter_user_title_strip (s : string) :
  filter_user (title (strip s)) = title (strip s).
Proof.
  unfold filter_user. rewrite strip_title, strip_idem.
  apply title_from_idem.
Qed.

(** *** Single blanks *)

Lemma single_spaced_cons (c : ascii) (r : string) :
  single_spaced (String c r)
  = (negb (is_space c) || (Ascii.eqb c " " && head_not_space r)) && single_spaced r.
Proof. reflexivity. Qed.

Lemma sub_runs_head (s : string) :
  head_not_space s = true -> head_not_space (sub_runs is_space s) = true.
Proof.
  destruct s as [|c r]; [reflexivity|]. cbn [head_not_space sub_runs].
  intros H. apply negb_true_iff in H. rewrite H. cbn. now rewrite H.
Qed.

Lemma sub_runs_single_spaced (s : string) :
  single_spaced (sub_runs is_space s) = true.
Proof.
  induction s as [|c r IH]; [reflexivity|].
  cbn [sub_runs]. destruct (is_space c) eqn:Ec.
  - destruct r as [|d r']; [reflexivity|].
    destruct (is_space d) eqn:Ed; [exact IH|].
    rewrite single_spaced_cons, IH.
    rewrite sub_runs_head by (cbn; now rewrite Ed). reflexivity.
  - rewrite single_spaced_cons, Ec, IH. reflexivity.
Qed.

Lemma single_spaced_tail (c : ascii) (r : string) :
  single_spaced (String c r) = true -> single_spaced r = true.
Proof. rewrite single_spaced_cons. now intros [_ ?]%andb_true_iff. Qed.

Lemma single_spaced_no_nbsp (s : string) :
  single_spaced s = true -> replace_char nbsp " " s = s.
Proof.
  unfold replace_char. induction s as [|c r IH]; [reflexivity|].
  intros H. cbn [map_chars]. rewrite IH by (eapply single_spaced_tail, H).
  f_equal. rewrite single_spaced_cons in H.
  apply andb_true_iff in H as [H _].
  destruct (Ascii.eqb c nbsp) eqn:E; [|reflexivity].
  apply Ascii.eqb_eq in E. subst c. discriminate H.
Qed.

Lemma single_spaced_lstrip (s : string) :
  single_spaced s = true -> single_spaced (lstrip s) = true.
Proof.
  induction s as [|c r IH]; [reflexivity|]. intros H. cbn [lstrip].
  destruct (is_space c); [|exact H]. eapply IH, single_spaced_tail, H.
Qed.

Lemma head_not_space_rstrip (s : string) :
  head_not_space s = true -> head_not_space (rstrip s) = true.
Proof.
  destruct s as [|c r]; [reflexivity|]. cbn [head_not_space rstrip].
  intros H. destruct (rstrip r); [|exact H].
  destruct (is_space c) eqn:E; [reflexivity|]. cbn. now rewrite E.
Qed.

Lemma single_spaced_rstrip (s : string) :
  single_spaced s = true -> single_spaced (rstrip s) = true.
Proof.
  induction s as [|c r IH]; [reflexivity|]. intros H.
  pose proof (single_spaced_tail _ _ H) as Hr. specialize (IH Hr).
  rewrite single_spaced_cons in H. apply andb_true_iff in H as [H _].
  cbn [rstrip]. destruct (rstrip r) as [|d r'] eqn:E.
  - destruct (is_space c) eqn:Ec; [reflexivity|].
    rewrite single_spaced_cons, Ec. reflexivity.
  - rewrite single_spaced_cons, IH, andb_true_r.
    apply orb_true_iff in H as [H | H]; [now rewrite H|].
    apply andb_true_iff in H as [H1 H2]. rewrite H1.
    pose proof (head_not_space_rstrip r H2) as H3. rewrite E in H3.
    rewrite H3. apply orb_true_r.
Qed.

Lemma title_from_space (b : bool) (s : string) :
  head_not_space (title_from b s) = head_not_space s.
Proof.
  destruct s as [|c r]; [reflexivity|]. cbn [title_from].
  destruct (is_alpha c) eqn:Ea; [|reflexivity]. cbn [head_not_space].
  destruct (title_char_space b c Ea) as [-> _].
  destruct (is_space c) eqn:E; [|reflexivity].
  apply alpha_not_space in E. congruence.
Qed.

Lemma single_spaced_title_from (b : bool) (s : string) :
  single_spaced s = true -> single_spaced (title_from b s) = true.
Proof.
  revert b. induction s as [|c r IH]; intros b H; [reflexivity|].
  pose proof (single_spaced_tail _ _ H) as Hr.
  rewrite single_spaced_cons in H. apply andb_true_iff in H as [H _].
  cbn [title_from]. destruct (is_alpha c) eqn:Ea.
  - rewrite single_spaced_cons, IH by exact Hr.
    destruct (title_char_space b c Ea) as [-> _]. reflexivity.
  - rewrite single_spaced_cons, IH by exact Hr.
    rewrite title_from_space, H. reflexivity.
Qed.

Lemma sub_runs_fixed (s : string) :
  single_spaced s = true -> sub_runs is_space s = s.
Proof.
  induction s as [|c r IH]; [reflexivity|]. intros H.
  pose proof (single_spaced_tail _ _ H) as Hr.
  rewrite single_spaced_cons in H. apply andb_true_iff in H as [H _].
  cbn [sub_runs]. rewrite (IH Hr).
  destruct (is_space c) eqn:Ec; [|reflexivity].
  cbn in H. apply andb_true_iff in H as [H1 H2].
  apply Ascii.eqb_eq in H1. subst c.
  destruct r as [|d r']; [reflexivity|].
  cbn in H2. apply negb_true_iff in H2. now rewrite H2.
Qed.

Lemma display_name_single_spaced (employee : cell) :
  single_spaced (Financial.display_name employee) = true.
Proof.
  unfold Financial.display_name.
  apply single_spaced_title_from. unfold strip.
  apply single_spaced_rstrip, single_spaced_lstrip.
  rewrite single_spaced_no_nbsp; apply sub_runs_single_spaced.
Qed.

Lemma display_name_strip (employee : cell) :
  strip (Financial.display_name employee) = Financial.display_name employee.
Proof.
  unfold Financial.display_name. now rewrite strip_title, strip_idem.
Qed.

Lemma display_name_again (employee : cell) :
  Financial.display_name (Str (Financial.display_name employee))
  = Financial.display_name employee.
Proof.
  pose proof (display_name_single_spaced employee) as H.
  pose proof (display_name_strip employee) as Hs.
  unfold Financial.display_name at 1. cbn [astype_str].
  rewrite (sub_runs_fixed _ H), (single_spaced_no_nbsp _ H), Hs.
  unfold Financial.display_name. apply title_from_idem.
Qed.

End NameFacts.


(** ** The unified table, the filters and the charts *)

Section DashboardFacts.
Import Pd Financial.

Variable to_numeric_other : string -> option Q.
Variable to_datetime_utc : string -> option Timestamp.
Variable to_datetime_Ybd : string -> option Timestamp.

Abbreviation rederive_row := (Financial.rederive_row to_datetime_Ybd).
Abbreviation rederive := (Financial.rederive to_datetime_Ybd).
Abbreviation bf_row := (Financial.bf_row to_numeric_other to_datetime_utc).
Abbreviation ef_row := (Financial.ef_row to_numeric_other to_datetime_utc).
Abbreviation final_dataframe := (Financial.final_dataframe to_numeric_other to_datetime_utc).
Abbreviation balance_filtered := (Financial.balance_filtered to_numeric_other to_datetime_utc).
Abbreviation expense_filtered := (Financial.expense_filtered to_numeric_other to_datetime_utc).
Abbreviation df := (Financial.df to_numeric_other to_datetime_utc to_datetime_Ybd).

(** The category of a balance row is missing unless the row is a payout
    or an adjustment. *)
Lemma bf_row_category_missing (b : BalanceRow) :
  mask b = true ->
  isna (c_Expense_category (bf_row b)) = true
  <-> ft b = "DEPOSIT" \/ ft b = "CARD_REFUND".
Proof.
  intros Hm. cbn [Financial.bf_row c_Expense_category].
  apply mask_types in Hm.
  destruct Hm as [E | [E | [E | E]]]; rewrite E; cbn;
    (split; [intros H; try discriminate H; auto | intros [H | H]; try discriminate H; auto]).
Qed.

(** What the concatenation does to the balance rows: it leaves them as
    they are when one of them is a payout or an adjustment, and puts NaN
    for the category of each when all are deposits and card refunds. *)
Lemma concat_balance_cases (balance_file : list BalanceRow) :
  ((exists b, In b balance_file /\ mask b = true
              /\ (ft b = "PAYOUT" \/ ft b = "ADJUSTMENT"))
   /\ concat_Expense_category (balance_filtered balance_file)
      = balance_filtered balance_file)
  \/ ((forall b, In b balance_file -> mask b = true ->
         ft b = "DEPOSIT" \/ ft b = "CARD_REFUND")
      /\ concat_Expense_category (balance_filtered balance_file)
         = map (set_Expense_category NaN) (balance_filtered balance_file)).
Proof.
  unfold concat_Expense_category.
  destruct (forallb _ (balance_filtered balance_file)) eqn:E.
  - right. split; [|reflexivity].
    intros b Hb Hm. apply (bf_row_category_missing b Hm).
    rewrite forallb_forall in E. apply E.
    unfold Financial.balance_filtered. apply in_map, filter_In. auto.
  - left. split; [|reflexivity].
    apply not_true_iff_false in E. rewrite forallb_forall in E.
    assert (H : ~ forall b, In b balance_file -> mask b = true ->
                  isna (c_Expense_category (bf_row b)) = true).
    { intros H. apply E. intros r Hr.
      unfold Financial.balance_filtered in Hr.
      apply in_map_iff in Hr as (b & <- & Hb).
      apply filter_In in Hb as [Hb Hm]. now apply H. }
    clear E. induction balance_file as [|b l IH].
    + exfalso. apply H. intros b [].
    + destruct (mask b) eqn:Hm.
      * destruct (isna (c_Expense_category (bf_row b))) eqn:Ec.
        -- destruct IH as (b' & Hb' & Hm' & Ht').
           { intros Hall. apply H. intros b' [<- | Hb'] Hm'; [exact Ec | now apply Hall]. }
           exists b'. split; [now right | auto].
        -- exists b. split; [now left|]. split; [exact Hm|].
           pose proof (mask_types b Hm) as Ht.
           destruct Ht as [Ht | [Ht | [Ht | Ht]]]; auto;
             exfalso; apply not_true_iff_false in Ec; apply Ec;
             apply (bf_row_category_missing b Hm); auto.
      * destruct IH as (b' & Hb' & Hm' & Ht').
        { intros Hall. apply H. intros b' [<- | Hb'] Hm'; [congruence | now apply Hall]. }
        exists b'. split; [now right | auto].
Qed.

(** A row of the concatenated table comes from an expense, with type
    CARD, or from a balance row of one of the four types. *)
Lemma final_dataframe_origin (balance_file : list BalanceRow)
    (expense_file : ExpenseFile) (r : Row) :
  In r (final_dataframe balance_file expense_file) <->
  (exists e, In e (expense_rows expense_file)
     /\ r = ef_row (has_Expense_status expense_file) e)
  \/ (exists b, In b balance_file /\ mask b = true
        /\ (((exists b', In b' balance_file /\ mask b' = true
                         /\ (ft b' = "PAYOUT" \/ ft b' = "ADJUSTMENT"))
             /\ r = bf_row b)
            \/ ((forall b', In b' balance_file -> mask b' = true ->
                   ft b' = "DEPOSIT" \/ ft b' = "CARD_REFUND")
                /\ r = set_Expense_category NaN (bf_row b)))).
Proof.
  unfold Financial.final_dataframe. rewrite in_app_iff.
  enough (H : (In r (expense_filtered expense_file)
               <-> exists e, In e (expense_rows expense_file)
                     /\ r = ef_row (has_Expense_status expense_file) e)
              /\ (In r (concat_Expense_category (balance_filtered balance_file))
                  <-> exists b, In b balance_file /\ mask b = true
                        /\ (((exists b', In b' balance_file /\ mask b' = true
                                         /\ (ft b' = "PAYOUT" \/ ft b' = "ADJUSTMENT"))
                             /\ r = bf_row b)
                            \/ ((forall b', In b' balance_file -> mask b' = true ->
                                   ft b' = "DEPOSIT" \/ ft b' = "CARD_REFUND")
                                /\ r = set_Expense_category NaN (bf_row b))))).
  { destruct H as [H1 H2]. rewrite H1, H2. reflexivity. }
  split.
  - unfold Financial.expense_filtered. rewrite in_map_iff.
    split; intros (e & H1 & H2); exists e; auto.
  - destruct (concat_balance_cases balance_file) as [[Hsome ->] | [Hall ->]];
      unfold Financial.balance_filtered.
    + rewrite in_map_iff. split.
      * intros (b & <- & Hb). apply filter_In in Hb as [Hb Hm].
        exists b. split; [exact Hb|]. split; [exact Hm|]. left. auto.
      * intros (b & Hb & Hm & [[_ ->] | [Hall _]]).
        -- exists b. split; [reflexivity | now apply filter_In].
        -- exfalso. destruct Hsome as (b' & Hb' & Hm' & Ht').
           destruct (Hall b' Hb' Hm') as [E | E]; rewrite E in Ht';
             destruct Ht' as [? | ?]; discriminate.
    + rewrite map_map, in_map_iff. split.
      * intros (b & <- & Hb). apply filter_In in Hb as [Hb Hm].
        exists b. split; [exact Hb|]. split; [exact Hm|]. right. auto.
      * intros (b & Hb & Hm & [[Hsome _] | [_ ->]]).
        -- exfalso. destruct Hsome as (b' & Hb' & Hm' & Ht').
           destruct (Hall b' Hb' Hm') as [E | E]; rewrite E in Ht';
             destruct Ht' as [? | ?]; discriminate.
        -- exists b. split; [reflexivity | now apply filter_In].
Qed.

Lemma base_rederive_row_fixed (r : Row) :
  c_Month r = dt_month_upper (c_Time r) ->
  c_Year r = dt_year_str (c_Time r) ->
  type_upper r = c_Type r ->
  base (rederive_row r) = r.
Proof.
  intros Hm Hy Ht. destruct r. cbn in *. now rewrite <- Hm, <- Hy, Ht.
Qed.

Lemma unifier_keeps_row (balance_file : list BalanceRow)
    (expense_file : ExpenseFile) (r : Row) :
  In r (final_dataframe balance_file expense_file) ->
  fallback_row (rederive_row r) = rederive_row r
  /\ base (rederive_row r) = r.
Proof.
  intros Hin. split.
  - apply fallback_row_settled. eapply final_dataframe_rows, Hin.
  - apply final_dataframe_origin in Hin
      as [(e & _ & ->) | (b & _ & Hm & [[_ ->] | [_ ->]])].
    + apply base_rederive_row_fixed; reflexivity.
    + apply base_rederive_row_fixed; [reflexivity | reflexivity |].
      unfold type_upper. cbn [Financial.bf_row c_Type].
      apply mask_types in Hm. destruct Hm as [-> | [-> | [-> | ->]]]; reflexivity.
    + apply base_rederive_row_fixed; [reflexivity | reflexivity |].
      unfold type_upper. cbn [Financial.bf_row set_Expense_category c_Type].
      apply mask_types in Hm. destruct Hm as [-> | [-> | [-> | ->]]]; reflexivity.
Qed.

Lemma map_base_df (balance_file : list BalanceRow) (expense_file : ExpenseFile) :
  map base (df balance_file expense_file)
  = final_dataframe balance_file expense_file.
Proof.
  unfold Financial.df. rewrite rederive_map, map_map.
  rewrite <- (map_id (final_dataframe balance_file expense_file)) at 2.
  apply map_ext_in. intros r Hr.
  destruct (unifier_keeps_row _ _ _ Hr) as [-> ->]. reflexivity.
Qed.

(** X5. The unifier only adds columns.  The twelve columns of the
    concatenated table come out of it as the concatenation left them,
    row for row and in the same order: the expenses first, then the
    balance rows of the four kept types. *)
Theorem unifier_only_adds_columns (balance_file : list BalanceRow)
    (expense_file : ExpenseFile) :
  map base (df balance_file expense_file)
  = final_dataframe balance_file expense_file
  /\ map (fun u => c_Transaction_Id (base u)) (df balance_file expense_file)
     = (map Transaction_Id (expense_rows expense_file)
        ++ map txn_col (List.filter mask balance_file))%list
  /\ length (df balance_file expense_file)
     = (length (expense_rows expense_file)
        + length (List.filter mask balance_file))%nat.
Proof.
  pose proof (map_base_df balance_file expense_file) as H.
  destruct (concat_Expense_category_map (balance_filtered balance_file))
    as (f & Hf & Hid).
  assert (Hidf : forall r, c_Transaction_Id (f r) = c_Transaction_Id r).
  { intros r. destruct Hid as [E | E]; rewrite E; reflexivity. }
  split; [exact H|]. split.
  - rewrite <- (map_map base c_Transaction_Id), H.
    unfold Financial.final_dataframe. rewrite Hf.
    unfold Financial.expense_filtered, Financial.balance_filtered.
    rewrite map_app, !map_map. f_equal. apply map_ext. intros b. apply Hidf.
  - rewrite <- (length_map base), H.
    unfold Financial.final_dataframe. rewrite Hf.
    unfold Financial.expense_filtered, Financial.balance_filtered.
    now rewrite length_app, !length_map.
Qed.

(** The rows of the unified table, by where they come from. *)
Lemma df_origin (balance_file : list BalanceRow) (expense_file : ExpenseFile)
    (u : Unified) :
  In u (df balance_file expense_file) <->
  (exists e, In e (expense_rows expense_file)
     /\ u = rederive_row (ef_row (has_Expense_status expense_file) e))
  \/ (exists b, In b balance_file /\ mask b = true
        /\ (((exists b', In b' balance_file /\ mask b' = true
                         /\ (ft b' = "PAYOUT" \/ ft b' = "ADJUSTMENT"))
             /\ u = rederive_row (bf_row b))
            \/ ((forall b', In b' balance_file -> mask b' = true ->
                   ft b' = "DEPOSIT" \/ ft b' = "CARD_REFUND")
                /\ u = rederive_row (set_Expense_category NaN (bf_row b))))).
Proof.
  unfold Financial.df. rewrite In_rederive. split.
  - intros (r & Hr & ->).
    destruct (unifier_keeps_row _ _ _ Hr) as [-> _].
    apply final_dataframe_origin in Hr
      as [(e & He & ->) | (b & Hb & Hm & [[Hs ->] | [Ha ->]])].
    + left. eauto.
    + right. exists b. split; [exact Hb|]. split; [exact Hm|]. left. auto.
    + right. exists b. split; [exact Hb|]. split; [exact Hm|]. right. auto.
  - intros H.
    assert (Hr : exists r, In r (final_dataframe balance_file expense_file)
                           /\ u = rederive_row r).
    { destruct H as [(e & He & ->) | (b & Hb & Hm & [[Hs ->] | [Ha ->]])].
      - eexists. split; [|reflexivity]. apply final_dataframe_origin. left. eauto.
      - eexists. split; [|reflexivity]. apply final_dataframe_origin. right.
        exists b. split; [exact Hb|]. split; [exact Hm|]. left. auto.
      - eexists. split; [|reflexivity]. apply final_dataframe_origin. right.
        exists b. split; [exact Hb|]. split; [exact Hm|]. right. auto. }
    destruct Hr as (r & Hr & ->). exists r. split; [exact Hr|].
    now destruct (unifier_keeps_row _ _ _ Hr) as [-> _].
Qed.

Lemma replace_blank_cases (s : string) :
  replace_blank s = NA
  \/ (replace_blank s = Str s /\ ~ In s [""; "nan"; "None"]).
Proof.
  unfold replace_blank, isin.
  destruct (bool_decide (s ∈ [""; "nan"; "None"])) eqn:E; [left; reflexivity|].
  right. split; [reflexivity|].
  apply bool_decide_eq_false in E. now rewrite <- list_elem_of_In.
Qed.

(** X6. The unified table has five types and no other, and its Category
    follows the type.  A payout is under "Transfers".  A deposit or a
    card refund has no category of its own: its Category is the text
    "<NA>" when the balance report has a payout or an adjustment among
    its kept rows, and the text "nan" when it has none and the
    concatenation has turned the whole column to NaN; neither is a
    missing value.  A card row has no category, "Incomplete", or the
    trimmed category of the export, never the empty text, "nan" or
    "None".  Only a card row can be without a category. *)
Theorem unified_category_by_type (balance_file : list BalanceRow)
    (expense_file : ExpenseFile) (u : Unified) :
  In u (df balance_file expense_file) ->
  In (c_Type (base u)) ["CARD"; "PAYOUT"; "ADJUSTMENT"; "DEPOSIT"; "CARD_REFUND"]
  /\ (c_Type (base u) = "PAYOUT" -> c_Category u = Str "Transfers")
  /\ (c_Type (base u) = "DEPOSIT" \/ c_Type (base u) = "CARD_REFUND" ->
      ((exists b, In b balance_file /\ mask b = true
                  /\ (ft b = "PAYOUT" \/ ft b = "ADJUSTMENT"))
       /\ c_Category u = Str "<NA>")
      \/ ((forall b, In b balance_file -> mask b = true ->
             ft b = "DEPOSIT" \/ ft b = "CARD_REFUND")
          /\ c_Category u = Str "nan"))
  /\ (c_Type (base u) = "CARD" ->
      c_Category u = NA
      \/ c_Category u = Str "Incomplete"
      \/ exists s, c_Category u = Str s /\ Py.strip s = s
                   /\ ~ In s [""; "nan"; "None"])
  /\ (isna (c_Category u) = true -> c_Type (base u) = "CARD").
Proof.
  intros Hin.
  apply df_origin in Hin
    as [(e & _ & ->) | (b & Hb & Hm & [[Hs ->] | [Ha ->]])].
  - cbn [Financial.rederive_row base c_Type c_Category].
    change (type_upper (ef_row (has_Expense_status expense_file) e)) with "CARD".
    split; [cbn; auto|].
    split; [discriminate|]. split; [intros [?|?]; discriminate|].
    split; [|reflexivity]. intros _.
    destruct (incomplete_mask _); [auto|].
    unfold category_before_incomplete.
    change (card_mask (ef_row (has_Expense_status expense_file) e)) with true.
    cbv iota.
    destruct (replace_blank_cases
                (Py.strip (astype_str (c_Expense_category
                   (ef_row (has_Expense_status expense_file) e)))))
      as [-> | [-> Hne]]; [auto|].
    right. right. eexists. split; [reflexivity|]. split; [|exact Hne].
    apply PyFacts.strip_idem.
  - assert (Hi : incomplete_mask (bf_row b) = false).
    { unfold incomplete_mask, card_mask, type_upper. cbn [Financial.bf_row c_Type].
      pose proof (mask_types b Hm) as Ht.
      destruct Ht as [-> | [-> | [-> | ->]]]; reflexivity. }
    cbn [Financial.rederive_row base c_Type c_Category]. rewrite Hi.
    unfold category_before_incomplete, adj_mask, card_mask, type_upper.
    cbn [Financial.bf_row c_Type c_Expense_category].
    pose proof (mask_types b Hm) as Ht.
    destruct Ht as [-> | [-> | [-> | ->]]]; cbn;
      (split; [tauto|]);
      (split; [intros E; try discriminate E; reflexivity|]);
      (split; [intros [E | E]; try discriminate E;
               left; (split; [exact Hs | reflexivity])|]);
      (split; [intros E; discriminate E|]);
      intros E; discriminate E.
  - assert (Ht : ft b = "DEPOSIT" \/ ft b = "CARD_REFUND") by now apply Ha.
    assert (Hi : incomplete_mask (set_Expense_category NaN (bf_row b)) = false).
    { unfold incomplete_mask, card_mask, type_upper.
      cbn [Financial.bf_row set_Expense_category c_Type].
      destruct Ht as [-> | ->]; reflexivity. }
    cbn [Financial.rederive_row base c_Type c_Category]. rewrite Hi.
    unfold category_before_incomplete, adj_mask, card_mask, type_upper.
    cbn [Financial.bf_row set_Expense_category c_Type c_Expense_category].
    destruct Ht as [-> | ->]; cbn;
      (split; [tauto|]);
      (split; [intros E; discriminate E|]);
      (split; [intros _; right; (split; [exact Ha | reflexivity])|]);
      (split; [intros E; discriminate E|]);
      intros E; discriminate E.
Qed.

(** X7. A kept row of the balance report of a type other than ADJUSTMENT
    whose description holds no occurrence of the pattern comes out, at
    its own place in the unified table, under the user "Nan": the missing
    employee is turned to text and put in title case. *)
Theorem user_without_counterparty (balance_file : list BalanceRow)
    (expense_file : ExpenseFile) (j : nat) (b : BalanceRow) :
  List.filter mask balance_file !! j = Some b ->
  ft b <> "ADJUSTMENT" ->
  (forall pre ws body rest,
     ~ occurrence false (astype_str (desc_col b)) pre ws body rest) ->
  exists u,
    df balance_file expense_file !! (length (expense_rows expense_file) + j)%nat
    = Some u
    /\ c_Transaction_Id (base u) = txn_col b
    /\ c_User u = "Nan".
Proof.
  intros Hj Hadj Hno.
  assert (Hm : mask b = true).
  { apply list_elem_of_lookup_2, list_elem_of_In, filter_In in Hj. tauto. }
  destruct (df_lookup_balance to_numeric_other to_datetime_utc to_datetime_Ybd
              balance_file expense_file j b Hj) as (r & Hu & Hr).
  eexists. split; [exact Hu|].
  destruct (fallback_row_keeps (rederive_row r)) as (_ & _ & -> & _).
  assert (Hid : c_Transaction_Id (base (fallback_row (rederive_row r)))
                = c_Transaction_Id r).
  { unfold fallback_row. destruct (_ && _); destruct (_ && _); reflexivity. }
  rewrite Hid.
  assert (Hr' : c_Transaction_Id r = txn_col b
                /\ adj_mask r = adj_mask (bf_row b)
                /\ c_Employee r = c_Employee (bf_row b)).
  { destruct Hr as [-> | ->]; repeat split. }
  destruct Hr' as (-> & Ha' & He'). split; [reflexivity|].
  cbn [Financial.rederive_row c_User]. rewrite Ha', He'.
  assert (Ha : adj_mask (bf_row b) = false).
  { unfold adj_mask, type_upper. cbn [Financial.bf_row c_Type].
    pose proof (mask_types b Hm) as Ht.
    destruct Ht as [H | [H | [H | H]]]; try contradiction; rewrite H; reflexivity. }
  rewrite Ha. cbn [Financial.bf_row c_Employee].
  unfold str_extract.
  destruct (search false (astype_str (desc_col b))) as [g|] eqn:E.
  - exfalso. apply ExtractFacts.search_sound in E as (pre & ws & rest & Ho & _).
    exact (Hno _ _ _ _ Ho).
  - reflexivity.
Qed.

(** *** The user column *)

Lemma rederive_user (table : list Row) (u : Unified) :
  In u (rederive table) ->
  c_User u = "Adjustments" \/ exists employee, c_User u = display_name employee.
Proof.
  intros Hin. apply In_rederive in Hin as (r & _ & ->).
  destruct (fallback_row_keeps (rederive_row r)) as (_ & _ & -> & _).
  cbn [Financial.rederive_row c_User].
  destruct (adj_mask r); [left | right; eexists]; reflexivity.
Qed.

(** X8. The User of every row the unifier puts out, whatever the table
    it is given, is a name in normal form: no blank at either end, blanks
    only as single spaces, and the trim and title case of the user filter
    (line 327) give it back unchanged. *)
Theorem user_is_in_normal_form (table : list Row) (u : Unified) :
  In u (rederive table) ->
  Py.strip (c_User u) = c_User u
  /\ Dashboard.single_spaced (c_User u) = true
  /\ Dashboard.filter_user (c_User u) = c_User u
  /\ Dashboard.set_User (Dashboard.filter_user (c_User u)) u = u.
Proof.
  intros Hin.
  assert (H : Py.strip (c_User u) = c_User u
              /\ Dashboard.single_spaced (c_User u) = true
              /\ Dashboard.filter_user (c_User u) = c_User u).
  { apply rederive_user in Hin as [-> | (employee & ->)].
    - repeat split; reflexivity.
    - split; [apply NameFacts.display_name_strip|].
      split; [apply NameFacts.display_name_single_spaced|].
      unfold display_name. apply NameFacts.filter_user_title_strip. }
  destruct H as (H1 & H2 & H3). repeat split; try assumption.
  rewrite H3. destruct u. reflexivity.
Qed.

(** *** The filters *)

Lemma rederive_month (table : list Row) (u : Unified) :
  In u (rederive table) ->
  c_Month (base u) = dt_month_upper (c_Time (base u)).
Proof.
  intros Hin. apply In_rederive in Hin as (r & _ & ->).
  unfold fallback_row.
  destruct (missing_mask (rederive_row r) && bool_decide (t_upper (rederive_row r) ∈ debit_types));
    destruct (missing_mask _ && bool_decide (t_upper (rederive_row r) ∈ credit_types));
    reflexivity.
Qed.

Lemma retitle_fixed (table : list Row) (u : Unified) :
  In u (rederive table) ->
  Dashboard.set_User (Dashboard.filter_user (c_User u)) u = u
  /\ Dashboard.set_User (Py.strip (c_User u)) u = u.
Proof.
  intros Hin.
  assert (H : Dashboard.filter_user (c_User u) = c_User u
              /\ Py.strip (c_User u) = c_User u).
  { apply rederive_user in Hin as [-> | (employee & ->)].
    - split; reflexivity.
    - split; [apply NameFacts.filter_user_title_strip
             | apply NameFacts.display_name_strip]. }
  destruct H as [-> ->]. destruct u. split; reflexivity.
Qed.

Lemma map_fixed {A : Type} (f : A -> A) (l : list A) :
  (forall x, In x l -> f x = x) -> map f l = l.
Proof.
  intros H. rewrite <- (map_id l) at 2. now apply map_ext_in.
Qed.

(** X9. With "ALL" among the months, the years and the types picked (or
    no type picked), and "All" among the users (or no user picked), the
    filtered table is the unified table without the rows whose time did
    not parse: their month is missing and is in no list of months. *)
Theorem all_filters_keep_timed_rows (table : list Row)
    (selected_months selected_years selected_types selected_users : list string) :
  In "ALL" selected_months ->
  In "ALL" selected_years ->
  In "ALL" selected_types \/ selected_types = [] ->
  In "All" selected_users \/ selected_users = [] ->
  Dashboard.filtered_df selected_users
    (Dashboard.base_filtered selected_months selected_years selected_types
       (rederive table))
  = List.filter (fun u => bool_decide (is_Some (c_Time (base u)))) (rederive table).
Proof.
  intros Hm Hy Ht Hu.
  unfold Dashboard.filtered_df.
  assert (E : bool_decide ("All" ∈ selected_users)
              || (length selected_users =? 0)%nat = true).
  { destruct Hu as [Hu | ->]; [|apply orb_true_r].
    apply orb_true_iff. left. apply bool_decide_eq_true.
    now apply list_elem_of_In. }
  rewrite E. clear E Hu.
  unfold Dashboard.base_filtered, Dashboard.selected_or_all,
    Dashboard.selected_or_all_or_none.
  rewrite !(bool_decide_eq_true_2 ("ALL" ∈ _)) by now apply list_elem_of_In.
  assert (E : bool_decide ("ALL" ∈ selected_types)
              || (length selected_types =? 0)%nat = true).
  { destruct Ht as [Ht | ->]; [|apply orb_true_r].
    apply orb_true_iff. left. apply bool_decide_eq_true.
    now apply list_elem_of_In. }
  rewrite E. clear E Ht.
  rewrite map_fixed.
  2:{ intros u [Hin _]%filter_In. now apply retitle_fixed in Hin. }
  apply filter_ext_in. intros u Hin.
  rewrite (bool_decide_eq_true_2 (c_Year (base u) ∈ _)).
  2:{ unfold Dashboard.all_years. apply elem_of_list_to_set, list_elem_of_In.
      now apply (in_map (fun u => c_Year (base u))). }
  rewrite (bool_decide_eq_true_2 (c_Type (base u) ∈ _)).
  2:{ unfold Dashboard.all_types. apply elem_of_list_to_set, list_elem_of_In.
      now apply (in_map (fun u => c_Type (base u))). }
  rewrite !andb_true_r.
  pose proof (rederive_month _ _ Hin) as Hmonth.
  destruct (c_Time (base u)) as [t|] eqn:Et; rewrite Hmonth; cbn [dt_month_upper].
  - cbn [Dashboard.cell_isin].
    rewrite bool_decide_eq_true_2; [symmetry; apply bool_decide_eq_true_2; eauto|].
    unfold Dashboard.all_months. apply elem_of_list_to_set, list_elem_of_omap.
    exists u. split; [now apply list_elem_of_In|].
    rewrite Hmonth. reflexivity.
  - cbn [Dashboard.cell_isin]. symmetry. apply bool_decide_eq_false_2.
    intros [? ?]. discriminate.
Qed.

(** X10. With "Sales Team" picked and "All" not, a row is kept exactly
    when its user contains one of the seven keywords, whatever the case
    of the letters, or is one of the other names picked. *)
Theorem sales_team_filter (selected_users : list string)
    (base_filtered : list Unified) (u : Unified) :
  ~ In "All" selected_users ->
  In "Sales Team" selected_users ->
  (In u (Dashboard.filtered_df selected_users base_filtered) <->
   In u base_filtered
   /\ ((exists k, In k Dashboard.sales_team_keywords
          /\ Py.contains (Py.lower k) (Py.lower (c_User u)) = true)
       \/ (In (c_User u) selected_users /\ c_User u <> "Sales Team"))).
Proof.
  intros Hall Hsales. unfold Dashboard.filtered_df.
  rewrite (bool_decide_eq_false_2 ("All" ∈ selected_users))
    by now rewrite list_elem_of_In.
  destruct selected_users as [|s0 sel]; [contradiction|].
  cbn [length Nat.eqb orb].
  rewrite (bool_decide_eq_true_2 ("Sales Team" ∈ _)) by now apply list_elem_of_In.
  rewrite filter_In.
  enough (H : In u base_filtered ->
              (bool_decide (c_User u ∈
                 (list_to_set (List.filter Dashboard.is_sales (map c_User base_filtered))
                  ∪ list_to_set
                      (List.filter (fun u => negb (isin u ["All"; "Sales Team"]))
                         (s0 :: sel)) : gset string)) = true
               <-> (exists k, In k Dashboard.sales_team_keywords
                      /\ Py.contains (Py.lower k) (Py.lower (c_User u)) = true)
                   \/ (In (c_User u) (s0 :: sel) /\ c_User u <> "Sales Team"))).
  { split; intros [H1 H2]; (split; [exact H1|]); now apply (H H1). }
  intros Hin.
  rewrite bool_decide_eq_true, elem_of_union, !elem_of_list_to_set,
    !list_elem_of_In, !filter_In.
  unfold Dashboard.is_sales. rewrite existsb_exists.
  unfold isin. rewrite negb_true_iff, bool_decide_eq_false.
  rewrite !elem_of_cons, elem_of_nil.
  split.
  - intros [[_ H] | [H1 H2]]; [left; exact H|].
    right. split; [exact H1|]. intros E. apply H2. auto.
  - intros [H | [H1 H2]].
    + left. split; [|exact H]. now apply (in_map c_User).
    + right. split; [exact H1|].
      intros [E | [E | []]]; [|contradiction].
      apply Hall. rewrite <- E. exact H1.
Qed.

(** *** The chart columns *)

Lemma df_rows (balance_file : list BalanceRow) (expense_file : ExpenseFile)
    (u : Unified) :
  In u (df balance_file expense_file) ->
  ((c_Type (base u) = "CARD" \/ c_Type (base u) = "PAYOUT"
    \/ c_Type (base u) = "ADJUSTMENT")
   /\ c_Debit_Net_Amount (base u) = c_Amount (base u)
   /\ c_Credit_Net_Amount (base u) = 0%Q)
  \/ ((c_Type (base u) = "DEPOSIT" \/ c_Type (base u) = "CARD_REFUND")
      /\ c_Debit_Net_Amount (base u) = 0%Q
      /\ c_Credit_Net_Amount (base u) = c_Amount (base u)).
Proof.
  intros Hin.
  assert (Hb : In (base u) (final_dataframe balance_file expense_file)).
  { rewrite <- (map_base_df balance_file expense_file).
    now apply (in_map base). }
  now apply final_dataframe_rows in Hb.
Qed.

(** X11. On a row of the unified table the amount the charts use is the
    Amount itself, but for a card refund, where it is zero: the column is
    the credit for a deposit and the debit for every other type, and a
    card refund has no debit. *)
Theorem chart_final_amount (balance_file : list BalanceRow)
    (expense_file : ExpenseFile) (u : Unified) :
  In u (df balance_file expense_file) ->
  Dashboard.Final_Amount u
  = if String.eqb (c_Type (base u)) "CARD_REFUND" then 0%Q else c_Amount (base u).
Proof.
  intros Hin. unfold Dashboard.Final_Amount.
  destruct (df_rows _ _ _ Hin) as [(Ht & Hd & Hc) | (Ht & Hd & Hc)].
  - rewrite Hd. destruct Ht as [-> | [-> | ->]]; reflexivity.
  - rewrite Hd, Hc. destruct Ht as [-> | ->]; reflexivity.
Qed.

(** X12. The pie of spend by user is drawn from the rows of the filtered
    table that are card, payout or adjustment rows with an amount above
    zero and a user that is not the empty text; a deposit, a card refund
    or a row with a zero or negative amount is never in it. *)
Theorem pie_source_rows (balance_file : list BalanceRow)
    (expense_file : ExpenseFile) (filtered : list Unified) (u : Unified) :
  (forall v, In v filtered -> In v (df balance_file expense_file)) ->
  (In u (Dashboard.pie_source filtered) <->
   In u filtered
   /\ In (c_Type (base u)) ["CARD"; "PAYOUT"; "ADJUSTMENT"]
   /\ (0 < c_Amount (base u))%Q
   /\ c_User u <> "").
Proof.
  intros Hsub. unfold Dashboard.pie_source.
  rewrite map_fixed.
  2:{ intros v [Hv _]%filter_In. apply Hsub in Hv. unfold Financial.df in Hv.
      now apply retitle_fixed in Hv. }
  rewrite !filter_In.
  enough (H : In u filtered ->
              (Dashboard.pie_mask_types u && Dashboard.pie_mask_amt u = true
               <-> In (c_Type (base u)) ["CARD"; "PAYOUT"; "ADJUSTMENT"]
                   /\ (0 < c_Amount (base u))%Q)).
  { rewrite negb_true_iff, String.eqb_neq.
    split.
    - intros [[H1 H2] H3]. apply (H H1) in H2. tauto.
    - intros (H1 & H2 & H3 & H4). repeat split; try assumption.
      apply (H H1). auto. }
  intros Hu. apply Hsub in Hu.
  unfold Dashboard.pie_mask_types, Dashboard.pie_mask_amt.
  rewrite andb_true_iff, !negb_true_iff.
  assert (Hlt : forall q : Q, Qle_bool q 0 = false <-> (0 < q)%Q).
  { intros q. rewrite <- not_true_iff_false, Qle_bool_iff. split.
    - apply Qnot_le_lt.
    - apply Qlt_not_le. }
  rewrite Hlt.
  destruct (df_rows _ _ _ Hu) as [(Ht & Hd & Hc) | (Ht & Hd & Hc)]; rewrite Hd.
  - split; [intros [_ H]; split; [|exact H] | intros [_ H]; split; [|exact H]].
    + destruct Ht as [-> | [-> | ->]]; cbn; auto.
    + destruct Ht as [-> | [-> | ->]]; reflexivity.
  - split.
    + intros [H _]. destruct Ht as [E | E]; rewrite E in H; discriminate H.
    + intros [H _]. exfalso.
      destruct Ht as [E | E]; rewrite E in H; cbn in H;
        intuition discriminate.
Qed.

End DashboardFacts.


(** ** The header row of a subscription export *)

Module HeaderFacts.
Import Pd Subscription Header.

(** *** The scan for the header row *)

Lemma first_header_spec (rows : list (list (option string))) (i0 : nat) :
  match first_header i0 rows with
  | Some i =>
      (i0 <= i < i0 + length rows)%nat
      /\ header_like (nth (i - i0) rows []) = true
      /\ forall j, (j < i - i0)%nat -> header_like (nth j rows []) = false
  | None => forall j, (j < length rows)%nat -> header_like (nth j rows []) = false
  end.
Proof.
  revert i0. induction rows as [|row rest IH]; intros i0; cbn [first_header].
  - intros j Hj. cbn in Hj. lia.
  - destruct (header_like row) eqn:E.
    + rewrite Nat.sub_diag. cbn [length nth]. split; [lia|]. split; [exact E|].
      intros j Hj. lia.
    + specialize (IH (S i0)). destruct (first_header (S i0) rest) as [i|].
      * destruct IH as (Hi & Hh & Hbefore). cbn [length].
        split; [lia|].
        replace (i - i0)%nat with (S (i - S i0)) by lia. cbn [nth].
        split; [exact Hh|].
        intros [|j] Hj; [exact E|]. apply Hbefore. lia.
      * intros [|j] Hj; [exact E|]. cbn [nth]. apply IH. cbn in Hj. lia.
Qed.

Lemma nth_firstn {A : Type} (l : list A) (n j : nat) (d : A) :
  (j < n)%nat -> nth j (firstn n l) d = nth j l d.
Proof.
  revert n j. induction l as [|x l IH]; intros n j Hj.
  - now rewrite firstn_nil.
  - destruct n as [|n]; [lia|]. destruct j as [|j]; [reflexivity|].
    cbn. apply IH. lia.
Qed.

(** X13. The header row is the first of the first sixty rows that has a
    date column, a description-like column and an amount-like column;
    when none of them has, it is row 0.  A header further down than row
    59 is never found. *)
Theorem header_idx_is_first_header_like (raw : list (list (option string))) :
  (header_idx raw < 60)%nat
  /\ ((header_like (nth (header_idx raw) raw []) = true
       /\ (header_idx raw < length raw)%nat
       /\ forall j, (j < header_idx raw)%nat -> header_like (nth j raw []) = false)
      \/ (header_idx raw = 0%nat
          /\ forall j, (j < Nat.min (length raw) 60)%nat ->
                       header_like (nth j raw []) = false)).
Proof.
  unfold header_idx.
  pose proof (first_header_spec (firstn (Nat.min (length raw) 60) raw) 0) as H.
  rewrite length_firstn in H.
  replace (Nat.min (Nat.min (length raw) 60) (length raw))
    with (Nat.min (length raw) 60) in H by lia.
  destruct (first_header 0 _) as [i|].
  - destruct H as (Hi & Hh & Hbefore). rewrite Nat.sub_0_r in *.
    split; [lia|]. left.
    rewrite nth_firstn in Hh by lia.
    split; [exact Hh|]. split; [lia|].
    intros j Hj. rewrite <- (nth_firstn raw (Nat.min (length raw) 60)) by lia.
    now apply Hbefore.
  - split; [lia|]. right. split; [reflexivity|].
    intros j Hj. rewrite <- (nth_firstn raw (Nat.min (length raw) 60)) by lia.
    now apply H.
Qed.

(** *** The resolution of the columns *)

Lemma find_some {A : Type} (p : A -> bool) (l : list A) (x : A) :
  List.find p l = Some x <->
  exists before after, l = (before ++ x :: after)%list /\ p x = true
                       /\ forall y, In y before -> p y = false.
Proof.
  induction l as [|a l IH]; cbn [List.find].
  - split; [discriminate|]. intros (before & after & H & _).
    destruct before; discriminate H.
  - destruct (p a) eqn:E.
    + split.
      * intros [= <-]. exists [], l. repeat split; [exact E|]. intros y [].
      * intros (before & after & H & Hx & Hb).
        destruct before as [|b before]; cbn in H; injection H as -> ->; [reflexivity|].
        rewrite Hb in E by (left; reflexivity). discriminate.
    + rewrite IH. split.
      * intros (before & after & -> & Hx & Hb).
        exists (a :: before), after. repeat split; [exact Hx|].
        intros y [<- | Hy]; [exact E | now apply Hb].
      * intros (before & after & H & Hx & Hb).
        destruct before as [|b before]; cbn in H; injection H as -> ->.
        -- congruence.
        -- exists before, after. repeat split; [exact Hx|].
           intros y Hy. apply Hb. now right.
Qed.

Lemma find_none_iff {A : Type} (p : A -> bool) (l : list A) :
  List.find p l = None <-> forall y, In y l -> p y = false.
Proof.
  split; [apply find_none|].
  induction l as [|a l IH]; [reflexivity|]. intros H. cbn.
  rewrite (H a) by (left; reflexivity). apply IH.
  intros y Hy. apply H. now right.
Qed.

Lemma answers_iff (cands : list string) (c : option string) :
  bool_decide (_norm c ∈ (list_to_set (map (fun x => _norm (Some x)) cands) : gset string))
  = true <-> answers cands c.
Proof.
  rewrite bool_decide_eq_true, elem_of_list_to_set, list_elem_of_In, in_map_iff.
  unfold answers. split; intros (x & H1 & H2); exists x; auto.
Qed.

Lemma find_on_header (header : list (option string)) (cands : list string) :
  _find header cands
  = List.find
      (fun c => bool_decide
                  (_norm c ∈ (list_to_set (map (fun x => _norm (Some x)) cands)
                              : gset string)))
      header.
Proof.
  unfold _find, cols_norm. cbv zeta.
  induction header as [|c rest IH]; [reflexivity|].
  cbn. destruct (bool_decide _); [reflexivity | exact IH].
Qed.

(** X14. [_find] gives the leftmost label whose normal form is that of
    one of the candidates, and Python's [None] when no label has one.
    The order of the candidates plays no part: where "Amount" stands left
    of "Debit (AUD)", the amount column is "Amount". *)
Theorem find_is_leftmost_column (header : list (option string)) (cands : list string) :
  (forall c,
     _find header cands = Some c <->
     exists before after,
       header = (before ++ c :: after)%list
       /\ answers cands c
       /\ forall c', In c' before -> ~ answers cands c')
  /\ (_find header cands = None <-> forall c, In c header -> ~ answers cands c)
  /\ (forall cands',
        (forall x, In x cands <-> In x cands') ->
        _find header cands' = _find header cands).
Proof.
  rewrite find_on_header.
  split; [|split].
  - intros c. rewrite find_some. split.
    + intros (before & after & -> & Hc & Hb). exists before, after.
      split; [reflexivity|]. split; [now apply answers_iff|].
      intros c' Hc' Ha. apply answers_iff in Ha.
      rewrite (Hb c' Hc') in Ha. discriminate.
    + intros (before & after & -> & Hc & Hb). exists before, after.
      split; [reflexivity|]. split; [now apply answers_iff|].
      intros c' Hc'. apply not_true_iff_false. rewrite answers_iff. now apply Hb.
  - rewrite find_none_iff. split.
    + intros H c Hc Ha. apply answers_iff in Ha. rewrite (H c Hc) in Ha. discriminate.
    + intros H c Hc. apply not_true_iff_false. rewrite answers_iff. now apply H.
  - intros cands' Hsame. rewrite find_on_header.
    assert (E : forall c, bool_decide (_norm c ∈ (list_to_set (map (fun x => _norm (Some x)) cands') : gset string))
                = bool_decide (_norm c ∈ (list_to_set (map (fun x => _norm (Some x)) cands) : gset string))).
    { intros c. apply eq_true_iff_eq. rewrite !answers_iff. unfold answers.
      split; intros (x & H1 & H2); exists x; split; auto; now apply Hsame. }
    induction header as [|c rest IH]; [reflexivity|].
    cbn [List.find]. rewrite E. destruct (bool_decide _); [reflexivity | exact IH].
Qed.

End HeaderFacts.


(** ** [_prepare], row by row *)

Section PrepareMore.
Import Pd Subscription.

Variable to_numeric_other : string -> option float64.
Variable to_datetime_dayfirst : string -> option Timestamp.

Abbreviation to_numeric_float := (Pd.to_numeric_float to_numeric_other).
Abbreviation _parse_date := (Subscription._parse_date to_datetime_dayfirst).
Abbreviation _prepare := (Subscription._prepare to_numeric_other to_datetime_dayfirst).
Abbreviation pipeline := (Subscription.pipeline to_numeric_other to_datetime_dayfirst).
Abbreviation prepare_row := (Rowwise.prepare_row to_numeric_other to_datetime_dayfirst).

Lemma prepare_omap (df : Input) :
  _prepare df = omap (prepare_row (has_Source df)) (input_rows df).
Proof.
  destruct df as [hs f]. unfold Subscription._prepare.
  cbn [has_Source input_rows].
  induction f as [|[i r] f IH]; [destruct hs; reflexivity|].
  cbn [omap list_omap Rowwise.prepare_row]. rewrite <- IH. clear IH.
  unfold keep_spend, frame_filter.
  destruct hs; cbn [andb List.filter snd].
  - destruct (spend_money r) eqn:Es; cbn [negb]; [|reflexivity].
    cbn [List.filter snd]. rewrite Es.
    unfold parse_dates, dropna_Date, coerce_amount, keep_positive,
      parse_dates_again, frame_map.
    cbn [map omap list_omap fst snd].
    destruct (Subscription._parse_date _ (o_Date r)) as [t|]; [|reflexivity].
    cbn [map omap list_omap fst snd].
    destruct (Pd.to_numeric_float _ _) as [x|]; [|reflexivity].
    destruct (positive (Some x)); reflexivity.
  - unfold parse_dates, dropna_Date, coerce_amount, keep_positive,
      parse_dates_again, frame_map.
    cbn [map omap list_omap fst snd].
    destruct (Subscription._parse_date _ (o_Date r)) as [t|]; [|reflexivity].
    cbn [map omap list_omap fst snd].
    destruct (Pd.to_numeric_float _ _) as [x|]; [|reflexivity].
    destruct (positive (Some x)); reflexivity.
Qed.

Lemma prepare_row_some (hs : bool) (i j : nat) (r : OutRow) (p : Record_) :
  prepare_row hs (i, r) = Some (j, p) <->
  j = i
  /\ (hs = true -> spend_money r = true)
  /\ exists t x,
       _parse_date (o_Date r) = Some t
       /\ to_numeric_float (o_Debit_AUD r) = Some x
       /\ ((exists q, x = finite q /\ (0 < q)%Q) \/ x = infinite false)
       /\ p = finish (t, (x, r)).
Proof.
  cbn [Rowwise.prepare_row]. split.
  - destruct (hs && negb (spend_money r)) eqn:E; [discriminate|].
    destruct (Subscription._parse_date _ (o_Date r)) as [t|]; [|discriminate].
    destruct (Pd.to_numeric_float _ _) as [x|]; [|discriminate].
    destruct (positive (Some x)) eqn:Ep; [|discriminate].
    intros [= <- <-]. split; [reflexivity|]. split.
    + intros ->. cbn in E. now apply negb_false_iff in E.
    + exists t, x. repeat split. now apply positive_iff.
  - intros (-> & Hs & t & x & -> & -> & Hx & ->).
    apply positive_iff in Hx. rewrite Hx.
    destruct hs; [|reflexivity]. rewrite Hs; reflexivity.
Qed.

Lemma sublist_omap_fst (hs : bool) (f : Frame OutRow) :
  sublist (map fst (omap (prepare_row hs) f)) (map fst f).
Proof.
  induction f as [|[i r] f IH]; [constructor|].
  cbn [omap list_omap map fst].
  destruct (prepare_row hs (i, r)) as [[j p]|] eqn:E.
  - apply prepare_row_some in E as (-> & _). cbn [map fst].
    now apply sublist_skip.
  - now apply sublist_cons.
Qed.

(** X15. A record with the label [i] comes out of [_prepare] exactly when
    the input has a row with that label whose date parses and whose
    amount text reads as a number above zero (a finite number above zero,
    or the infinity above zero), and which, where the input has a
    "Source" column, is a "spend money" row; the record is then the one
    built from that row.  The labels come out in the order they went in,
    none of them a new one. *)
Theorem prepare_keeps_exactly_the_dated_positive_rows (df : Input) :
  (forall i p,
     In (i, p) (_prepare df) <->
     exists r t x,
       In (i, r) (input_rows df)
       /\ (has_Source df = true -> spend_money r = true)
       /\ _parse_date (o_Date r) = Some t
       /\ to_numeric_float (o_Debit_AUD r) = Some x
       /\ ((exists q, x = finite q /\ (0 < q)%Q) \/ x = infinite false)
       /\ p = finish (t, (x, r)))
  /\ sublist (map fst (_prepare df)) (map fst (input_rows df)).
Proof.
  rewrite prepare_omap. split; [|apply sublist_omap_fst].
  intros i p. rewrite <- list_elem_of_In, list_elem_of_omap. split.
  - intros ([j r] & Hin & H). apply list_elem_of_In in Hin.
    apply prepare_row_some in H as (-> & Hs & t & x & H).
    exists r, t, x. tauto.
  - intros (r & t & x & Hin & Hs & H). exists (i, r).
    split; [now apply list_elem_of_In|].
    apply prepare_row_some. split; [reflexivity|]. split; [exact Hs|].
    exists t, x. exact H.
Qed.

(** X16. Where no type column was found, and where the type cell of a row
    is missing, the record of the row has the type "No Category Found":
    the filler goes through the category normalisation unchanged. *)
Theorem missing_type_is_no_category_found (src : Source) (i : nat) (p : Record_) :
  In (i, p) (pipeline src) ->
  exists r,
    In (i, r) (source_rows src)
    /\ p_Type p = _canon_type (if has_type_col src then fill_type (type_col r)
                               else "No Category Found")
    /\ (has_type_col src = false \/ isna (type_col r) = true ->
        p_Type p = "No Category Found").
Proof.
  unfold Subscription.pipeline. rewrite prepare_omap.
  rewrite <- list_elem_of_In, list_elem_of_omap.
  intros ([j r] & Hin & H).
  apply prepare_row_some in H as (-> & _ & t & q & _ & _ & _ & ->).
  apply list_elem_of_In in Hin.
  unfold _standardise_columns, frame_map in Hin. cbn [input_rows] in Hin.
  apply in_map_iff in Hin as ([i' sr] & [= <- <-] & Hin).
  exists sr. split; [exact Hin|]. cbn [finish p_Type out_row o_Type fst snd].
  split; [reflexivity|].
  assert (E : _canon_type "No Category Found" = "No Category Found")
    by (vm_compute; reflexivity).
  intros [-> | Hna]; [exact E|].
  destruct (has_type_col src); [|exact E].
  destruct (type_col sr); try discriminate Hna; exact E.
Qed.

End PrepareMore.


(** ** Vendors *)

Module VendorFacts.
Import Py Pd Subscription PyFacts.

Lemma before_first_no_sep (sep : ascii) (s : string) :
  has_char (Ascii.eqb sep) (before_first sep s) = false.
Proof.
  induction s as [|c r IH]; [reflexivity|]. cbn [before_first].
  destruct (Ascii.eqb c sep) eqn:E; [reflexivity|].
  cbn [has_char]. rewrite IH, Ascii.eqb_sym, E. reflexivity.
Qed.

Lemma before_first_fixed (sep : ascii) (s : string) :
  has_char (Ascii.eqb sep) s = false -> before_first sep s = s.
Proof.
  induction s as [|c r IH]; [reflexivity|]. cbn [has_char before_first].
  intros [H1 H2]%orb_false_iff. rewrite Ascii.eqb_sym, H1. now rewrite IH.
Qed.

Lemma has_char_lstrip_false (p : ascii -> bool) (s : string) :
  has_char p s = false -> has_char p (lstrip s) = false.
Proof.
  induction s as [|c r IH]; [reflexivity|]. cbn [has_char lstrip].
  intros [H1 H2]%orb_false_iff.
  destruct (is_space c); [now apply IH|]. cbn [has_char]. now rewrite H1, H2.
Qed.

Lemma has_char_rstrip_false (p : ascii -> bool) (s : string) :
  has_char p s = false -> has_char p (rstrip s) = false.
Proof.
  induction s as [|c r IH]; [reflexivity|]. cbn [has_char rstrip].
  intros [H1 H2]%orb_false_iff. specialize (IH H2).
  destruct (rstrip r) as [|d r'].
  - destruct (is_space c); [reflexivity|]. cbn [has_char]. now rewrite H1.
  - cbn [has_char] in *. now rewrite H1, IH.
Qed.

Lemma startswith_rstrip (s : string) : startswith s (rstrip s) = true.
Proof.
  induction s as [|c r IH]; [reflexivity|]. cbn [rstrip].
  destruct (rstrip r) as [|d r'].
  - destruct (is_space c); [reflexivity|]. cbn. now rewrite Ascii.eqb_refl.
  - cbn [startswith]. now rewrite Ascii.eqb_refl, IH.
Qed.

Lemma startswith_lstrip_fixed (s : string) :
  lstrip s = s -> forall t, startswith s t = true -> lstrip t = t.
Proof.
  intros Hs t Ht. destruct t as [|c t']; [reflexivity|].
  destruct s as [|d s']; [discriminate Ht|]. cbn [startswith] in Ht.
  apply andb_true_iff in Ht as [Hc _]. apply Ascii.eqb_eq in Hc. subst d.
  cbn [lstrip] in *. destruct (is_space c) eqn:E; [|reflexivity].
  exfalso.
  assert (Hlen : forall x, (String.length (lstrip x) <= String.length x)%nat).
  { induction x as [|a x IH]; [cbn; lia|]. cbn [lstrip].
    destruct (is_space a); cbn [String.length] in *; lia. }
  specialize (Hlen s'). rewrite Hs in Hlen. cbn [String.length] in Hlen. lia.
Qed.

Lemma startswith_before_first (sep : ascii) (s : string) :
  startswith s (before_first sep s) = true.
Proof.
  induction s as [|c r IH]; [reflexivity|]. cbn [before_first].
  destruct (Ascii.eqb c sep); [reflexivity|].
  cbn [startswith]. now rewrite Ascii.eqb_refl, IH.
Qed.

Lemma startswith_trans (x a : string) :
  startswith x a = true ->
  forall p, startswith (lower a) p = true -> startswith (lower x) p = true.
Proof.
  revert x. induction a as [|c a IH]; intros x Hx p Hp.
  - destruct p; [|discriminate Hp]. now destruct (lower x).
  - destruct x as [|d x]; [discriminate Hx|]. cbn [startswith] in Hx.
    apply andb_true_iff in Hx as [Hc Hx]. apply Ascii.eqb_eq in Hc. subst d.
    destruct p as [|e p]; [reflexivity|].
    change (lower (String c a)) with (String (lower_char c) (lower a)) in Hp.
    change (lower (String c x)) with (String (lower_char c) (lower x)).
    cbn [startswith] in *. apply andb_true_iff in Hp as [-> Hp].
    cbn [andb]. now apply (IH x Hx).
Qed.

Lemma lstrip_strip (s : string) : lstrip (strip s) = strip s.
Proof. unfold strip. now rewrite lstrip_rstrip, lstrip_idem. Qed.

Lemma rstrip_strip (s : string) : rstrip (strip s) = strip s.
Proof. unfold strip. apply rstrip_idem. Qed.

Lemma startswith_chain (x a b : string) :
  startswith x a = true -> startswith a b = true -> startswith x b = true.
Proof.
  revert x a. induction b as [|c b IH]; intros x a Hxa Hab.
  - now destruct x.
  - destruct a as [|d a]; [discriminate Hab|].
    destruct x as [|e x]; [discriminate Hxa|].
    cbn [startswith] in *.
    apply andb_true_iff in Hxa as [H1 Hxa]. apply andb_true_iff in Hab as [H2 Hab].
    apply Ascii.eqb_eq in H1, H2. subst. rewrite Ascii.eqb_refl.
    now apply (IH x a).
Qed.

Lemma clean_vendor_cases (v : cell) :
  _clean_vendor v = "Unknown"
  \/ _clean_vendor v = "Airwallex Expenses"
  \/ exists x,
       strip x = x
       /\ startswith (lower x) "airwallex expenses" = false
       /\ _clean_vendor v = strip (before_first "-" x).
Proof.
  unfold _clean_vendor. destruct (isna v); [auto|].
  destruct (startswith _ _) eqn:E; [auto|].
  right. right. eexists. split; [apply strip_idem|]. split; [exact E | reflexivity].
Qed.

(** X17. The vendor of a description is a name in normal form: it holds
    no dash and no blank at either end, and cleaning it again changes
    nothing. *)
Theorem clean_vendor_normal_form (v : cell) :
  has_char (Ascii.eqb "-") (_clean_vendor v) = false
  /\ strip (_clean_vendor v) = _clean_vendor v
  /\ _clean_vendor (Str (_clean_vendor v)) = _clean_vendor v.
Proof.
  destruct (clean_vendor_cases v) as [-> | [-> | (x & Hx & E & ->)]];
    [repeat split; reflexivity | repeat split; reflexivity |].
  set (w := strip (before_first "-" x)).
  assert (Hdash : has_char (Ascii.eqb "-") w = false).
  { unfold w, strip. apply has_char_rstrip_false, has_char_lstrip_false,
      before_first_no_sep. }
  assert (Hstrip : strip w = w) by apply strip_idem.
  split; [exact Hdash|]. split; [exact Hstrip|].
  unfold _clean_vendor. cbn [isna astype_str]. rewrite Hstrip.
  assert (Hpre : startswith x w = true).
  { unfold w, strip.
    assert (Hl : lstrip x = x) by (rewrite <- Hx; apply lstrip_strip).
    rewrite (startswith_lstrip_fixed x Hl _ (startswith_before_first "-" x)).
    eapply startswith_chain; [apply startswith_before_first | apply startswith_rstrip]. }
  destruct (startswith (lower w) "airwallex expenses") eqn:Ew.
  - rewrite (startswith_trans x w Hpre _ Ew) in E. discriminate.
  - now rewrite (before_first_fixed "-" w Hdash).
Qed.

End VendorFacts.


(** ** The standardised frame *)

Module StandardiseFacts.
Import Pd Subscription Header.
Import HeaderFacts.

Lemma norm_raw_str (x : option string) : _norm (Some (raw_str x)) = _norm x.
Proof. reflexivity. Qed.

Lemma find_not_none (header : list (option string)) (cands : list string)
    (c : option string) :
  In c header -> answers cands c -> _find header cands <> None.
Proof.
  intros Hc Ha. rewrite find_on_header. intros H.
  apply find_none_iff with (y := c) in H; [|exact Hc].
  apply answers_iff in Ha. congruence.
Qed.

Lemma low_member (row : list (option string)) (k : string) :
  k ∈ map (fun x => _norm (Some (raw_str x))) row ->
  exists c, In c row /\ _norm c = k.
Proof.
  rewrite list_elem_of_In, in_map_iff. intros (c & H & Hc). eauto.
Qed.

Lemma inter_not_empty (X : gset string) (low : list string) :
  X ∩ list_to_set low <> (∅ : gset string) ->
  exists k, k ∈ X /\ k ∈ low.
Proof.
  intros H. apply set_choose_L in H as (k & Hk).
  apply elem_of_intersection in Hk as [H1 H2].
  apply elem_of_list_to_set in H2. eauto.
Qed.

(** A header-like row resolves the three required columns. *)
Lemma header_like_resolves (row : list (option string)) :
  header_like row = true ->
  _find row date_names <> None
  /\ _find row desc_names <> None
  /\ _find row amt_names <> None.
Proof.
  unfold header_like. intros H.
  apply andb_true_iff in H as [H Ha]. apply andb_true_iff in H as [Hd He].
  apply bool_decide_eq_true in Hd.
  apply negb_true_iff, bool_decide_eq_false in He, Ha.
  apply low_member in Hd as (c & Hc & Hn).
  apply inter_not_empty in He as (k & Hk & Hlow).
  apply low_member in Hlow as (e & Hein & Hen).
  apply inter_not_empty in Ha as (k' & Hk' & Hlow').
  apply low_member in Hlow' as (a & Hain & Han).
  split; [|split].
  - apply (find_not_none _ _ c Hc). exists "Date". split; [cbn; auto|].
    rewrite Hn. reflexivity.
  - apply (find_not_none _ _ e Hein). rewrite <- Hen in Hk.
    unfold description_like in Hk.
    rewrite !elem_of_union, !elem_of_singleton in Hk.
    destruct Hk as [[E | E] | E]; unfold answers; rewrite E.
    + exists "Description". split; [cbn; auto|]. reflexivity.
    + exists "Vendor". split; [cbn; auto|]. reflexivity.
    + exists "Details". split; [cbn; auto|]. reflexivity.
  - apply (find_not_none _ _ a Hain). rewrite <- Han in Hk'.
    unfold amount_like in Hk'.
    rewrite !elem_of_union, !elem_of_singleton in Hk'.
    destruct Hk' as [[[[E | E] | E] | E] | E]; unfold answers; rewrite E.
    + exists "Debit (AUD)". split; [cbn; auto|]. reflexivity.
    + exists "Amount". split; [cbn; auto 10|]. reflexivity.
    + exists "Amt". split; [cbn; auto 10|]. reflexivity.
    + exists "Value". split; [cbn; auto 10|]. reflexivity.
    + exists "Debit". split; [cbn; auto 10|]. reflexivity.
Qed.

Lemma header_idx_found (raw : list (list (option string))) (j : nat) :
  (j < Nat.min (length raw) 60)%nat ->
  header_like (nth j raw []) = true ->
  header_like (nth (header_idx raw) raw []) = true.
Proof.
  intros Hj Hh. unfold header_idx.
  pose proof (first_header_spec (firstn (Nat.min (length raw) 60) raw) 0) as H.
  rewrite length_firstn in H.
  replace (Nat.min (Nat.min (length raw) 60) (length raw))
    with (Nat.min (length raw) 60) in H by lia.
  destruct (first_header 0 _) as [i|].
  - destruct H as (Hi & H & _). rewrite Nat.sub_0_r in H.
    now rewrite nth_firstn in H by lia.
  - specialize (H j Hj). rewrite nth_firstn in H by lia. congruence.
Qed.

(** X18. Where one of the first sixty rows is header-like, the run is
    never stopped for a missing column: the row the scan settles on has
    the three required columns, by the very names the scan looks for.
    A stop names at least one column, and only happens with row 0 taken
    as the header. *)
Theorem header_found_never_stops (raw : list (list (option string))) :
  ((exists j, (j < Nat.min (length raw) 60)%nat
              /\ header_like (nth j raw []) = true) ->
   Header._standardise_columns raw = Several_columns
   \/ exists out, Header._standardise_columns raw = Standardised out)
  /\ (forall missing,
        Header._standardise_columns raw = Stopped missing ->
        missing <> []
        /\ incl missing ["Date"; "Description"; "Debit(AUD)"]
        /\ header_idx raw = 0%nat
        /\ forall j, (j < Nat.min (length raw) 60)%nat ->
                     header_like (nth j raw []) = false).
Proof.
  assert (Hfound :
    (exists j, (j < Nat.min (length raw) 60)%nat
               /\ header_like (nth j raw []) = true) ->
    Header._standardise_columns raw = Several_columns
    \/ exists out, Header._standardise_columns raw = Standardised out).
  { intros (j & Hj & Hh).
    pose proof (header_idx_found raw j Hj Hh) as H.
    apply header_like_resolves in H as (Hd & He & Ha).
    unfold Header._standardise_columns.
    destruct raw as [|row0 rest]; [cbn in Hj; lia|].
    destruct (_find _ date_names) as [d|]; [|contradiction].
    destruct (_find _ desc_names) as [e|]; [|contradiction].
    destruct (_find _ amt_names) as [a|]; [|contradiction].
    cbn [app mbind option_bind].
    destruct (the_column _ d); [|auto].
    destruct (the_column _ e); [|auto].
    destruct (the_column _ a); [|auto].
    destruct (_find _ type_names); [|eauto].
    destruct (the_column _ _); eauto. }
  split; [exact Hfound|].
  intros missing Hstop.
  assert (Hnone : forall j, (j < Nat.min (length raw) 60)%nat ->
                            header_like (nth j raw []) = false).
  { intros j Hj. destruct (header_like (nth j raw [])) eqn:E; [|reflexivity].
    destruct Hfound as [H | (out & H)]; [eauto | |]; congruence. }
  assert (Hidx : header_idx raw = 0%nat).
  { unfold header_idx.
    pose proof (first_header_spec (firstn (Nat.min (length raw) 60) raw) 0) as H.
    rewrite length_firstn in H.
    replace (Nat.min (Nat.min (length raw) 60) (length raw))
      with (Nat.min (length raw) 60) in H by lia.
    destruct (first_header 0 _) as [i|]; [|reflexivity].
    destruct H as (Hi & H & _). rewrite Nat.sub_0_r in H.
    rewrite nth_firstn in H by lia. rewrite Hnone in H by lia. discriminate. }
  unfold Header._standardise_columns in Hstop.
  destruct raw as [|row0 rest]; [discriminate|].
  destruct (_find _ date_names) as [d|];
    destruct (_find _ desc_names) as [e|];
    destruct (_find _ amt_names) as [a|];
    cbn [app] in Hstop;
    try (injection Hstop as <-;
         split; [discriminate|]; split; [|split; assumption];
         intros x Hx; cbn in Hx |- *; tauto).
  cbn [mbind option_bind] in Hstop.
  destruct (the_column _ d); [|discriminate].
  destruct (the_column _ e); [|discriminate].
  destruct (the_column _ a); [|discriminate].
  destruct (_find _ type_names); [|discriminate].
  destruct (the_column _ _); discriminate.
Qed.

(** *** The rows of the rebuilt frame *)

Lemma indexed_lookup {A : Type} (l : list A) (a m i : nat) (x : A) :
  combine (seq a (length l)) l !! m = Some (i, x) <-> i = (a + m)%nat /\ l !! m = Some x.
Proof.
  revert a m. induction l as [|y l IH]; intros a m; cbn [length seq combine].
  - split; [discriminate | intros [_ H]; discriminate H].
  - destruct m as [|m]; cbn [lookup list_lookup].
    + split; [intros [= <- <-]; split; [lia | reflexivity]|].
      intros [-> [= <-]]. f_equal. f_equal. lia.
    + change (combine (seq (S a) (length l)) l !! m = Some (i, x)
              <-> i = (a + S m)%nat /\ l !! m = Some x).
      rewrite IH. split; intros [-> H]; split; auto; lia.
Qed.

Lemma In_skipn_indexed {A : Type} (l : list A) (k i : nat) (x : A) :
  In (i, x) (skipn k (indexed l)) <-> (k <= i)%nat /\ l !! i = Some x.
Proof.
  rewrite <- list_elem_of_In, list_elem_of_lookup. unfold indexed. split.
  - intros (j & H). rewrite lookup_drop, indexed_lookup in H.
    destruct H as [-> H]. split; [lia | exact H].
  - intros [Hk H]. exists (i - k)%nat. rewrite lookup_drop, indexed_lookup.
    replace (k + (i - k))%nat with i by lia. auto.
Qed.

Lemma In_frame_map {A B : Type} (g : A -> B) (f : Frame A) (i : nat) (y : B) :
  In (i, y) (frame_map g f) <-> exists x, In (i, x) f /\ y = g x.
Proof.
  unfold frame_map. rewrite in_map_iff. split.
  - intros ([j x] & [= <- <-] & H). eauto.
  - intros (x & H & ->). exists (i, x). auto.
Qed.

Lemma not_all_missing (row : list (option string)) :
  negb (forallb isna (map blank_to_NA row)) = true
  <-> exists x, In x row /\ isna (blank_to_NA x) = false.
Proof.
  rewrite negb_true_iff, <- not_true_iff_false, forallb_forall. split.
  - intros H. induction row as [|x row IH].
    + exfalso. apply H. intros y [].
    + destruct (isna (blank_to_NA x)) eqn:E.
      * destruct IH as (y & Hy & Hn).
        { intros Hall. apply H. intros y [<- | Hy]; [exact E | now apply Hall]. }
        exists y. split; [now right | exact Hn].
      * exists x. split; [now left | exact E].
  - intros (x & Hx & Hn) Hall.
    rewrite Hall in Hn by (apply in_map; exact Hx). discriminate.
Qed.

Lemma rebuilt_labels (raw : list (list (option string))) (idx i : nat) :
  (exists row, In (i, row) (rebuilt raw idx)) <->
  (idx < i < length raw)%nat
  /\ exists x, In x (nth i raw []) /\ isna (blank_to_NA x) = false.
Proof.
  unfold rebuilt, frame_filter. split.
  - intros (row & H). apply filter_In in H as [H Hp]. cbn [snd] in Hp.
    apply In_frame_map in H as (row0 & H & ->).
    apply In_skipn_indexed in H as [Hk Hl].
    pose proof (lookup_lt_Some _ _ _ Hl) as Hlt.
    split; [lia|]. apply not_all_missing in Hp.
    now rewrite (nth_lookup_Some _ _ _ _ Hl).
  - intros (Hi & Hx).
    destruct (lookup_lt_is_Some_2 raw i) as (row0 & Hl); [lia|].
    rewrite (nth_lookup_Some _ _ _ _ Hl) in Hx.
    exists (map blank_to_NA row0). apply filter_In. split.
    + apply In_frame_map. exists row0. split; [|reflexivity].
      apply In_skipn_indexed. split; [lia | exact Hl].
    + cbn [snd]. now apply not_all_missing.
Qed.

Lemma standardised_rows (raw : list (list (option string))) (out : Input) :
  Header._standardise_columns raw = Standardised out ->
  has_Source out = false
  /\ forall i, (exists r, In (i, r) (input_rows out))
               <-> exists row, In (i, row) (rebuilt raw (header_idx raw)).
Proof.
  unfold Header._standardise_columns.
  destruct raw as [|row0 rest]; [discriminate|].
  set (raw := row0 :: rest).
  destruct (_find _ date_names) as [d|];
    destruct (_find _ desc_names) as [e|];
    destruct (_find _ amt_names) as [a|];
    cbn [app]; try discriminate.
  cbn [mbind option_bind].
  destruct (the_column _ d); [|discriminate].
  destruct (the_column _ e); [|discriminate].
  destruct (the_column _ a); [|discriminate].
  assert (H : forall b (g : list cell -> SourceRow) i,
            (exists r, In (i, r)
               (input_rows (Subscription._standardise_columns
                  (mkSource b (frame_map g (rebuilt raw (header_idx raw)))))))
            <-> exists row, In (i, row) (rebuilt raw (header_idx raw))).
  { intros b g i. unfold Subscription._standardise_columns.
    cbn [input_rows has_type_col source_rows]. split.
    - intros (r & H). apply In_frame_map in H as (sr & H & _).
      apply In_frame_map in H as (row & H & _). eauto.
    - intros (row & H). eexists. apply In_frame_map. eexists. split; [|reflexivity].
      apply In_frame_map. eauto. }
  destruct (_find _ type_names) as [t|].
  - destruct (the_column _ t); [|discriminate].
    intros [= <-]. split; [reflexivity|]. apply H.
  - intros [= <-]. split; [reflexivity|]. apply H.
Qed.

End StandardiseFacts.

Section PreambleFacts.
Import Pd Subscription Header.

Variable to_numeric_other : string -> option float64.
Variable to_datetime_dayfirst : string -> option Timestamp.

(** X19. The rows that reach the standardised frame are the rows of the
    file below the header row that have a cell other than a blank, each
    under the label it had in the file; there is no "Source" column, so
    [_prepare] never filters on it.  No row of the preamble, and not the
    header row, reaches the records. *)
Theorem preamble_never_reaches_the_records (raw : list (list (option string)))
    (out : Input) :
  Header._standardise_columns raw = Standardised out ->
  has_Source out = false
  /\ (forall i, (exists r, In (i, r) (input_rows out))
                <-> (header_idx raw < i < length raw)%nat
                    /\ exists x, In x (nth i raw [])
                                 /\ isna (blank_to_NA x) = false)
  /\ (forall i p,
        In (i, p) (Subscription._prepare to_numeric_other to_datetime_dayfirst out) ->
        (header_idx raw < i < length raw)%nat).
Proof.
  intros H. apply StandardiseFacts.standardised_rows in H as [Hs Hrows].
  split; [exact Hs|].
  assert (Hlab : forall i, (exists r, In (i, r) (input_rows out))
                           <-> (header_idx raw < i < length raw)%nat
                               /\ exists x, In x (nth i raw [])
                                            /\ isna (blank_to_NA x) = false).
  { intros i. rewrite Hrows. apply StandardiseFacts.rebuilt_labels. }
  split; [exact Hlab|].
  intros i p Hin. rewrite prepare_omap in Hin.
  apply list_elem_of_In, list_elem_of_omap in Hin as ([j r] & Hin & Hp).
  apply prepare_row_some in Hp as (-> & _).
  apply list_elem_of_In in Hin.
  apply (proj1 (Hlab j)). eauto.
Qed.

End PreambleFacts.


(** ** The filters of the subscription page *)

Section SidebarFacts.
Import Pd Subscription.

Variable to_numeric_other : string -> option float64.
Variable to_datetime_dayfirst : string -> option Timestamp.

Abbreviation _prepare := (Subscription._prepare to_numeric_other to_datetime_dayfirst).

Lemma filter_all {A : Type} (p : A -> bool) (l : list A) :
  (forall x, In x l -> p x = true) -> List.filter p l = l.
Proof.
  induction l as [|a l IH]; intros H; [reflexivity|]. cbn.
  rewrite (H a) by (left; reflexivity). f_equal. apply IH.
  intros x Hx. apply H. now right.
Qed.

Lemma prepared_month_name (df : Input) (i : nat) (p : Record_) :
  In (i, p) (_prepare df) -> In (p_Month_Name p) Sidebar.MONTH_ORDER.
Proof.
  rewrite prepare_omap, <- list_elem_of_In, list_elem_of_omap.
  intros ([j r] & _ & H).
  apply prepare_row_some in H as (_ & _ & t & q & _ & _ & _ & ->).
  cbn [finish p_Month_Name]. unfold strftime_b.
  destruct (ts_month t); cbn; auto 13.
Qed.

Lemma all_or_all (all sel : list string) :
  In "ALL" sel \/ sel = [] -> Sidebar.all_or all sel = all.
Proof.
  intros H. unfold Sidebar.all_or.
  destruct H as [H | ->]; [|now rewrite orb_true_r].
  rewrite bool_decide_eq_true_2; [reflexivity | now apply list_elem_of_In].
Qed.

(** X20. With "ALL" picked, or nothing picked, in each of the four
    filters of the subscription page, the filtered table is the whole
    prepared table: every record has a year, a type and a vendor of the
    table, and its month name is one of the twelve of the month filter. *)
Theorem subscription_filters_on_all_keep_everything (df : Input)
    (sel_years : list (option Z))
    (sel_months_lbl sel_types sel_vendors : list string) :
  In None sel_years \/ sel_years = [] ->
  In "ALL" sel_months_lbl \/ sel_months_lbl = [] ->
  In "ALL" sel_types \/ sel_types = [] ->
  In "ALL" sel_vendors \/ sel_vendors = [] ->
  Sidebar.filtered sel_years sel_months_lbl sel_types sel_vendors (_prepare df)
  = _prepare df.
Proof.
  intros Hy Hm Ht Hv. unfold Sidebar.filtered. cbv zeta.
  rewrite !all_or_all by assumption.
  assert (Ey : Sidebar.all_years_or (map (fun ir => p_Year (snd ir)) (_prepare df))
                 sel_years
               = map (fun ir => p_Year (snd ir)) (_prepare df)).
  { unfold Sidebar.all_years_or.
    destruct Hy as [H | ->]; [|now rewrite orb_true_r].
    rewrite bool_decide_eq_true_2; [reflexivity | now apply list_elem_of_In]. }
  rewrite Ey. unfold frame_filter. apply filter_all.
  intros [i p] Hin. cbn [snd]. unfold isin.
  rewrite !andb_true_iff, !bool_decide_eq_true, !list_elem_of_In.
  repeat split.
  - now apply (in_map (fun ir => p_Year (snd ir)) _ (i, p)).
  - now apply (prepared_month_name df i p).
  - now apply (in_map (fun ir => p_Type (snd ir)) _ (i, p)).
  - now apply (in_map (fun ir => p_Vendor (snd ir)) _ (i, p)).
Qed.

End SidebarFacts.


(** ** The further properties on the inputs of the examples *)

Module FurtherExamples.
Import Pd.

Lemma pick_gives_first_candidate_witness :
  Dashboard._pick Sample.balance_frame Reconcile.id_candidates
  = Some " transaction id "
  /\ exists c, In c Reconcile.id_candidates
               /\ Py.strip (Py.lower " transaction id ") = Py.lower c.
Proof.
  assert (E : Dashboard._pick Sample.balance_frame Reconcile.id_candidates
              = Some " transaction id ") by (vm_compute; reflexivity).
  split; [exact E|].
  destruct (ResolverFacts.pick_gives_first_candidate
              Sample.balance_frame Reconcile.id_candidates) as (_ & H & _).
  destruct (H _ E) as (earlier & c & later & _ & _ & Hc & _ & _ & Hk & _).
  exists c. split; [|exact Hk].
  rewrite Hc. apply in_or_app. right. left. reflexivity.
Defined.

Lemma nice_subset_shape_witness :
  NoDup (Reconcile.columns (Reconcile._nice_subset Sample.balance_frame))
  /\ length (Reconcile.rows (Reconcile._nice_subset Sample.balance_frame)) = 4%nat.
Proof.
  destruct (CheckerFacts.nice_subset_shape Sample.balance_frame)
    as (Hlen & _ & _ & H).
  split; [|exact Hlen].
  apply H. vm_compute. discriminate.
Defined.

Lemma pair_missing_exact_witness :
  exists row,
    In row (Reconcile.rows
              (fst (Reconcile._pair_missing (Some Sample.balance_frame)
                      (Some Sample.expense_frame))))
    /\ Reconcile.cell_at
         (Reconcile.columns
            (fst (Reconcile._pair_missing (Some Sample.balance_frame)
                    (Some Sample.expense_frame))))
         " transaction id " row
       = Str " t2".
Proof.
  destruct (CheckerFacts.pair_missing_exact Sample.balance_frame Sample.expense_frame
              " transaction id " "Transaction ID")
    as [_ H]; try (vm_compute; reflexivity).
  apply (H [Str " t2"; Str "6"; Str "z"]).
  - vm_compute. right. left. reflexivity.
  - vm_compute. discriminate.
  - vm_compute. discriminate.
  - intros r' [<- | [<- | []]]; vm_compute; discriminate.
Defined.

Lemma unified_category_by_type_witness :
  exists u,
    In u (Sample.df [Sample.scenario_payout] Sample.one_expense)
    /\ Financial.c_Type (Financial.base u) = "PAYOUT"
    /\ Financial.c_Category u = Str "Transfers".
Proof.
  set (u := Financial.rederive_row Sample.to_datetime_Ybd
              (Financial.bf_row Sample.other_is_nan Sample.to_datetime_utc
                 Sample.scenario_payout)).
  assert (Hin : In u (Sample.df [Sample.scenario_payout] Sample.one_expense)).
  { vm_compute. right. left. reflexivity. }
  exists u. split; [exact Hin|]. split; [reflexivity|].
  destruct (unified_category_by_type _ _ _ _ _ u Hin) as (_ & H & _).
  apply H. reflexivity.
Defined.

Lemma user_without_counterparty_witness :
  exists u,
    Sample.df [Sample.top_up] Sample.one_expense !! 1%nat = Some u
    /\ Financial.c_Transaction_Id (Financial.base u) = Str "T-5"
    /\ Financial.c_User u = "Nan"
    /\ Financial.c_Category u = Str "nan".
Proof.
  destruct (user_without_counterparty Sample.other_is_nan Sample.to_datetime_utc
              Sample.to_datetime_Ybd [Sample.top_up] Sample.one_expense
              0%nat Sample.top_up) as (u & Hu & Hid & Huser).
  - reflexivity.
  - vm_compute. discriminate.
  - intros pre ws body rest Ho.
    apply ExtractFacts.search_complete in Ho as (g & Hg).
    vm_compute in Hg. discriminate Hg.
  - exists u. split; [exact Hu|]. split; [exact Hid|]. split; [exact Huser|].
    assert (E : Some (Financial.rederive_row Sample.to_datetime_Ybd
                        (Financial.set_Expense_category NaN
                           (Financial.bf_row Sample.other_is_nan
                              Sample.to_datetime_utc Sample.top_up)))
                = Some u)
      by (rewrite <- Hu; vm_compute; reflexivity).
    injection E as <-. reflexivity.
Defined.

Lemma user_is_in_normal_form_witness :
  exists u,
    In u (Financial.rederive Sample.to_datetime_Ybd [Sample.incomplete_card_row])
    /\ Financial.c_User u = "Jo Bloggs"
    /\ Dashboard.filter_user (Financial.c_User u) = Financial.c_User u.
Proof.
  set (u := Financial.fallback_row
              (Financial.rederive_row Sample.to_datetime_Ybd Sample.incomplete_card_row)).
  assert (Hin : In u (Financial.rederive Sample.to_datetime_Ybd
                        [Sample.incomplete_card_row])).
  { vm_compute. left. reflexivity. }
  exists u. split; [exact Hin|]. split; [reflexivity|].
  apply (user_is_in_normal_form Sample.to_datetime_Ybd _ u Hin).
Defined.

Lemma all_filters_keep_timed_rows_witness :
  Dashboard.filtered_df ["All"]
    (Dashboard.base_filtered ["ALL"] ["ALL"; "2024"] [] 
       (Financial.rederive Sample.to_datetime_Ybd
          [Sample.incomplete_card_row; Sample.adjustment_row]))
  = [].
Proof.
  rewrite (all_filters_keep_timed_rows Sample.to_datetime_Ybd);
    [reflexivity | cbn; auto ..].
Defined.

Lemma sales_team_filter_witness :
  exists u,
    Financial.c_User u = "Mohit Rao"
    /\ In u (Dashboard.filtered_df ["Sales Team"] [u]).
Proof.
  set (u := Dashboard.set_User "Mohit Rao"
              (Financial.rederive_row Sample.to_datetime_Ybd Sample.incomplete_card_row)).
  exists u. split; [reflexivity|].
  apply (sales_team_filter ["Sales Team"] [u] u).
  - intros [H | []]. discriminate H.
  - left. reflexivity.
  - split; [left; reflexivity|]. left. exists "Mohit".
    split; [left; reflexivity | reflexivity].
Defined.

Lemma chart_final_amount_witness :
  exists u,
    In u (Sample.df [Sample.scenario_payout] Sample.one_expense)
    /\ Financial.c_Type (Financial.base u) = "PAYOUT"
    /\ Dashboard.Final_Amount u = Financial.c_Amount (Financial.base u).
Proof.
  set (u := Financial.rederive_row Sample.to_datetime_Ybd
              (Financial.bf_row Sample.other_is_nan Sample.to_datetime_utc
                 Sample.scenario_payout)).
  assert (Hin : In u (Sample.df [Sample.scenario_payout] Sample.one_expense)).
  { vm_compute. right. left. reflexivity. }
  exists u. split; [exact Hin|]. split; [reflexivity|].
  exact (chart_final_amount _ _ _ _ _ u Hin).
Defined.

Lemma pie_source_rows_witness :
  exists u,
    Financial.c_Type (Financial.base u) = "PAYOUT"
    /\ In u (Dashboard.pie_source
               (Sample.df [Sample.scenario_payout; Sample.top_up] Sample.one_expense)).
Proof.
  set (u := Financial.rederive_row Sample.to_datetime_Ybd
              (Financial.bf_row Sample.other_is_nan Sample.to_datetime_utc
                 Sample.scenario_payout)).
  exists u. split; [reflexivity|].
  apply (pie_source_rows Sample.other_is_nan Sample.to_datetime_utc
           Sample.to_datetime_Ybd
           [Sample.scenario_payout; Sample.top_up] Sample.one_expense).
  - intros v Hv. exact Hv.
  - split; [vm_compute; right; left; reflexivity|].
    split; [right; left; reflexivity|].
    split; [reflexivity | discriminate].
Defined.

Lemma header_found_never_stops_witness :
  Header._standardise_columns Sample.raw_sheet = Header.Several_columns
  \/ exists out, Header._standardise_columns Sample.raw_sheet = Header.Standardised out.
Proof.
  destruct (StandardiseFacts.header_found_never_stops Sample.raw_sheet) as [H _].
  apply H. exists 1%nat. split; [cbn; lia | vm_compute; reflexivity].
Defined.

Lemma preamble_never_reaches_the_records_witness :
  exists out,
    Header._standardise_columns Sample.raw_sheet = Header.Standardised out
    /\ Subscription.has_Source out = false
    /\ forall i p,
         In (i, p) (Subscription._prepare Sample.other_float
                      Sample.to_datetime_dayfirst out) ->
         (1 < i < 4)%nat.
Proof.
  eexists. split; [vm_compute; reflexivity|].
  match goal with
  | |- Subscription.has_Source ?o = false /\ _ =>
      destruct (preamble_never_reaches_the_records Sample.other_float
                  Sample.to_datetime_dayfirst Sample.raw_sheet o)
        as (Hs & _ & Hp); [vm_compute; reflexivity|]
  end.
  split; [exact Hs|]. exact Hp.
Defined.

Lemma missing_type_is_no_category_found_witness :
  exists p,
    In (3%nat, p)
       (Sample.subscriptions
          (Subscription.mkSource false [(3%nat, Sample.subscription_row "12.50")]))
    /\ Subscription.p_Type p = "No Category Found".
Proof.
  eexists. split; [vm_compute; left; reflexivity|].
  match goal with
  | |- Subscription.p_Type ?p = _ =>
      destruct (missing_type_is_no_category_found Sample.other_float
                  Sample.to_datetime_dayfirst
                  (Subscription.mkSource false [(3%nat, Sample.subscription_row "12.50")])
                  3%nat p)
        as (r & _ & _ & H); [vm_compute; left; reflexivity|]
  end.
  apply H. left. reflexivity.
Defined.

Lemma subscription_filters_on_all_keep_everything_witness :
  Sidebar.filtered [None; Some 2024%Z] [] ["ALL"] ["Microsoft"; "ALL"]
    (Subscription._prepare Sample.other_float Sample.to_datetime_dayfirst
       (Subscription._standardise_columns
          (Subscription.mkSource true [(3%nat, Sample.subscription_row "12.50")])))
  = Subscription._prepare Sample.other_float Sample.to_datetime_dayfirst
      (Subscription._standardise_columns
         (Subscription.mkSource true [(3%nat, Sample.subscription_row "12.50")])).
Proof.
  apply (subscription_filters_on_all_keep_everything Sample.other_float
           Sample.to_datetime_dayfirst); cbn; auto.
Defined.

End FurtherExamples.
